(** * ERP core backend: inventory, procurement and sales handlers

    A shallow embedding of the route handlers of [app/routes/inventory.py],
    [app/routes/procurement.py] and [app/routes/sales.py] over the tables of
    [app/models.py], followed by the properties of the purchase-order and
    sales-order life cycles.

    Modelling conventions.
    - A table is the list of its rows, oldest first.  [query(...).first()]
      on a primary key is [find]; a bulk [query(...).update(...)] is a [map].
    - Python [int]s are [Z].  An [Integer] column holds a 32-bit value: a
      request that writes one outside [-2147483648, 2147483647] fails when
      the statement is sent and is answered with 500 ([Integer]).  The
      version counters, which grow by one per request, are not checked.
    - A [Numeric] column holds a decimal number of any precision, modelled by
      its value in [Q]; the ORM hands it to Python as a [decimal.Decimal].
      Arithmetic on [Decimal]s computes the exact result and rounds it to the
      28 significant digits of the default context, ties to even
      ([context_round]).  The limits of the exponent range are not modelled.
    - A float of a request body is stored in a [Numeric] column as the
      decimal number its shortest representation denotes (0.1 as 1/10, 1e30
      as 10^30), and is modelled by that number.  An infinite float (1e999 in
      JSON) passes [confloat(gt=0)]; what the store then holds depends on the
      database driver, which is not among the sources.  Requests that carry
      one are not covered.
    - Primary keys are [uuid.uuid4] values; the store carries a supply of
      unused keys ([uuid_supply]), drawn when a row is inserted.
    - A handler runs in one session.  [raise HTTPException] (or an uncaught
      Python exception, reported as status 500) ends the request before
      [db.commit()], so nothing of the session reaches the store.
    - Text, date and timestamp columns that no handler reads or computes
      with (contacts, addresses, [created_at], [updated_at], [paid_at]) are
      left out of the rows and of the responses; the statements below speak
      of the columns that are kept.
    - A query without [order_by] returns its rows in an order the database
      chooses.  [first()] is used on that order only where at most one row
      matches or where any match will do; the handlers that return all rows
      take the order as an argument.
    - Serialising the returned object through the route's [response_model]
      happens after the handler has committed; it is not part of the model. *)

From Stdlib Require Import ZArith QArith List String Ascii Bool Lia Permutation.
Import ListNotations.
Open Scope Z_scope.

Definition Id := nat.

(** ** Column values *)

(** [purchase_orders.po_status] *)
Inductive POStatus :=
| po_pending_price_negotiation | po_approved | po_acknowledged | po_received.

(** [acknowledgements.status]: proposed | accepted | rejected | superseded *)
Inductive AckStatus := ack_proposed | ack_accepted | ack_rejected | ack_superseded.

(** [delivery_inbound.status] and [delivery_outbound.status] *)
Inductive DeliveryStatus := dl_pending | dl_in_transit | dl_received | dl_delivered.

(** [bills.payment_status], [invoices.payment_status] *)
Inductive PaymentStatus := pay_pending | pay_paid | pay_voided.

(** [quotes.status] *)
Inductive QuoteStatus := q_sent | q_revised | q_accepted | q_superseded.

(** [sales_orders.order_status] *)
Inductive OrderStatus :=
| so_pending_price_negotiation | so_confirmed | so_partially_delivered
| so_delivered | so_cancelled.

Definition POStatus_eqb (a b : POStatus) : bool :=
  match a, b with
  | po_pending_price_negotiation, po_pending_price_negotiation
  | po_approved, po_approved
  | po_acknowledged, po_acknowledged
  | po_received, po_received => true
  | _, _ => false
  end.

Definition DeliveryStatus_eqb (a b : DeliveryStatus) : bool :=
  match a, b with
  | dl_pending, dl_pending | dl_in_transit, dl_in_transit
  | dl_received, dl_received | dl_delivered, dl_delivered => true
  | _, _ => false
  end.

Definition PaymentStatus_eqb (a b : PaymentStatus) : bool :=
  match a, b with
  | pay_pending, pay_pending | pay_paid, pay_paid | pay_voided, pay_voided => true
  | _, _ => false
  end.

Definition QuoteStatus_eqb (a b : QuoteStatus) : bool :=
  match a, b with
  | q_sent, q_sent | q_revised, q_revised
  | q_accepted, q_accepted | q_superseded, q_superseded => true
  | _, _ => false
  end.

Definition OrderStatus_eqb (a b : OrderStatus) : bool :=
  match a, b with
  | so_pending_price_negotiation, so_pending_price_negotiation
  | so_confirmed, so_confirmed
  | so_partially_delivered, so_partially_delivered
  | so_delivered, so_delivered
  | so_cancelled, so_cancelled => true
  | _, _ => false
  end.

(** ** Tables ([app/models.py]) *)

Module StockItem.
Record t := mk {
  item_id : Id;
  item_name : string;
  item_qty : Z;
  rate : Q;
  safety_stock : Z }.
Definition set_item_qty (v : Z) (r : t) : t :=
  mk (item_id r) (item_name r) v (rate r) (safety_stock r).
End StockItem.

Module Supplier.
Record t := mk {
  supplier_id : Id;
  supplier_name : string;
  account_balance : Q }.
Definition set_account_balance (v : Q) (r : t) : t :=
  mk (supplier_id r) (supplier_name r) v.
End Supplier.

Module PurchaseOrder.
Record t := mk {
  po_id : Id;
  supplier_id : Id;
  item_id : Id;
  qty_ordered : Z;
  final_price_per_item : option Q;
  po_status : POStatus }.
Definition set_final_price_per_item (v : option Q) (r : t) : t :=
  mk (po_id r) (supplier_id r) (item_id r) (qty_ordered r) v (po_status r).
Definition set_po_status (v : POStatus) (r : t) : t :=
  mk (po_id r) (supplier_id r) (item_id r) (qty_ordered r)
     (final_price_per_item r) v.
End PurchaseOrder.

Module Acknowledgement.
Record t := mk {
  ack_id : Id;
  po_id : Id;
  final_price_per_item : option Q;
  status : AckStatus;
  is_final : bool;
  version : Z }.
Definition set_status (v : AckStatus) (r : t) : t :=
  mk (ack_id r) (po_id r) (final_price_per_item r) v (is_final r) (version r).
Definition set_is_final (v : bool) (r : t) : t :=
  mk (ack_id r) (po_id r) (final_price_per_item r) (status r) v (version r).
End Acknowledgement.

Module DeliveryInbound.
Record t := mk {
  delivery_inbound_id : Id;
  po_id : Id;
  status : DeliveryStatus }.
End DeliveryInbound.

Module Bill.
Record t := mk {
  bill_id : Id;
  po_id : Id;
  ack_id : Id;
  payment_status : PaymentStatus;
  payment_reference : option string }.
Definition set_payment (s : PaymentStatus) (ref : option string) (r : t) : t :=
  mk (bill_id r) (po_id r) (ack_id r) s ref.
End Bill.

Module Client.
Record t := mk {
  client_id : Id;
  client_name : string;
  account_balance : Q }.
Definition set_account_balance (v : Q) (r : t) : t :=
  mk (client_id r) (client_name r) v.
End Client.

Module Quote.
Record t := mk {
  quote_id : Id;
  client_id : Id;
  item_id : Id;
  order_qty : Z;
  final_price_per_item : Q;
  status : QuoteStatus;
  version : Z;
  is_final : bool;
  superseded_by : option Id }.
Definition set_status (v : QuoteStatus) (r : t) : t :=
  mk (quote_id r) (client_id r) (item_id r) (order_qty r)
     (final_price_per_item r) v (version r) (is_final r) (superseded_by r).
Definition set_is_final (v : bool) (r : t) : t :=
  mk (quote_id r) (client_id r) (item_id r) (order_qty r)
     (final_price_per_item r) (status r) (version r) v (superseded_by r).
Definition set_superseded_by (v : option Id) (r : t) : t :=
  mk (quote_id r) (client_id r) (item_id r) (order_qty r)
     (final_price_per_item r) (status r) (version r) (is_final r) v.
End Quote.

Module SalesOrder.
Record t := mk {
  so_id : Id;
  client_id : Id;
  quote_id : option Id;
  item_id : Id;
  qty_ordered : Z;
  final_price_per_item : Q;
  order_status : OrderStatus;
  invoice_id : option Id }.
Definition set_order_status (v : OrderStatus) (r : t) : t :=
  mk (so_id r) (client_id r) (quote_id r) (item_id r) (qty_ordered r)
     (final_price_per_item r) v (invoice_id r).
Definition set_invoice_id (v : option Id) (r : t) : t :=
  mk (so_id r) (client_id r) (quote_id r) (item_id r) (qty_ordered r)
     (final_price_per_item r) (order_status r) v.
End SalesOrder.

Module DeliveryOutbound.
Record t := mk {
  delivery_outbound_id : Id;
  so_id : Id;
  delivered_qty : Z;
  status : DeliveryStatus }.
End DeliveryOutbound.

Module Invoice.
Record t := mk {
  invoice_id : Id;
  so_id : Id;
  quote_id : option Id;
  payment_status : PaymentStatus;
  voided : bool }.
Definition set_voided (s : PaymentStatus) (v : bool) (r : t) : t :=
  mk (invoice_id r) (so_id r) (quote_id r) s v.
End Invoice.

(** ** The store *)

Record Db := mkDb {
  stock_items : list StockItem.t;
  suppliers : list Supplier.t;
  purchase_orders : list PurchaseOrder.t;
  acknowledgements : list Acknowledgement.t;
  delivery_inbound : list DeliveryInbound.t;
  bills : list Bill.t;
  clients : list Client.t;
  quotes : list Quote.t;
  sales_orders : list SalesOrder.t;
  delivery_outbound : list DeliveryOutbound.t;
  invoices : list Invoice.t;
  uuid_supply : Id }.

Definition empty_db : Db := mkDb [] [] [] [] [] [] [] [] [] [] [] 0%nat.

Definition set_stock_items v (d : Db) : Db :=
  mkDb v (suppliers d) (purchase_orders d) (acknowledgements d)
       (delivery_inbound d) (bills d) (clients d) (quotes d) (sales_orders d)
       (delivery_outbound d) (invoices d) (uuid_supply d).
Definition set_suppliers v (d : Db) : Db :=
  mkDb (stock_items d) v (purchase_orders d) (acknowledgements d)
       (delivery_inbound d) (bills d) (clients d) (quotes d) (sales_orders d)
       (delivery_outbound d) (invoices d) (uuid_supply d).
Definition set_purchase_orders v (d : Db) : Db :=
  mkDb (stock_items d) (suppliers d) v (acknowledgements d)
       (delivery_inbound d) (bills d) (clients d) (quotes d) (sales_orders d)
       (delivery_outbound d) (invoices d) (uuid_supply d).
Definition set_acknowledgements v (d : Db) : Db :=
  mkDb (stock_items d) (suppliers d) (purchase_orders d) v
       (delivery_inbound d) (bills d) (clients d) (quotes d) (sales_orders d)
       (delivery_outbound d) (invoices d) (uuid_supply d).
Definition set_delivery_inbound v (d : Db) : Db :=
  mkDb (stock_items d) (suppliers d) (purchase_orders d) (acknowledgements d)
       v (bills d) (clients d) (quotes d) (sales_orders d)
       (delivery_outbound d) (invoices d) (uuid_supply d).
Definition set_bills v (d : Db) : Db :=
  mkDb (stock_items d) (suppliers d) (purchase_orders d) (acknowledgements d)
       (delivery_inbound d) v (clients d) (quotes d) (sales_orders d)
       (delivery_outbound d) (invoices d) (uuid_supply d).
Definition set_clients v (d : Db) : Db :=
  mkDb (stock_items d) (suppliers d) (purchase_orders d) (acknowledgements d)
       (delivery_inbound d) (bills d) v (quotes d) (sales_orders d)
       (delivery_outbound d) (invoices d) (uuid_supply d).
Definition set_quotes v (d : Db) : Db :=
  mkDb (stock_items d) (suppliers d) (purchase_orders d) (acknowledgements d)
       (delivery_inbound d) (bills d) (clients d) v (sales_orders d)
       (delivery_outbound d) (invoices d) (uuid_supply d).
Definition set_sales_orders v (d : Db) : Db :=
  mkDb (stock_items d) (suppliers d) (purchase_orders d) (acknowledgements d)
       (delivery_inbound d) (bills d) (clients d) (quotes d) v
       (delivery_outbound d) (invoices d) (uuid_supply d).
Definition set_delivery_outbound v (d : Db) : Db :=
  mkDb (stock_items d) (suppliers d) (purchase_orders d) (acknowledgements d)
       (delivery_inbound d) (bills d) (clients d) (quotes d) (sales_orders d)
       v (invoices d) (uuid_supply d).
Definition set_invoices v (d : Db) : Db :=
  mkDb (stock_items d) (suppliers d) (purchase_orders d) (acknowledgements d)
       (delivery_inbound d) (bills d) (clients d) (quotes d) (sales_orders d)
       (delivery_outbound d) v (uuid_supply d).
Definition set_uuid_supply v (d : Db) : Db :=
  mkDb (stock_items d) (suppliers d) (purchase_orders d) (acknowledgements d)
       (delivery_inbound d) (bills d) (clients d) (quotes d) (sales_orders d)
       (delivery_outbound d) (invoices d) v.

(** ** The session monad

    A handler is a function of the session's view of the store.  It either
    returns a value together with the new view, or raises with an HTTP status
    code. *)

Inductive Res (A : Type) : Type :=
| Ok (a : A) (db : Db)
| Raise (status_code : Z).
Arguments Ok {A} a db.
Arguments Raise {A} status_code.

Definition M (A : Type) : Type := Db -> Res A.

Definition ret {A} (a : A) : M A := fun db => Ok a db.

Definition bind {A B} (m : M A) (k : A -> M B) : M B :=
  fun db => match m db with
            | Ok a db' => k a db'
            | Raise c => Raise c
            end.

(** [raise HTTPException(status_code=c, ...)] *)
Definition HTTPException {A} (c : Z) : M A := fun _ => Raise c.

Definition query {A} (f : Db -> A) : M A := fun db => Ok (f db) db.

Definition modify (f : Db -> Db) : M unit := fun db => Ok tt (f db).

Declare Scope session_scope.
Delimit Scope session_scope with session.
Notation "x <- m ;; k" := (bind m (fun x => k))
  (at level 61, m at next level, right associativity) : session_scope.
Notation "m ;; k" := (bind m (fun _ => k))
  (at level 61, right associativity) : session_scope.
Open Scope session_scope.

(** Request-body validation (pydantic): a violated constraint is answered
    with 422 before the handler body runs. *)
Definition validate (ok : bool) : M unit :=
  if ok then ret tt else HTTPException 422.

(** The store after a request: the committed session if the handler
    returned, the store as it was if it raised. *)
Definition commit {A} (m : M A) (db : Db) : Db :=
  match m db with
  | Ok _ db' => db'
  | Raise _ => db
  end.

(** ** ORM objects

    A freshly constructed ORM object is not a row yet.  Its primary key is
    declared [default=uuid.uuid4], a column default that SQLAlchemy evaluates
    when the INSERT is emitted (at [flush] or [commit]); until then the
    attribute reads [None]. *)

Record Pending (A : Type) := pending { row_with_pk : Id -> A }.
Arguments pending {A} row_with_pk.
Arguments row_with_pk {A} p pk.

Definition pk_before_flush {A} (_ : Pending A) : option Id := None.

(** [uuid.uuid4()] at INSERT time *)
Definition uuid4 : M Id :=
  fun db => Ok (uuid_supply db) (set_uuid_supply (S (uuid_supply db)) db).

(** [db.add(obj)] followed by the flush that inserts it; returns the row. *)
Definition add_flush {A} (tbl : Db -> list A) (set : list A -> Db -> Db)
    (obj : Pending A) : M A :=
  pk <- uuid4 ;;
  let r := row_with_pk obj pk in
  modify (fun db => set (tbl db ++ [r]) db) ;;
  ret r.

(** [query(T).filter(p).update(...)] and attribute writes on loaded rows *)
Definition update_where {A} (p : A -> bool) (f : A -> A) (l : list A) : list A :=
  map (fun r => if p r then f r else r) l.

(** [Column != value]: SQLAlchemy renders a comparison with [None] as
    [IS NOT NULL], which holds of every primary key. *)
Definition sql_ne (col : Id) (v : option Id) : bool :=
  match v with
  | None => true
  | Some v => negb (Nat.eqb col v)
  end.

(** [confloat(gt=0)] *)
Definition Qpos (p : Q) : bool := negb (Qle_bool p 0).

(** ** [Integer] columns *)

Definition Integer_min : Z := -2147483648.
Definition Integer_max : Z := 2147483647.
Arguments Integer_min : simpl never.
Arguments Integer_max : simpl never.

(** Writing [v] to an [Integer] column: out of range, the INSERT or UPDATE
    fails with a [DataError] ("integer out of range"), which no handler
    catches. *)
Definition Integer (v : Z) : M unit :=
  if (v <? Integer_min) || (Integer_max <? v) then HTTPException 500 else ret tt.

(** ** [Decimal] arithmetic

    [getcontext()]: precision 28, rounding [ROUND_HALF_EVEN]. *)

Definition prec : Z := 28.

(** [n / d] rounded to the nearest integer, ties to the even one; [0 < d]. *)
Definition round_half_even (n d : Z) : Z :=
  let q := n / d in
  match 2 * (n mod d) ?= d with
  | Lt => q
  | Eq => if Z.even q then q else q + 1
  | Gt => q + 1
  end.

(** The exponent [k] of the leading digit of [n / d], that is
    [10^k <= n / d < 10^(k+1)], for positive [n] and [d]
    ([Decimal.adjusted()]). *)
Fixpoint scale_up (fuel : nat) (n d k : Z) : Z :=
  match fuel with
  | O => k
  | S fuel => if n <? d then scale_up fuel (10 * n) d (k - 1) else k
  end.

Fixpoint scale_down (fuel : nat) (n d k : Z) : Z :=
  match fuel with
  | O => k
  | S fuel => if 10 * d <=? n then scale_down fuel n (10 * d) (k + 1) else k
  end.

Definition adjusted (n d : Z) : Z :=
  if n <? d then scale_up (Z.to_nat (Z.log2 d) + 1) n d 0
  else scale_down (Z.to_nat (Z.log2 n) + 1) n d 0.

(** The value kept of an exact result [x]: its [prec] leading digits, the
    last one rounded. *)
Definition context_round (x : Q) : Q :=
  let x := Qred x in
  let n := Z.abs (Qnum x) in
  let d := Zpos (Qden x) in
  if n =? 0 then 0%Q
  else
    let e := adjusted n d - (prec - 1) in
    if e <? 0
    then Qred (Qmake (Z.sgn (Qnum x) * round_half_even (n * 10 ^ (- e)) d)
                     (Z.to_pos (10 ^ (- e))))
    else inject_Z (Z.sgn (Qnum x) * round_half_even n (d * 10 ^ e) * 10 ^ e).

Arguments context_round x : simpl never.

(** [Decimal + Decimal], [Decimal - Decimal], [Decimal * Decimal]; an [int]
    operand is converted exactly first. *)
Definition Decimal_add (a b : Q) : Q := context_round (a + b)%Q.
Definition Decimal_sub (a b : Q) : Q := context_round (a - b)%Q.
Definition Decimal_mul (a b : Q) : Q := context_round (a * b)%Q.

(** [int * Numeric] *)
Definition amount (qty : Z) (price : Q) : Q := Decimal_mul (inject_Z qty) price.

(** ** Inventory ([app/routes/inventory.py], [app/inventory_schemas.py]) *)

Module ItemCreate.
Record t := mk {
  item_name : string;           (* min_length=1 *)
  item_qty : Z;                 (* conint(ge=0) *)
  rate : Q;                     (* confloat(gt=0) *)
  safety_stock : option Z }.    (* Optional[conint(ge=0)], default 0 *)
Definition valid (p : t) : bool :=
  (1 <=? String.length (item_name p))%nat && (0 <=? item_qty p) && Qpos (rate p)
  && match safety_stock p with Some s => 0 <=? s | None => true end.
End ItemCreate.

Inductive AdjustmentType := increase | decrease.

Module StockAdjustmentCreate.
Record t := mk {
  adjustment_type : AdjustmentType;
  quantity : Z;                 (* conint(gt=0) *)
  reason : string }.            (* min_length=3 *)
Definition valid (p : t) : bool :=
  (0 <? quantity p) && (3 <=? String.length (reason p))%nat.
End StockAdjustmentCreate.

Definition first_stock_item (id : Id) : M (option StockItem.t) :=
  query (fun db => find (fun i => Nat.eqb (StockItem.item_id i) id) (stock_items db)).

(** [item.item_qty = v] on the loaded row [id] *)
Definition write_item_qty (id : Id) (v : Z) : M unit :=
  modify (fun db =>
    set_stock_items
      (update_where (fun i => Nat.eqb (StockItem.item_id i) id)
                    (StockItem.set_item_qty v) (stock_items db)) db).

Definition create_inventory_item (item : ItemCreate.t) : M StockItem.t :=
  validate (ItemCreate.valid item) ;;
  let safety_stock :=
    match ItemCreate.safety_stock item with Some s => s | None => 0 end in
  Integer (ItemCreate.item_qty item) ;;
  Integer safety_stock ;;
  add_flush stock_items set_stock_items
    (pending (fun pk =>
       StockItem.mk pk (ItemCreate.item_name item) (ItemCreate.item_qty item)
         (ItemCreate.rate item) safety_stock)).

(** The signed change an adjustment asks for. *)
Definition delta (adjustment : StockAdjustmentCreate.t) : Z :=
  match StockAdjustmentCreate.adjustment_type adjustment with
  | increase => StockAdjustmentCreate.quantity adjustment
  | decrease => - StockAdjustmentCreate.quantity adjustment
  end.

(** Returns [new_item_qty]. *)
Definition adjust_inventory_item (item_id : Id) (adjustment : StockAdjustmentCreate.t)
    : M Z :=
  validate (StockAdjustmentCreate.valid adjustment) ;;
  item <- first_stock_item item_id ;;
  match item with
  | None => HTTPException 404
  | Some item =>
      let current_qty := StockItem.item_qty item in
      let new_qty := current_qty + delta adjustment in
      if new_qty <? 0 then HTTPException 400
      else
        write_item_qty (StockItem.item_id item) new_qty ;;
        Integer new_qty ;;
        ret new_qty
  end.

(** ** Procurement ([app/routes/procurement.py], [app/procurement_schemas.py]) *)

Module SupplierCreate.
Record t := mk { supplier_name : string }.   (* min_length=2 *)
Definition valid (p : t) : bool := (2 <=? String.length (supplier_name p))%nat.
End SupplierCreate.

Module PurchaseOrderCreate.
Record t := mk {
  supplier_id : Id;
  item_id : Id;
  qty_ordered : Z;                  (* conint(gt=0) *)
  expected_price_per_item : Q }.    (* confloat(gt=0) *)
Definition valid (p : t) : bool :=
  (0 <? qty_ordered p) && Qpos (expected_price_per_item p).
End PurchaseOrderCreate.

Module POAcknowledgeRequest.
Record t := mk {
  final_price_per_item : option Q;  (* Optional[confloat(gt=0)] = None *)
  action : string }.
Definition valid (p : t) : bool :=
  match final_price_per_item p with Some q => Qpos q | None => true end.
End POAcknowledgeRequest.

Module BillPaymentRequest.
Record t := mk { payment_reference : string }.   (* min_length=3 *)
Definition valid (p : t) : bool := (3 <=? String.length (payment_reference p))%nat.
End BillPaymentRequest.

Definition first_supplier (id : Id) : M (option Supplier.t) :=
  query (fun db => find (fun s => Nat.eqb (Supplier.supplier_id s) id) (suppliers db)).

Definition first_po (id : Id) : M (option PurchaseOrder.t) :=
  query (fun db => find (fun p => Nat.eqb (PurchaseOrder.po_id p) id) (purchase_orders db)).

Definition write_po (id : Id) (f : PurchaseOrder.t -> PurchaseOrder.t) : M unit :=
  modify (fun db =>
    set_purchase_orders
      (update_where (fun p => Nat.eqb (PurchaseOrder.po_id p) id) f
                    (purchase_orders db)) db).

Definition write_supplier_balance (id : Id) (v : Q) : M unit :=
  modify (fun db =>
    set_suppliers
      (update_where (fun s => Nat.eqb (Supplier.supplier_id s) id)
                    (Supplier.set_account_balance v) (suppliers db)) db).

Definition create_supplier (payload : SupplierCreate.t) : M Supplier.t :=
  validate (SupplierCreate.valid payload) ;;
  add_flush suppliers set_suppliers
    (pending (fun pk => Supplier.mk pk (SupplierCreate.supplier_name payload) 0%Q)).

Definition create_po (payload : PurchaseOrderCreate.t) : M PurchaseOrder.t :=
  validate (PurchaseOrderCreate.valid payload) ;;
  supplier <- first_supplier (PurchaseOrderCreate.supplier_id payload) ;;
  match supplier with
  | None => HTTPException 400
  | Some _ =>
      item <- first_stock_item (PurchaseOrderCreate.item_id payload) ;;
      match item with
      | None => HTTPException 400
      | Some _ =>
          Integer (PurchaseOrderCreate.qty_ordered payload) ;;
          add_flush purchase_orders set_purchase_orders
            (pending (fun pk =>
               PurchaseOrder.mk pk
                 (PurchaseOrderCreate.supplier_id payload)
                 (PurchaseOrderCreate.item_id payload)
                 (PurchaseOrderCreate.qty_ordered payload)
                 (Some (PurchaseOrderCreate.expected_price_per_item payload))
                 po_pending_price_negotiation))
      end
  end.

(** [str.lower()] on ASCII letters.  The three action words are ASCII, and no
    non-ASCII character lower-cases to one of their letters, so membership in
    the action set is decided as in the source. *)
Definition lower_ascii (c : ascii) : ascii :=
  let n := nat_of_ascii c in
  if ((65 <=? n) && (n <=? 90))%nat then ascii_of_nat (n + 32) else c.

Fixpoint lower (s : string) : string :=
  match s with
  | EmptyString => EmptyString
  | String c s' => String (lower_ascii c) (lower s')
  end.

(** [order_by(Acknowledgement.version.desc()).first()] over a filtered table *)
Fixpoint highest_version (l : list Acknowledgement.t) : option Acknowledgement.t :=
  match l with
  | [] => None
  | a :: l' =>
      match highest_version l' with
      | None => Some a
      | Some b =>
          if Acknowledgement.version b <=? Acknowledgement.version a
          then Some a else Some b
      end
  end.

Definition acks_of_po (po_id : Id) (db : Db) : list Acknowledgement.t :=
  filter (fun a => Nat.eqb (Acknowledgement.po_id a) po_id) (acknowledgements db).

Definition acknowledge_po (po_id : Id) (payload : POAcknowledgeRequest.t)
    : M Acknowledgement.t :=
  validate (POAcknowledgeRequest.valid payload) ;;
  po <- first_po po_id ;;
  match po with
  | None => HTTPException 404
  | Some po =>
      if negb (POStatus_eqb (PurchaseOrder.po_status po) po_pending_price_negotiation)
      then HTTPException 400
      else
        (* find latest ACK version *)
        last_ack <- query (fun db => highest_version (acks_of_po po_id db)) ;;
        let next_version :=
          match last_ack with
          | None => 1
          | Some a => Acknowledgement.version a + 1
          end in
        let action := lower (POAcknowledgeRequest.action payload) in
        if negb (String.eqb action "accepted" || String.eqb action "rejected"
                 || String.eqb action "revised")
        then HTTPException 400
        else
          let price := POAcknowledgeRequest.final_price_per_item payload in
          let ack (st : AckStatus) (fin : bool) :=
            pending (fun pk => Acknowledgement.mk pk po_id price st fin next_version) in
          if String.eqb action "accepted" then
            (* supersede all previous ACKs *)
            modify (fun db =>
              set_acknowledgements
                (update_where
                   (fun a => Nat.eqb (Acknowledgement.po_id a) po_id
                             && sql_ne (Acknowledgement.ack_id a)
                                       (pk_before_flush (ack ack_accepted true)))
                   (fun a => Acknowledgement.set_is_final false
                               (Acknowledgement.set_status ack_superseded a))
                   (acknowledgements db)) db) ;;
            (* lock PO price from ACK *)
            write_po (PurchaseOrder.po_id po)
              (fun p => PurchaseOrder.set_po_status po_acknowledged
                          (PurchaseOrder.set_final_price_per_item price p)) ;;
            (* create delivery inbound (logistics starts) *)
            add_flush delivery_inbound set_delivery_inbound
              (pending (fun pk => DeliveryInbound.mk pk po_id dl_in_transit)) ;;
            add_flush acknowledgements set_acknowledgements (ack ack_accepted true)
          else if String.eqb action "rejected" then
            add_flush acknowledgements set_acknowledgements (ack ack_rejected false)
          else
            add_flush acknowledgements set_acknowledgements (ack ack_proposed false)
  end.

(** Returns [new_inventory_qty]. *)
Definition receive_po (po_id : Id) : M Z :=
  po <- first_po po_id ;;
  match po with
  | None => HTTPException 404
  | Some po =>
      (* state guard *)
      if negb (POStatus_eqb (PurchaseOrder.po_status po) po_acknowledged)
      then HTTPException 400
      else
        item <- first_stock_item (PurchaseOrder.item_id po) ;;
        match item with
        | None => HTTPException 404
        | Some item =>
            (* prevent double receive *)
            existing_delivery <- query (fun db =>
              find (fun d => Nat.eqb (DeliveryInbound.po_id d) po_id
                             && DeliveryStatus_eqb (DeliveryInbound.status d) dl_received)
                   (delivery_inbound db)) ;;
            match existing_delivery with
            | Some _ => HTTPException 400
            | None =>
                (* update inventory *)
                let new_qty := StockItem.item_qty item + PurchaseOrder.qty_ordered po in
                write_item_qty (StockItem.item_id item) new_qty ;;
                Integer new_qty ;;
                (* update PO *)
                write_po (PurchaseOrder.po_id po)
                  (PurchaseOrder.set_po_status po_received) ;;
                (* record inbound delivery *)
                add_flush delivery_inbound set_delivery_inbound
                  (pending (fun pk => DeliveryInbound.mk pk po_id dl_received)) ;;
                ret new_qty
            end
        end
  end.

(** [po.qty_ordered * final_ack.final_price_per_item], an [int] times a
    [Decimal]: with a NULL price the product of an [int] and [None] is a
    [TypeError], answered with 500. *)
Definition bill_amount (po : PurchaseOrder.t) (final_ack : Acknowledgement.t)
    : M Q :=
  match Acknowledgement.final_price_per_item final_ack with
  | None => HTTPException 500
  | Some price => ret (amount (PurchaseOrder.qty_ordered po) price)
  end.

Definition create_bill (po_id : Id) : M Bill.t :=
  po <- first_po po_id ;;
  match po with
  | None => HTTPException 404
  | Some po =>
      if negb (POStatus_eqb (PurchaseOrder.po_status po) po_received)
      then HTTPException 400
      else
        existing_bill <- query (fun db =>
          find (fun b => Nat.eqb (Bill.po_id b) po_id) (bills db)) ;;
        match existing_bill with
        | Some _ => HTTPException 400
        | None =>
            final_ack <- query (fun db =>
              find (fun a => Nat.eqb (Acknowledgement.po_id a) po_id
                             && Acknowledgement.is_final a)
                   (acknowledgements db)) ;;
            match final_ack with
            | None => HTTPException 400
            | Some final_ack =>
                supplier <- first_supplier (PurchaseOrder.supplier_id po) ;;
                match supplier with
                | None => HTTPException 404
                | Some supplier =>
                    amt <- bill_amount po final_ack ;;
                    write_supplier_balance (Supplier.supplier_id supplier)
                      (Decimal_add (Supplier.account_balance supplier) amt) ;;
                    add_flush bills set_bills
                      (pending (fun pk =>
                         Bill.mk pk po_id (Acknowledgement.ack_id final_ack)
                                 pay_pending None))
                end
            end
        end
  end.

Definition pay_bill (bill_id : Id) (payload : BillPaymentRequest.t) : M Bill.t :=
  validate (BillPaymentRequest.valid payload) ;;
  bill <- query (fun db => find (fun b => Nat.eqb (Bill.bill_id b) bill_id) (bills db)) ;;
  match bill with
  | None => HTTPException 404
  | Some bill =>
      if PaymentStatus_eqb (Bill.payment_status bill) pay_paid
      then HTTPException 400
      else
        po <- first_po (Bill.po_id bill) ;;
        match po with
        | None => HTTPException 500          (* po.supplier_id on None *)
        | Some po =>
            supplier <- first_supplier (PurchaseOrder.supplier_id po) ;;
            (* calculate bill amount again *)
            final_ack <- query (fun db =>
              find (fun a => Nat.eqb (Acknowledgement.ack_id a) (Bill.ack_id bill))
                   (acknowledgements db)) ;;
            match final_ack with
            | None => HTTPException 500      (* final_ack.final_price_per_item on None *)
            | Some final_ack =>
                amt <- bill_amount po final_ack ;;
                let paid := Bill.set_payment pay_paid
                              (Some (BillPaymentRequest.payment_reference payload)) bill in
                modify (fun db =>
                  set_bills
                    (update_where (fun b => Nat.eqb (Bill.bill_id b) (Bill.bill_id bill))
                       (Bill.set_payment pay_paid
                          (Some (BillPaymentRequest.payment_reference payload)))
                       (bills db)) db) ;;
                match supplier with
                | None => HTTPException 500  (* supplier.account_balance on None *)
                | Some supplier =>
                    write_supplier_balance (Supplier.supplier_id supplier)
                      (Decimal_sub (Supplier.account_balance supplier) amt) ;;
                    ret paid
                end
            end
        end
  end.

(** ** Sales ([app/routes/sales.py], [app/sales_schemas.py]) *)

Module ClientCreate.
Record t := mk { client_name : string }.
End ClientCreate.

Module QuoteCreate.
Record t := mk {
  client_id : Id;
  item_id : Id;
  order_qty : Z;                 (* conint(gt=0) *)
  final_price_per_item : Q }.    (* confloat(gt=0) *)
Definition valid (p : t) : bool := (0 <? order_qty p) && Qpos (final_price_per_item p).
End QuoteCreate.

Module QuoteReviseRequest.
Record t := mk { revised_price_per_item : Q }.   (* confloat(gt=0) *)
Definition valid (p : t) : bool := Qpos (revised_price_per_item p).
End QuoteReviseRequest.

Module SalesOrderCreate.
Record t := mk {
  client_id : Id;
  item_id : Id;
  qty_ordered : Z;               (* conint(gt=0) *)
  final_price_per_item : Z }.    (* conint(gt=0) *)
Definition valid (p : t) : bool := (0 <? qty_ordered p) && (0 <? final_price_per_item p).
End SalesOrderCreate.

Module DeliveryOutboundRequest.
Record t := mk { delivered_qty : Z }.   (* conint(gt=0) *)
Definition valid (p : t) : bool := 0 <? delivered_qty p.
End DeliveryOutboundRequest.

Definition first_client (id : Id) : M (option Client.t) :=
  query (fun db => find (fun c => Nat.eqb (Client.client_id c) id) (clients db)).

Definition first_quote (id : Id) : M (option Quote.t) :=
  query (fun db => find (fun q => Nat.eqb (Quote.quote_id q) id) (quotes db)).

Definition first_so (id : Id) : M (option SalesOrder.t) :=
  query (fun db => find (fun s => Nat.eqb (SalesOrder.so_id s) id) (sales_orders db)).

Definition write_quote (id : Id) (f : Quote.t -> Quote.t) : M unit :=
  modify (fun db =>
    set_quotes
      (update_where (fun q => Nat.eqb (Quote.quote_id q) id) f (quotes db)) db).

Definition write_so (id : Id) (f : SalesOrder.t -> SalesOrder.t) : M unit :=
  modify (fun db =>
    set_sales_orders
      (update_where (fun s => Nat.eqb (SalesOrder.so_id s) id) f (sales_orders db)) db).

Definition write_client_balance (id : Id) (v : Q) : M unit :=
  modify (fun db =>
    set_clients
      (update_where (fun c => Nat.eqb (Client.client_id c) id)
                    (Client.set_account_balance v) (clients db)) db).

(** A [ForeignKey] column naming a row that does not exist makes the INSERT
    fail with an [IntegrityError], answered with 500. *)
Definition foreign_key {A} (referenced : option A) : M unit :=
  match referenced with
  | Some _ => ret tt
  | None => HTTPException 500
  end.

Definition create_client (payload : ClientCreate.t) : M Client.t :=
  add_flush clients set_clients
    (pending (fun pk => Client.mk pk (ClientCreate.client_name payload) 0%Q)).

Definition create_quote (payload : QuoteCreate.t) : M Quote.t :=
  validate (QuoteCreate.valid payload) ;;
  c <- first_client (QuoteCreate.client_id payload) ;;
  foreign_key c ;;
  i <- first_stock_item (QuoteCreate.item_id payload) ;;
  foreign_key i ;;
  Integer (QuoteCreate.order_qty payload) ;;
  add_flush quotes set_quotes
    (pending (fun pk =>
       Quote.mk pk (QuoteCreate.client_id payload) (QuoteCreate.item_id payload)
         (QuoteCreate.order_qty payload) (QuoteCreate.final_price_per_item payload)
         q_sent 1 false None)).

Definition revise_quote (quote_id : Id) (payload : QuoteReviseRequest.t) : M Quote.t :=
  validate (QuoteReviseRequest.valid payload) ;;
  old <- first_quote quote_id ;;
  match old with
  | None => HTTPException 404
  | Some old =>
      if Quote.is_final old then HTTPException 400
      else
        write_quote (Quote.quote_id old) (Quote.set_status q_superseded) ;;
        let new :=
          pending (fun pk =>
            Quote.mk pk (Quote.client_id old) (Quote.item_id old) (Quote.order_qty old)
              (QuoteReviseRequest.revised_price_per_item payload)
              q_revised (Quote.version old + 1) false None) in
        (* old.superseded_by = new.quote_id, read before [new] is inserted *)
        write_quote (Quote.quote_id old) (Quote.set_superseded_by (pk_before_flush new)) ;;
        add_flush quotes set_quotes new
  end.

(** Returns the pair [(quote_id, so_id)]. *)
Definition accept_quote (quote_id : Id) : M (Id * Id) :=
  quote <- first_quote quote_id ;;
  match quote with
  | None => HTTPException 404
  | Some quote =>
      if QuoteStatus_eqb (Quote.status quote) q_accepted then HTTPException 400
      else if Quote.is_final quote then HTTPException 400
      else
        (* reserve inventory *)
        item <- first_stock_item (Quote.item_id quote) ;;
        match item with
        | None => HTTPException 400
        | Some item =>
            if StockItem.item_qty item <? Quote.order_qty quote then HTTPException 400
            else
              (* supersede all other versions *)
              modify (fun db =>
                set_quotes
                  (update_where
                     (fun q => Nat.eqb (Quote.client_id q) (Quote.client_id quote)
                               && Nat.eqb (Quote.item_id q) (Quote.item_id quote)
                               && negb (Quote.is_final q)
                               && sql_ne (Quote.quote_id q) (Some (Quote.quote_id quote)))
                     (Quote.set_status q_superseded) (quotes db)) db) ;;
              write_quote (Quote.quote_id quote)
                (fun q => Quote.set_status q_accepted (Quote.set_is_final true q)) ;;
              write_item_qty (StockItem.item_id item)
                (StockItem.item_qty item - Quote.order_qty quote) ;;
              client <- first_client (Quote.client_id quote) ;;
              foreign_key client ;;
              so <- add_flush sales_orders set_sales_orders
                      (pending (fun pk =>
                         SalesOrder.mk pk (Quote.client_id quote)
                           (Some (Quote.quote_id quote)) (Quote.item_id quote)
                           (Quote.order_qty quote) (Quote.final_price_per_item quote)
                           so_confirmed None)) ;;
              invoice <- add_flush invoices set_invoices
                           (pending (fun pk =>
                              Invoice.mk pk (SalesOrder.so_id so)
                                (Some (Quote.quote_id quote)) pay_pending false)) ;;
              write_so (SalesOrder.so_id so)
                (SalesOrder.set_invoice_id (Some (Invoice.invoice_id invoice))) ;;
              match client with
              | None => HTTPException 500
              | Some client =>
                  (* an int times the Decimal loaded with the quote *)
                  write_client_balance (Client.client_id client)
                    (Decimal_add (Client.account_balance client)
                       (amount (SalesOrder.qty_ordered so)
                               (SalesOrder.final_price_per_item so))) ;;
                  ret (Quote.quote_id quote, SalesOrder.so_id so)
              end
        end
  end.

Definition create_sales_order (payload : SalesOrderCreate.t) : M SalesOrder.t :=
  validate (SalesOrderCreate.valid payload) ;;
  item <- first_stock_item (SalesOrderCreate.item_id payload) ;;
  match item with
  | None => HTTPException 400
  | Some item =>
      if StockItem.item_qty item <? SalesOrderCreate.qty_ordered payload
      then HTTPException 400
      else
        write_item_qty (StockItem.item_id item)
          (StockItem.item_qty item - SalesOrderCreate.qty_ordered payload) ;;
        client <- first_client (SalesOrderCreate.client_id payload) ;;
        foreign_key client ;;
        so <- add_flush sales_orders set_sales_orders
                (pending (fun pk =>
                   SalesOrder.mk pk (SalesOrderCreate.client_id payload) None
                     (SalesOrderCreate.item_id payload)
                     (SalesOrderCreate.qty_ordered payload)
                     (inject_Z (SalesOrderCreate.final_price_per_item payload))
                     so_confirmed None)) ;;
        invoice <- add_flush invoices set_invoices
                     (pending (fun pk =>
                        Invoice.mk pk (SalesOrder.so_id so) None pay_pending false)) ;;
        write_so (SalesOrder.so_id so)
          (SalesOrder.set_invoice_id (Some (Invoice.invoice_id invoice))) ;;
        match client with
        | None => HTTPException 500
        | Some client =>
            (* the attributes of [so] still hold the ints of the payload:
               their product is an exact int *)
            write_client_balance (Client.client_id client)
              (Decimal_add (Client.account_balance client)
                 (inject_Z (SalesOrderCreate.qty_ordered payload
                            * SalesOrderCreate.final_price_per_item payload))) ;;
            ret (SalesOrder.set_invoice_id (Some (Invoice.invoice_id invoice)) so)
        end
  end.

(** [coalesce(sum(DeliveryOutbound.delivered_qty), 0)] filtered on [so_id] *)
Definition total_delivered (so_id : Id) (l : list DeliveryOutbound.t) : Z :=
  fold_right Z.add 0
    (map DeliveryOutbound.delivered_qty
       (filter (fun d => Nat.eqb (DeliveryOutbound.so_id d) so_id) l)).

Definition deliver_sales_order (so_id : Id) (payload : DeliveryOutboundRequest.t)
    : M DeliveryOutbound.t :=
  validate (DeliveryOutboundRequest.valid payload) ;;
  so <- first_so so_id ;;
  match so with
  | None => HTTPException 404
  | Some so =>
      if OrderStatus_eqb (SalesOrder.order_status so) so_cancelled then HTTPException 400
      else if OrderStatus_eqb (SalesOrder.order_status so) so_delivered
      then HTTPException 400
      else
        (* how much already delivered? *)
        total <- query (fun db => total_delivered so_id (delivery_outbound db)) ;;
        let qty := DeliveryOutboundRequest.delivered_qty payload in
        (* prevent over-delivery *)
        if SalesOrder.qty_ordered so <? total + qty then HTTPException 400
        else
          (* update SO status *)
          (if total + qty <? SalesOrder.qty_ordered so
           then write_so (SalesOrder.so_id so)
                  (SalesOrder.set_order_status so_partially_delivered)
           else write_so (SalesOrder.so_id so)
                  (SalesOrder.set_order_status so_delivered)) ;;
          add_flush delivery_outbound set_delivery_outbound
            (pending (fun pk => DeliveryOutbound.mk pk so_id qty dl_delivered))
  end.

Definition cancel_sales_order (so_id : Id) : M unit :=
  so <- first_so so_id ;;
  match so with
  | None => HTTPException 404
  | Some so =>
      if OrderStatus_eqb (SalesOrder.order_status so) so_delivered
         || OrderStatus_eqb (SalesOrder.order_status so) so_partially_delivered
      then HTTPException 400
      else
        item <- first_stock_item (SalesOrder.item_id so) ;;
        match item with
        | None => HTTPException 500          (* item.item_qty on None *)
        | Some item =>
            (* release reservation *)
            let new_qty := StockItem.item_qty item + SalesOrder.qty_ordered so in
            write_item_qty (StockItem.item_id item) new_qty ;;
            write_so (SalesOrder.so_id so) (SalesOrder.set_order_status so_cancelled) ;;
            Integer new_qty
        end
  end.

Definition void_invoice (invoice_id : Id) : M unit :=
  invoice <- query (fun db =>
    find (fun i => Nat.eqb (Invoice.invoice_id i) invoice_id) (invoices db)) ;;
  match invoice with
  | None => HTTPException 404
  | Some invoice =>
      if PaymentStatus_eqb (Invoice.payment_status invoice) pay_paid
      then HTTPException 400
      else
        modify (fun db =>
          set_invoices
            (update_where
               (fun i => Nat.eqb (Invoice.invoice_id i) (Invoice.invoice_id invoice))
               (Invoice.set_voided pay_voided true) (invoices db)) db)
  end.

(** ** Requests and runs

    The mutating endpoints of the three routers.  The GET endpoints only read
    the store. *)

Inductive Request :=
| POST_inventory_items (item : ItemCreate.t)
| POST_inventory_items_adjust (item_id : Id) (adjustment : StockAdjustmentCreate.t)
| POST_suppliers (payload : SupplierCreate.t)
| POST_purchase_orders (payload : PurchaseOrderCreate.t)
| POST_purchase_orders_acknowledge (po_id : Id) (payload : POAcknowledgeRequest.t)
| POST_purchase_orders_receive (po_id : Id)
| POST_bills (po_id : Id)
| POST_bills_pay (bill_id : Id) (payload : BillPaymentRequest.t)
| POST_clients (payload : ClientCreate.t)
| POST_quotes (payload : QuoteCreate.t)
| POST_quotes_revise (quote_id : Id) (payload : QuoteReviseRequest.t)
| POST_quotes_accept (quote_id : Id)
| POST_orders (payload : SalesOrderCreate.t)
| POST_orders_deliver (so_id : Id) (payload : DeliveryOutboundRequest.t)
| POST_orders_cancel (so_id : Id)
| POST_invoices_void (invoice_id : Id).

Definition step (db : Db) (r : Request) : Db :=
  match r with
  | POST_inventory_items item => commit (create_inventory_item item) db
  | POST_inventory_items_adjust i a => commit (adjust_inventory_item i a) db
  | POST_suppliers p => commit (create_supplier p) db
  | POST_purchase_orders p => commit (create_po p) db
  | POST_purchase_orders_acknowledge i p => commit (acknowledge_po i p) db
  | POST_purchase_orders_receive i => commit (receive_po i) db
  | POST_bills i => commit (create_bill i) db
  | POST_bills_pay i p => commit (pay_bill i p) db
  | POST_clients p => commit (create_client p) db
  | POST_quotes p => commit (create_quote p) db
  | POST_quotes_revise i p => commit (revise_quote i p) db
  | POST_quotes_accept i => commit (accept_quote i) db
  | POST_orders p => commit (create_sales_order p) db
  | POST_orders_deliver i p => commit (deliver_sales_order i p) db
  | POST_orders_cancel i => commit (cancel_sales_order i) db
  | POST_invoices_void i => commit (void_invoice i) db
  end.

(** The store after serving [rs] in order, starting from the empty store. *)
Definition run (rs : list Request) : Db := fold_left step rs empty_db.


(** ** Read endpoints

    The GET handlers only query the store.  [float(item.rate)] in the
    inventory responses is the float the rate was created from, carried as
    the stored rate; [created_at] and [updated_at] are left out of the
    responses as they are left out of the rows. *)

Module ItemListResponse.
Record t := mk {
  item_id : Id;
  item_name : string;
  item_qty : Z;
  rate : Q;
  safety_stock : Z;
  below_safety_stock : bool;
  suggested_reorder_qty : Z;
  has_inbound : bool;
  has_outbound : bool }.
End ItemListResponse.

Module ItemDetailResponse.
Record t := mk {
  item_id : Id;
  item_name : string;
  item_qty : Z;
  rate : Q;
  safety_stock : Z;
  below_safety_stock : bool;
  buffer_remaining : Z;
  suggested_reorder_qty : Z;
  has_inbound : bool;
  has_outbound : bool }.
End ItemDetailResponse.

(** The body of the loop of [get_inventory_items]. *)
Definition list_entry (item : StockItem.t) : ItemListResponse.t :=
  let item_qty := StockItem.item_qty item in
  let safety_stock := StockItem.safety_stock item in
  let below_safety_stock := item_qty <? safety_stock in
  let suggested_reorder_qty := if below_safety_stock then safety_stock * 2 else 0 in
  ItemListResponse.mk (StockItem.item_id item) (StockItem.item_name item) item_qty
    (StockItem.rate item) safety_stock below_safety_stock suggested_reorder_qty
    false false.

(** [items] is what [db.query(StockItem).all()] returned: the rows of the
    table, in the order the database chose. *)
Definition get_inventory_items (items : list StockItem.t) : list ItemListResponse.t :=
  map list_entry items.

Definition get_inventory_item_detail (item_id : Id) : M ItemDetailResponse.t :=
  item <- first_stock_item item_id ;;
  match item with
  | None => HTTPException 404
  | Some item =>
      let item_qty := StockItem.item_qty item in
      let safety_stock := StockItem.safety_stock item in
      let below_safety_stock := item_qty <? safety_stock in
      let buffer_remaining := item_qty - safety_stock in
      let suggested_reorder_qty :=
        if below_safety_stock then safety_stock * 2 - item_qty else 0 in
      ret (ItemDetailResponse.mk (StockItem.item_id item) (StockItem.item_name item)
             item_qty (StockItem.rate item) safety_stock below_safety_stock
             buffer_remaining suggested_reorder_qty false false)
  end.


Definition get_po (po_id : Id) : M PurchaseOrder.t :=
  po <- first_po po_id ;;
  match po with
  | None => HTTPException 404
  | Some po => ret po
  end.

Definition get_client (client_id : Id) : M Client.t :=
  client <- first_client client_id ;;
  match client with
  | None => HTTPException 404
  | Some client => ret client
  end.



(** * Observations, invariants and scenarios *)

(** ** Stock quantities *)

Record stock_inv (db : Db) : Prop := {
  stock_nonneg : Forall (fun i => 0 <= StockItem.item_qty i) (stock_items db);
  po_qty_pos : Forall (fun p => 0 < PurchaseOrder.qty_ordered p) (purchase_orders db);
  quote_qty_pos : Forall (fun q => 0 < Quote.order_qty q) (quotes db);
  so_qty_pos : Forall (fun s => 0 < SalesOrder.qty_ordered s) (sales_orders db) }.

Definition stock_scenario : list Request :=
  [POST_inventory_items (ItemCreate.mk "bolt" 100 (2#1) (Some 20))].

(** ** Final proposals *)

Definition final_acks (po_id : Id) (db : Db) : list Acknowledgement.t :=
  filter (fun a => Nat.eqb (Acknowledgement.po_id a) po_id && Acknowledgement.is_final a)
         (acknowledgements db).

Definition final_quotes (client_id item_id : Id) (db : Db) : list Quote.t :=
  filter (fun q => Nat.eqb (Quote.client_id q) client_id
                   && Nat.eqb (Quote.item_id q) item_id && Quote.is_final q)
         (quotes db).

Definition one_final_ack (db : Db) : Prop :=
  forall po_id, (List.length (final_acks po_id db) <= 1)%nat.

Definition repeat_order_scenario : list Request :=
  [POST_clients (ClientCreate.mk "Bob");
   POST_inventory_items (ItemCreate.mk "bolt" 100 (2#1) (Some 20));
   POST_quotes (QuoteCreate.mk 0%nat 1%nat 10 (3#1));
   POST_quotes_accept 2%nat;
   POST_quotes (QuoteCreate.mk 0%nat 1%nat 10 (3#1));
   POST_quotes_accept 5%nat].

(** ** Versions *)

(** The version an acknowledgement of [po_id] created now would get. *)
Definition next_version (po_id : Id) (db : Db) : Z :=
  match highest_version (acks_of_po po_id db) with
  | None => 1
  | Some a => Acknowledgement.version a + 1
  end.

Definition ack_versions (po_id : Id) (db : Db) : list Z :=
  map Acknowledgement.version (acks_of_po po_id db).

Definition versions_distinct (db : Db) : Prop :=
  forall po_id, NoDup (ack_versions po_id db).

(** Rows are flagged, never removed: what identifies a proposal stays. *)
Definition ack_same (a a' : Acknowledgement.t) : Prop :=
  Acknowledgement.ack_id a' = Acknowledgement.ack_id a /\
  Acknowledgement.po_id a' = Acknowledgement.po_id a /\
  Acknowledgement.version a' = Acknowledgement.version a /\
  Acknowledgement.final_price_per_item a' = Acknowledgement.final_price_per_item a.

Definition quote_same (q q' : Quote.t) : Prop :=
  Quote.quote_id q' = Quote.quote_id q /\
  Quote.client_id q' = Quote.client_id q /\
  Quote.item_id q' = Quote.item_id q /\
  Quote.order_qty q' = Quote.order_qty q /\
  Quote.final_price_per_item q' = Quote.final_price_per_item q /\
  Quote.version q' = Quote.version q.

Definition rows_kept (db db' : Db) : Prop :=
  (forall a, In a (acknowledgements db) ->
     exists a', In a' (acknowledgements db') /\ ack_same a a') /\
  (forall q, In q (quotes db) ->
     exists q', In q' (quotes db') /\ quote_same q q').

Definition double_revision_scenario : list Request :=
  [POST_clients (ClientCreate.mk "Bob");
   POST_inventory_items (ItemCreate.mk "bolt" 100 (2#1) (Some 20));
   POST_quotes (QuoteCreate.mk 0%nat 1%nat 10 (3#1))].

Definition negotiation_scenario : list Request :=
  [POST_suppliers (SupplierCreate.mk "Acme");
   POST_inventory_items (ItemCreate.mk "bolt" 100 (2#1) (Some 20));
   POST_purchase_orders (PurchaseOrderCreate.mk 0%nat 1%nat 50 (10#1));
   POST_purchase_orders_acknowledge 2%nat
     (POAcknowledgeRequest.mk (Some (19#2)) "revised")].

Definition accepting : POAcknowledgeRequest.t :=
  POAcknowledgeRequest.mk (Some (9#1)) "Accepted".

Definition quote_scenario : list Request :=
  [POST_clients (ClientCreate.mk "Bob");
   POST_inventory_items (ItemCreate.mk "bolt" 100 (2#1) (Some 20));
   POST_quotes (QuoteCreate.mk 0%nat 1%nat 10 (3#1));
   POST_quotes (QuoteCreate.mk 0%nat 1%nat 20 (3#1))].

(** ** Keys *)

Record keys_inv (db : Db) : Prop := {
  bill_keys : Forall (fun b => (Bill.bill_id b < uuid_supply db)%nat) (bills db);
  ack_keys : Forall (fun a => (Acknowledgement.ack_id a < uuid_supply db)%nat)
               (acknowledgements db);
  ack_keys_unique : NoDup (map Acknowledgement.ack_id (acknowledgements db));
  so_keys : Forall (fun s => (SalesOrder.so_id s < uuid_supply db)%nat) (sales_orders db);
  so_keys_unique : NoDup (map SalesOrder.so_id (sales_orders db));
  delivery_keys : Forall (fun d => (DeliveryOutbound.so_id d < uuid_supply db)%nat)
                    (delivery_outbound db) }.

(** ** Decimal arithmetic *)

(** [x] has at most [prec] significant digits: it is [c * 10^a / 10^b] for a
    coefficient [c] of at most [prec] digits. *)
Definition within_precision (x : Q) : Prop :=
  exists c a b, 0 <= a /\ 0 <= b /\ Z.abs c < 10 ^ prec /\
                (x == (c * 10 ^ a) # Z.to_pos (10 ^ b))%Q.


(** ** Receiving, billing and paying *)

Definition received_delivery (po_id : Id) (d : DeliveryInbound.t) : bool :=
  Nat.eqb (DeliveryInbound.po_id d) po_id
  && DeliveryStatus_eqb (DeliveryInbound.status d) dl_received.

Definition supplier_balance (supplier_id : Id) (db : Db) : option Q :=
  option_map Supplier.account_balance
    (find (fun s => Nat.eqb (Supplier.supplier_id s) supplier_id) (suppliers db)).

(** Balances are results of [Decimal] arithmetic. *)
Record balances_inv (db : Db) : Prop := {
  supplier_balances_rounded :
    Forall (fun s => within_precision (Supplier.account_balance s)) (suppliers db);
  client_balances_rounded :
    Forall (fun c => within_precision (Client.account_balance c)) (clients db) }.

(** ** Sales orders *)

Definition item_exists (item_id : Id) (db : Db) : Prop :=
  find (fun i => Nat.eqb (StockItem.item_id i) item_id) (stock_items db) <> None.

Definition so_items_exist (db : Db) : Prop :=
  Forall (fun s => item_exists (SalesOrder.item_id s) db) (sales_orders db).

(** Quantity delivered so far against a sales order. *)
Definition delivered (s : SalesOrder.t) (db : Db) : Z :=
  total_delivered (SalesOrder.so_id s) (delivery_outbound db).

Definition status_matches (s : SalesOrder.t) (t : Z) : Prop :=
  0 < SalesOrder.qty_ordered s /\
  match SalesOrder.order_status s with
  | so_delivered => t = SalesOrder.qty_ordered s
  | so_partially_delivered => 0 < t < SalesOrder.qty_ordered s
  | _ => t = 0
  end.

Definition delivery_inv (db : Db) : Prop :=
  Forall (fun s => status_matches s (delivered s db)) (sales_orders db).

Definition partial_delivery_scenario : list Request :=
  [POST_clients (ClientCreate.mk "Bob");
   POST_inventory_items (ItemCreate.mk "bolt" 100 (2#1) (Some 20));
   POST_quotes (QuoteCreate.mk 0%nat 1%nat 10 (3#1));
   POST_quotes_accept 2%nat;
   POST_orders_deliver 3%nat (DeliveryOutboundRequest.mk 4)].

Definition partially_delivered_order : SalesOrder.t :=
  SalesOrder.mk 3%nat 0%nat (Some 2%nat) 1%nat 10 (3#1) so_partially_delivered (Some 4%nat).

Definition short_stock_scenario : list Request :=
  [POST_clients (ClientCreate.mk "Bob");
   POST_inventory_items (ItemCreate.mk "bolt" 5 (2#1) (Some 20));
   POST_quotes (QuoteCreate.mk 0%nat 1%nat 10 (3#1))].

(** ** The purchase-order scenario of the specification *)

Definition acknowledged_scenario : list Request :=
  [POST_suppliers (SupplierCreate.mk "Acme");
   POST_inventory_items (ItemCreate.mk "bolt" 100 (2#1) (Some 20));
   POST_purchase_orders (PurchaseOrderCreate.mk 0%nat 1%nat 50 (10#1));
   POST_purchase_orders_acknowledge 2%nat accepting].

Definition received_scenario : list Request :=
  acknowledged_scenario ++ [POST_purchase_orders_receive 2%nat].

Definition billed_scenario : list Request :=
  received_scenario ++ [POST_bills 2%nat].

Definition acknowledged_po : PurchaseOrder.t :=
  PurchaseOrder.mk 2%nat 0%nat 1%nat 50 (Some (9#1)) po_acknowledged.

Definition bolt : StockItem.t := StockItem.mk 1%nat "bolt" 100 (2#1) 20.

(** The delivery opened by the acknowledgement. *)
Definition opened_delivery : DeliveryInbound.t :=
  DeliveryInbound.mk 3%nat 2%nat dl_in_transit.

(** An acceptance that names no price. *)
Definition priceless_scenario : list Request :=
  [POST_suppliers (SupplierCreate.mk "Acme");
   POST_inventory_items (ItemCreate.mk "bolt" 100 (2#1) (Some 20));
   POST_purchase_orders (PurchaseOrderCreate.mk 0%nat 1%nat 50 (10#1));
   POST_purchase_orders_acknowledge 2%nat (POAcknowledgeRequest.mk None "accepted");
   POST_purchase_orders_receive 2%nat].

Definition cancel_scenario : list Request :=
  [POST_clients (ClientCreate.mk "Bob");
   POST_inventory_items (ItemCreate.mk "bolt" 100 (2#1) (Some 20));
   POST_orders (SalesOrderCreate.mk 0%nat 1%nat 10 3)].

Definition confirmed_order : SalesOrder.t :=
  SalesOrder.mk 2%nat 0%nat None 1%nat 10 (inject_Z 3) so_confirmed (Some 3%nat).

(** A stock item at the largest [Integer] and an acknowledged order of 50. *)
Definition full_stock_scenario : list Request :=
  [POST_suppliers (SupplierCreate.mk "Acme");
   POST_inventory_items (ItemCreate.mk "bolt" 2147483647 (2#1) (Some 20));
   POST_purchase_orders (PurchaseOrderCreate.mk 0%nat 1%nat 50 (10#1));
   POST_purchase_orders_acknowledge 2%nat accepting].

(** An order of 10 on a stock of 2147483647, cancelled once. *)
Definition full_cancel_scenario : list Request :=
  [POST_clients (ClientCreate.mk "Bob");
   POST_inventory_items (ItemCreate.mk "bolt" 2147483647 (2#1) (Some 20));
   POST_orders (SalesOrderCreate.mk 0%nat 1%nat 10 3);
   POST_orders_cancel 2%nat].

(** A supplier that is owed 0.3 for a first order (3 items at 0.1) and has
    delivered a second one, of 1 item at 1e30. *)
Definition owing_scenario : list Request :=
  [POST_suppliers (SupplierCreate.mk "Acme");
   POST_inventory_items (ItemCreate.mk "bolt" 100 (2#1) (Some 20));
   POST_purchase_orders (PurchaseOrderCreate.mk 0%nat 1%nat 3 (1#10));
   POST_purchase_orders_acknowledge 2%nat (POAcknowledgeRequest.mk (Some (1#10)) "accepted");
   POST_purchase_orders_receive 2%nat;
   POST_bills 2%nat;
   POST_purchase_orders
     (PurchaseOrderCreate.mk 0%nat 1%nat 1 (inject_Z (10 ^ 30)));
   POST_purchase_orders_acknowledge 7%nat
     (POAcknowledgeRequest.mk (Some (inject_Z (10 ^ 30))) "accepted");
   POST_purchase_orders_receive 7%nat].

(** * Further observations and invariants *)

(** ** Keys of the remaining tables *)

Record table_keys (db : Db) : Prop := {
  item_keys : Forall (fun i => (StockItem.item_id i < uuid_supply db)%nat) (stock_items db);
  item_keys_unique : NoDup (map StockItem.item_id (stock_items db));
  supplier_keys : Forall (fun s => (Supplier.supplier_id s < uuid_supply db)%nat)
                    (suppliers db);
  supplier_keys_unique : NoDup (map Supplier.supplier_id (suppliers db));
  po_keys : Forall (fun p => (PurchaseOrder.po_id p < uuid_supply db)%nat)
              (purchase_orders db);
  po_keys_unique : NoDup (map PurchaseOrder.po_id (purchase_orders db));
  client_keys : Forall (fun c => (Client.client_id c < uuid_supply db)%nat) (clients db);
  client_keys_unique : NoDup (map Client.client_id (clients db));
  quote_keys : Forall (fun q => (Quote.quote_id q < uuid_supply db)%nat) (quotes db);
  quote_keys_unique : NoDup (map Quote.quote_id (quotes db));
  invoice_keys : Forall (fun i => (Invoice.invoice_id i < uuid_supply db)%nat)
                   (invoices db);
  invoice_keys_unique : NoDup (map Invoice.invoice_id (invoices db));
  bill_keys_unique : NoDup (map Bill.bill_id (bills db)) }.

(** ** Quantities fit their columns *)


(** ** Scenarios for what follows *)

Definition acme : SupplierCreate.t := SupplierCreate.mk "Acme".

Definition bob : ClientCreate.t := ClientCreate.mk "Bob".

Definition bolts : ItemCreate.t := ItemCreate.mk "bolt" 100 (2#1) (Some 20).

Definition supplier_and_item : list Request :=
  [POST_suppliers acme; POST_inventory_items bolts].

Definition client_and_item : list Request :=
  [POST_clients bob; POST_inventory_items bolts].

Definition adjust_by (t : AdjustmentType) (q : Z) (reason : string) : StockAdjustmentCreate.t :=
  StockAdjustmentCreate.mk t q reason.

Definition valid_action (action : string) : bool :=
  String.eqb (lower action) "accepted" || String.eqb (lower action) "rejected"
  || String.eqb (lower action) "revised".

Definition pending_po_scenario : list Request :=
  supplier_and_item
  ++ [POST_purchase_orders (PurchaseOrderCreate.mk 0%nat 1%nat 50 (10#1))].

Definition pending_po : PurchaseOrder.t :=
  PurchaseOrder.mk 2%nat 0%nat 1%nat 50 (Some (10#1)) po_pending_price_negotiation.

Definition rejecting : POAcknowledgeRequest.t :=
  POAcknowledgeRequest.mk (Some (12#1)) "REJECTED".

(** ** Life cycle of a purchase order *)

Definition po_rank (s : POStatus) : nat :=
  match s with
  | po_pending_price_negotiation => 0
  | po_approved => 1
  | po_acknowledged => 2
  | po_received => 3
  end.

(** [po'] is a later state of the row [po]. *)
Definition po_advances (po po' : PurchaseOrder.t) : Prop :=
  PurchaseOrder.po_id po' = PurchaseOrder.po_id po /\
  PurchaseOrder.supplier_id po' = PurchaseOrder.supplier_id po /\
  PurchaseOrder.item_id po' = PurchaseOrder.item_id po /\
  PurchaseOrder.qty_ordered po' = PurchaseOrder.qty_ordered po /\
  (po_rank (PurchaseOrder.po_status po) <= po_rank (PurchaseOrder.po_status po'))%nat /\
  (PurchaseOrder.po_status po <> po_pending_price_negotiation ->
   PurchaseOrder.final_price_per_item po' = PurchaseOrder.final_price_per_item po).

Definition po_lookup (po_id : Id) (db : Db) : option PurchaseOrder.t :=
  find (fun p => Nat.eqb (PurchaseOrder.po_id p) po_id) (purchase_orders db).

(** ** Bills *)

(** A bill is for a received purchase order and names a final
    acknowledgement of that order. *)
Definition bill_linked (db : Db) (b : Bill.t) : Prop :=
  (exists po, po_lookup (Bill.po_id b) db = Some po /\
              PurchaseOrder.po_status po = po_received) /\
  (exists a, In a (acknowledgements db) /\
             Acknowledgement.ack_id a = Bill.ack_id b /\
             Acknowledgement.po_id a = Bill.po_id b /\
             Acknowledgement.is_final a = true).

Record bills_inv (db : Db) : Prop := {
  bills_linked : Forall (bill_linked db) (bills db);
  one_bill_per_po : NoDup (map Bill.po_id (bills db)) }.

(** ** Sales orders, their invoices and their quotes *)

Definition invoice_lookup (invoice_id : Id) (db : Db) : option Invoice.t :=
  find (fun i => Nat.eqb (Invoice.invoice_id i) invoice_id) (invoices db).

Definition quote_lookup (quote_id : Id) (db : Db) : option Quote.t :=
  find (fun q => Nat.eqb (Quote.quote_id q) quote_id) (quotes db).

(** The sales order [s] has an invoice that names it, and, when it came from
    a quote, that quote is accepted, final and agrees with the order. *)
Definition so_linked (db : Db) (s : SalesOrder.t) : Prop :=
  SalesOrder.order_status s <> so_pending_price_negotiation /\
  (exists inv,
     SalesOrder.invoice_id s = Some (Invoice.invoice_id inv) /\
     invoice_lookup (Invoice.invoice_id inv) db = Some inv /\
     Invoice.so_id inv = SalesOrder.so_id s /\
     Invoice.quote_id inv = SalesOrder.quote_id s) /\
  match SalesOrder.quote_id s with
  | None => True
  | Some q =>
      exists quote,
        quote_lookup q db = Some quote /\
        Quote.status quote = q_accepted /\
        Quote.is_final quote = true /\
        Quote.client_id quote = SalesOrder.client_id s /\
        Quote.item_id quote = SalesOrder.item_id s /\
        Quote.order_qty quote = SalesOrder.qty_ordered s /\
        Quote.final_price_per_item quote = SalesOrder.final_price_per_item s
  end.

Definition sales_linked (db : Db) : Prop := Forall (so_linked db) (sales_orders db).

Definition accepted_quote_scenario : list Request :=
  client_and_item
  ++ [POST_quotes (QuoteCreate.mk 0%nat 1%nat 10 (3#1)); POST_quotes_accept 2%nat].

Definition order_from_quote : SalesOrder.t :=
  SalesOrder.mk 3%nat 0%nat (Some 2%nat) 1%nat 10 (3#1) so_confirmed (Some 4%nat).

(** ** Cancelling, voiding and closed quotes *)

Definition client_balance (client_id : Id) (db : Db) : option Q :=
  option_map Client.account_balance
    (find (fun c => Nat.eqb (Client.client_id c) client_id) (clients db)).


(** Statuses a sales order can move to from a given status. *)
Definition so_moves (s s' : OrderStatus) : Prop :=
  match s with
  | so_delivered => s' = so_delivered
  | so_cancelled => s' = so_cancelled
  | so_partially_delivered => s' = so_partially_delivered \/ s' = so_delivered
  | _ => True
  end.

Definition so_lookup (so_id : Id) (db : Db) : option SalesOrder.t :=
  find (fun s => Nat.eqb (SalesOrder.so_id s) so_id) (sales_orders db).

(** [s'] is a later state of the sales order [s]. *)
Definition so_advances (s s' : SalesOrder.t) : Prop :=
  SalesOrder.so_id s' = SalesOrder.so_id s /\
  SalesOrder.client_id s' = SalesOrder.client_id s /\
  SalesOrder.item_id s' = SalesOrder.item_id s /\
  SalesOrder.qty_ordered s' = SalesOrder.qty_ordered s /\
  SalesOrder.final_price_per_item s' = SalesOrder.final_price_per_item s /\
  so_moves (SalesOrder.order_status s) (SalesOrder.order_status s').

Definition invoices_sound (db : Db) : Prop :=
  Forall (fun i => Invoice.payment_status i <> pay_paid /\
                   (Invoice.voided i = true <-> Invoice.payment_status i = pay_voided))
         (invoices db).

(** ** Inventory views *)

Definition below_safety (item : StockItem.t) : bool :=
  StockItem.item_qty item <? StockItem.safety_stock item.

Definition low_stock_scenario : list Request :=
  stock_scenario
  ++ [POST_inventory_items_adjust 0%nat (adjust_by decrease 90 "sold")].
(** * Properties *)

(** ** Tables as lists *)

Section Tables.
Context {A : Type}.
Implicit Types (p : A -> bool) (f : A -> A) (l : list A).

Lemma In_update_where p f l x :
  In x (update_where p f l) <->
  exists y, In y l /\ x = (if p y then f y else y).
Proof.
  unfold update_where. rewrite in_map_iff.
  split; intros [y [H1 H2]]; exists y; split; auto.
Qed.

Lemma Forall_update_where (P : A -> Prop) p f l :
  Forall P l ->
  (forall x, In x l -> P x -> p x = true -> P (f x)) ->
  Forall P (update_where p f l).
Proof.
  rewrite !Forall_forall. intros H Hf x Hx.
  apply In_update_where in Hx. destruct Hx as [y [Hy ->]].
  destruct (p y) eqn:E; auto.
Qed.

Lemma Forall_snoc (P : A -> Prop) l x :
  Forall P l -> P x -> Forall P (l ++ [x]).
Proof. intros. apply Forall_app. split; auto. Qed.

Lemma update_where_length p f l : List.length (update_where p f l) = List.length l.
Proof. apply length_map. Qed.

(** Looking a row up by a key that the update leaves alone. *)
Lemma find_update_where (key : A -> Id) p f l id :
  (forall x, key (f x) = key x) ->
  find (fun x => Nat.eqb (key x) id) (update_where p f l) =
  option_map (fun x => if p x then f x else x)
             (find (fun x => Nat.eqb (key x) id) l).
Proof.
  intros Hk. induction l as [|a l IH]; simpl; auto.
  assert (key (if p a then f a else a) = key a) as ->
    by (destruct (p a); auto).
  destruct (Nat.eqb (key a) id); auto.
Qed.

Lemma find_snoc_old (q : A -> bool) l x r :
  find q l = Some r -> find q (l ++ [x]) = Some r.
Proof.
  induction l as [|a l IH]; simpl; [discriminate|].
  destruct (q a); auto.
Qed.

Lemma find_snoc_new (q : A -> bool) l x :
  find q l = None -> find q (l ++ [x]) = if q x then Some x else None.
Proof.
  induction l as [|a l IH]; simpl; auto.
  destruct (q a); [discriminate|auto].
Qed.

Lemma find_none_iff (q : A -> bool) l :
  find q l = None <-> forall x, In x l -> q x = false.
Proof.
  split.
  - intros H x Hx. exact (find_none q l H x Hx).
  - induction l as [|a l IH]; simpl; auto. intros H.
    rewrite (H a (or_introl eq_refl)). apply IH. intros; apply H; auto.
Qed.
End Tables.

(** ** Runs *)

Lemma run_snoc rs r : run (rs ++ [r]) = step (run rs) r.
Proof. unfold run. rewrite fold_left_app. reflexivity. Qed.

(** A property of the empty store that every request preserves holds after
    every run. *)
Lemma run_invariant (P : Db -> Prop) :
  P empty_db ->
  (forall db r, P db -> P (step db r)) ->
  forall rs, P (run rs).
Proof.
  intros H0 Hstep rs. induction rs as [|r rs IH] using rev_ind.
  - exact H0.
  - rewrite run_snoc. auto.
Qed.

(** ** [Integer] columns *)

Lemma Integer_test_false v :
  Integer_min <= v <= Integer_max ->
  (v <? Integer_min) || (Integer_max <? v) = false.
Proof.
  intros [H1 H2]. apply orb_false_iff. split; apply Z.ltb_ge; assumption.
Qed.

Lemma Integer_test_true v :
  v < Integer_min \/ Integer_max < v ->
  (v <? Integer_min) || (Integer_max <? v) = true.
Proof.
  intros [H|H]; apply orb_true_iff; [left|right]; apply Z.ltb_lt; assumption.
Qed.

Lemma Integer_test_range v :
  (v <? Integer_min) || (Integer_max <? v) = false ->
  Integer_min <= v <= Integer_max.
Proof.
  intros H. apply orb_false_iff in H. destruct H as [H1 H2].
  apply Z.ltb_ge in H1, H2. split; assumption.
Qed.

(** Opening a handler: unfold the session operations and split on every test
    the handler makes. *)
Ltac unfold_session :=
  cbv beta iota zeta delta
    [commit bind ret query modify validate HTTPException add_flush uuid4
     foreign_key pk_before_flush row_with_pk bill_amount Integer
     first_stock_item first_supplier first_po first_client first_quote first_so
     write_item_qty write_po write_supplier_balance write_quote write_so
     write_client_balance delta] in *.

Ltac split_test :=
  match goal with
  | |- context [match ?x with _ => _ end] =>
      lazymatch x with
      | context [match _ with _ => _ end] => fail
      | _ => destruct x eqn:?
      end
  end.

Ltac open_handler := unfold_session; repeat (split_test; unfold_session).

Lemma find_Forall {A} (P : A -> Prop) (q : A -> bool) l r :
  Forall P l -> find q l = Some r -> P r.
Proof.
  intros H Hf. apply find_some in Hf. rewrite Forall_forall in H. apply H, Hf.
Qed.

Ltac unfold_handlers :=
  unfold create_inventory_item, adjust_inventory_item,
    create_supplier, create_po, acknowledge_po, receive_po, create_bill, pay_bill,
    create_client, create_quote, revise_quote, accept_quote, create_sales_order,
    deliver_sales_order, cancel_sales_order, void_invoice in *.

Ltac unfold_valid :=
  unfold ItemCreate.valid, StockAdjustmentCreate.valid, SupplierCreate.valid,
    PurchaseOrderCreate.valid, POAcknowledgeRequest.valid, BillPaymentRequest.valid,
    QuoteCreate.valid, QuoteReviseRequest.valid, SalesOrderCreate.valid,
    DeliveryOutboundRequest.valid in *.

(** Boolean tests of the handlers as propositions. *)
Ltac bool_facts :=
  unfold_valid;
  repeat match goal with
  | H : _ && _ = true |- _ => apply andb_true_iff in H; destruct H
  | H : _ || _ = false |- _ => apply orb_false_iff in H; destruct H
  | H : negb _ = true |- _ => apply negb_true_iff in H
  | H : negb _ = false |- _ => apply negb_false_iff in H
  | H : (_ <? _) = true |- _ => apply Z.ltb_lt in H
  | H : (_ <? _) = false |- _ => apply Z.ltb_ge in H
  | H : (_ <=? _) = true |- _ => apply Z.leb_le in H
  | H : (_ <=? _) = false |- _ => apply Z.leb_gt in H
  | H : Nat.eqb _ _ = true |- _ => apply Nat.eqb_eq in H
  | H : Nat.eqb _ _ = false |- _ => apply Nat.eqb_neq in H
  end.

(** A row returned by [first()] satisfies what holds of the whole table. *)
Ltac found_rows :=
  repeat match goal with
  | Hf : Forall ?P ?l, H : find _ ?l = Some ?r |- _ =>
      pose proof (find_Forall P _ l r Hf H); clear H
  end; simpl in *.

Ltac invert_ok :=
  match goal with
  | |- Ok _ _ = Ok _ _ -> _ =>
      let H := fresh in intros H; injection H as <- <-
  | |- Raise _ = Ok _ _ -> _ => discriminate
  end.

Lemma filter_map_same {A} (q : A -> bool) (g : A -> A) l :
  (forall x, q (g x) = q x) ->
  List.length (filter q (map g l)) = List.length (filter q l).
Proof.
  intros H. induction l as [|a l IH]; simpl; auto.
  rewrite H. destruct (q a); simpl; auto.
Qed.

Lemma filter_map_none {A} (q : A -> bool) (g : A -> A) l :
  (forall x, q (g x) = false) -> filter q (map g l) = [].
Proof.
  intros H. induction l as [|a l IH]; simpl; auto. rewrite H. auto.
Qed.

Lemma map_filter_factor {A B C} (g : A -> B) (f : A -> C) (q : A -> bool) l1 l2 :
  (forall x y, g x = g y -> q x = q y /\ f x = f y) ->
  map g l1 = map g l2 ->
  map f (filter q l1) = map f (filter q l2).
Proof.
  intros Hg. revert l2. induction l1 as [|x l1 IH]; intros [|y l2] H;
    simpl in *; try discriminate; auto.
  injection H as Hxy Hl. destruct (Hg x y Hxy) as [-> Hf].
  destruct (q y); simpl; [rewrite Hf; f_equal|]; auto.
Qed.

Lemma NoDup_snoc {A} (l : list A) x : NoDup l -> ~ In x l -> NoDup (l ++ [x]).
Proof.
  intros Hl Hx. apply NoDup_app; auto.
  - constructor; [intros []|constructor].
  - intros y Hy [<-|[]]. auto.
Qed.

Lemma kept_update_where {A} (R : A -> A -> Prop) p f (l : list A) a :
  (forall x, R x x) -> (forall x, R x (f x)) ->
  In a l -> exists a', In a' (update_where p f l) /\ R a a'.
Proof.
  intros Hr Hf Hin. exists (if p a then f a else a). split.
  - apply In_update_where. eauto.
  - destruct (p a); auto.
Qed.

Lemma kept_snoc {A} (R : A -> A -> Prop) (l : list A) x a :
  (exists a', In a' l /\ R a a') -> exists a', In a' (l ++ [x]) /\ R a a'.
Proof. intros [a' [H1 H2]]. exists a'. split; auto. apply in_or_app; auto. Qed.

Lemma kept_trans {A} (R : A -> A -> Prop) (l l' : list A) a :
  (forall x y z, R x y -> R y z -> R x z) ->
  (exists a', In a' l /\ R a a') ->
  (forall b, In b l -> exists b', In b' l' /\ R b b') ->
  exists a', In a' l' /\ R a a'.
Proof.
  intros Ht [a' [H1 H2]] H. destruct (H a' H1) as [b' [H3 H4]]. eauto.
Qed.

Lemma kept_update_where2 {A} (R : A -> A -> Prop) p1 f1 p2 f2 (l : list A) a :
  (forall x, R x x) -> (forall x y z, R x y -> R y z -> R x z) ->
  (forall x, R x (f1 x)) -> (forall x, R x (f2 x)) ->
  In a l ->
  exists a', In a' (update_where p2 f2 (update_where p1 f1 l)) /\ R a a'.
Proof.
  intros Hr Ht H1 H2 Hin.
  destruct (kept_update_where R p1 f1 l a Hr H1 Hin) as [b [Hb Rb]].
  destruct (kept_update_where R p2 f2 _ b Hr H2 Hb) as [c [Hc Rc]].
  eauto.
Qed.

Ltac store_simpl :=
  cbn [stock_items suppliers purchase_orders acknowledgements delivery_inbound
       bills clients quotes sales_orders delivery_outbound invoices uuid_supply
       set_stock_items set_suppliers set_purchase_orders set_acknowledgements
       set_delivery_inbound set_bills set_clients set_quotes set_sales_orders
       set_delivery_outbound set_invoices set_uuid_supply] in *.

Lemma map_update_where {A B} (key : A -> B) p f (l : list A) :
  (forall x, key (f x) = key x) ->
  map key (update_where p f l) = map key l.
Proof.
  intros H. unfold update_where. rewrite map_map. apply map_ext.
  intros x. destruct (p x); auto.
Qed.

Lemma Forall_below_mono {A} (key : A -> nat) (l : list A) n m :
  (n <= m)%nat -> Forall (fun x => (key x < n)%nat) l -> Forall (fun x => (key x < m)%nat) l.
Proof. intros Hnm. apply Forall_impl. intros; lia. Qed.

Lemma NoDup_keys_snoc {A} (key : A -> nat) (l : list A) x :
  NoDup (map key l) -> Forall (fun y => (key y < key x)%nat) l ->
  NoDup (map key (l ++ [x])).
Proof.
  intros Hn Hb. rewrite map_app. simpl. apply NoDup_snoc; auto.
  rewrite in_map_iff. intros [y [Hy Hin]]. rewrite Forall_forall in Hb.
  specialize (Hb y Hin). lia.
Qed.

Ltac keys_table :=
  repeat first
    [ assumption
    | rewrite map_update_where by reflexivity
    | apply NoDup_keys_snoc; simpl
    | apply Forall_snoc; simpl
    | apply Forall_update_where; [|simpl; intros; assumption]
    | lia
    | (eapply Forall_below_mono; [|eassumption]; lia) ].

Lemma find_unique_key {A} (key : A -> nat) (l : list A) a :
  NoDup (map key l) -> In a l ->
  find (fun x => Nat.eqb (key x) (key a)) l = Some a.
Proof.
  induction l as [|x l IH]; simpl; [intros _ []|].
  intros Hn [->|Hin].
  - rewrite Nat.eqb_refl. reflexivity.
  - inversion Hn as [|? ? Hx Hl]; subst.
    destruct (Nat.eqb (key x) (key a)) eqn:E.
    + apply Nat.eqb_eq in E. exfalso. apply Hx. rewrite E. apply in_map. exact Hin.
    + apply IH; assumption.
Qed.

Lemma find_fresh_key {A} (key : A -> nat) (l : list A) n :
  Forall (fun x => (key x < n)%nat) l ->
  find (fun x => Nat.eqb (key x) n) l = None.
Proof.
  intros H. apply find_none_iff. intros x Hx. rewrite Forall_forall in H.
  specialize (H x Hx). apply Nat.eqb_neq. lia.
Qed.

Lemma unique_key_eq {A} (key : A -> nat) (l : list A) a b :
  NoDup (map key l) -> In a l -> In b l -> key a = key b -> a = b.
Proof.
  intros Hn Ha Hb E.
  pose proof (find_unique_key key l a Hn Ha) as Fa.
  pose proof (find_unique_key key l b Hn Hb) as Fb.
  rewrite E in Fa. congruence.
Qed.

Lemma find_some_update_where {A} (key : A -> Id) p f (l : list A) id :
  (forall x, key (f x) = key x) ->
  find (fun x => Nat.eqb (key x) id) l <> None ->
  find (fun x => Nat.eqb (key x) id) (update_where p f l) <> None.
Proof.
  intros Hk H. rewrite (find_update_where key) by exact Hk.
  destruct (find _ l); [discriminate|contradiction].
Qed.

Lemma find_some_snoc {A} (q : A -> bool) (l : list A) x :
  find q l <> None -> find q (l ++ [x]) <> None.
Proof.
  intros H. destruct (find q l) eqn:E; [|contradiction].
  rewrite (find_snoc_old q l x a E). discriminate.
Qed.

Lemma POStatus_eqb_eq a b : POStatus_eqb a b = true <-> a = b.
Proof. destruct a, b; simpl; split; intros; congruence. Qed.

Lemma DeliveryStatus_eqb_eq a b : DeliveryStatus_eqb a b = true <-> a = b.
Proof. destruct a, b; simpl; split; intros; congruence. Qed.

Lemma POStatus_eqb_neq a b : POStatus_eqb a b = false <-> a <> b.
Proof. destruct a, b; simpl; split; intros; congruence. Qed.


Lemma OrderStatus_eqb_eq a b : OrderStatus_eqb a b = true <-> a = b.
Proof. destruct a, b; simpl; split; intros; congruence. Qed.


(** ** Decimal arithmetic *)

Lemma context_round_Qeq (x y : Q) : (x == y)%Q -> context_round x = context_round y.
Proof.
  intros H. unfold context_round. rewrite (Qred_complete x y H). reflexivity.
Qed.

Lemma round_half_even_exact m d : 0 < d -> round_half_even (m * d) d = m.
Proof.
  intros Hd. unfold round_half_even.
  rewrite Z.mod_mul by lia. rewrite Z.div_mul by lia.
  simpl. destruct d; try lia; reflexivity.
Qed.

Lemma round_half_even_bounds lo hi n d :
  0 < d -> lo * d <= n -> n <= hi * d -> lo <= round_half_even n d <= hi.
Proof.
  intros Hd Hlo Hhi. unfold round_half_even.
  pose proof (Z.div_mod n d ltac:(lia)) as E.
  pose proof (Z.mod_pos_bound n d Hd) as Hr.
  assert (lo <= n / d) by (apply Z.div_le_lower_bound; lia).
  assert (n / d <= hi) by (apply Z.div_le_upper_bound; lia).
  assert (n / d = hi -> n mod d = 0) by nia.
  destruct (2 * (n mod d) ?= d) eqn:C.
  - apply Z.compare_eq in C. destruct (Z.even (n / d)); lia.
  - lia.
  - apply Z.compare_gt_iff in C. lia.
Qed.

(** The loops that find the leading digit. *)
Lemma scale_down_spec fuel : forall n d k,
  0 < d -> d <= n -> n < d * 10 ^ Z.of_nat fuel ->
  exists j, 0 <= j /\ scale_down fuel n d k = k + j /\
            d * 10 ^ j <= n < d * 10 ^ (j + 1).
Proof.
  induction fuel as [|fuel IH]; intros n d k Hd Hle Hlt.
  - simpl in Hlt. lia.
  - cbn [scale_down]. destruct (10 * d <=? n) eqn:E.
    + apply Z.leb_le in E.
      destruct (IH n (10 * d) (k + 1)) as [j [Hj [-> Hb]]]; try lia.
      { rewrite Nat2Z.inj_succ, Z.pow_succ_r in Hlt by lia. lia. }
      exists (j + 1). split; [lia|]. split; [lia|].
      rewrite !Z.pow_add_r by lia. rewrite Z.pow_add_r in Hb by lia.
      change (10 ^ 1) with 10 in *. lia.
    + apply Z.leb_gt in E. exists 0. simpl. split; [lia|]. split; lia.
Qed.

Lemma scale_up_spec fuel : forall n d k,
  0 < n -> n < d -> d <= n * 10 ^ Z.of_nat fuel ->
  exists j, 0 < j /\ scale_up fuel n d k = k - j /\
            d <= n * 10 ^ j < 10 * d.
Proof.
  induction fuel as [|fuel IH]; intros n d k Hn Hlt Hle.
  - simpl in Hle. lia.
  - cbn [scale_up]. assert ((n <? d) = true) as -> by (apply Z.ltb_lt; lia).
    destruct (Z_lt_le_dec (10 * n) d) as [Hs|Hs].
    + destruct (IH (10 * n) d (k - 1)) as [j [Hj [-> Hb]]]; try lia.
      { rewrite Nat2Z.inj_succ, Z.pow_succ_r in Hle by lia. lia. }
      exists (j + 1). split; [lia|]. split; [lia|].
      rewrite Z.pow_add_r by lia. change (10 ^ 1) with 10. lia.
    + exists 1. split; [lia|]. split.
      * destruct fuel; cbn [scale_up].
        -- lia.
        -- assert ((10 * n <? d) = false) as -> by (apply Z.ltb_ge; lia). lia.
      * change (10 ^ 1) with 10. lia.
Qed.

Lemma pow10_above n : 0 < n -> n < 10 ^ (Z.log2 n + 1).
Proof.
  intros Hn. destruct (Z.log2_spec n Hn) as [_ H].
  eapply Z.lt_le_trans; [exact H|].
  rewrite <- Z.add_1_r.
  apply Z.pow_le_mono_l. split; [lia|lia].
Qed.

Lemma adjusted_spec n d :
  0 < n -> 0 < d ->
  (0 <= adjusted n d /\ d * 10 ^ adjusted n d <= n < d * 10 ^ (adjusted n d + 1)) \/
  (adjusted n d < 0 /\ d <= n * 10 ^ (- adjusted n d) < 10 * d).
Proof.
  intros Hn Hd. unfold adjusted.
  destruct (n <? d) eqn:E.
  - apply Z.ltb_lt in E. right.
    destruct (scale_up_spec (Z.to_nat (Z.log2 d) + 1) n d 0) as [j [Hj [-> Hb]]];
      try lia.
    { rewrite Nat2Z.inj_add, Z2Nat.id by apply Z.log2_nonneg.
      pose proof (pow10_above d Hd). change (Z.of_nat 1) with 1. nia. }
    replace (- (0 - j)) with j by lia. split; [lia|exact Hb].
  - apply Z.ltb_ge in E. left.
    destruct (scale_down_spec (Z.to_nat (Z.log2 n) + 1) n d 0) as [j [Hj [-> Hb]]];
      try lia.
    { rewrite Nat2Z.inj_add, Z2Nat.id by apply Z.log2_nonneg.
      pose proof (pow10_above n Hn). change (Z.of_nat 1) with 1. nia. }
    split; [lia|exact Hb].
Qed.

Lemma pow10_pos e : 0 <= e -> 0 < 10 ^ e.
Proof. intros. apply Z.pow_pos_nonneg; lia. Qed.

Lemma pow10_split u v : 0 <= u -> 0 <= v -> 10 ^ (u + v) = 10 ^ u * 10 ^ v.
Proof. intros. apply Z.pow_add_r; assumption. Qed.

(** With [e] the exponent of the last digit kept, [n / d / 10^e] has [prec]
    digits before the point. *)
Lemma leading_digits n d :
  0 < n -> 0 < d ->
  let e := adjusted n d - (prec - 1) in
  (e < 0 -> 10 ^ (prec - 1) * d <= n * 10 ^ (- e) < 10 ^ prec * d) /\
  (0 <= e -> 10 ^ (prec - 1) * (d * 10 ^ e) <= n < 10 ^ prec * (d * 10 ^ e)).
Proof.
  intros Hn Hd e. subst e. unfold prec.
  change (28 - 1) with 27.
  destruct (adjusted_spec n d Hn Hd) as [[Hk Hb]|[Hk Hb]];
    set (k := adjusted n d) in *; clearbody k.
  - split; intros He.
    + replace (- (k - 27)) with (27 - k) by lia.
      assert (10 ^ 27 = 10 ^ k * 10 ^ (27 - k)) as E1
        by (rewrite <- pow10_split by lia; f_equal; lia).
      assert (10 ^ 28 = 10 ^ (k + 1) * 10 ^ (27 - k)) as E2
        by (rewrite <- pow10_split by lia; f_equal; lia).
      rewrite E1, E2.
      pose proof (pow10_pos (27 - k) ltac:(lia)).
      pose proof (pow10_pos k ltac:(lia)).
      pose proof (pow10_pos (k + 1) ltac:(lia)).
      split; nia.
    + assert (10 ^ k = 10 ^ 27 * 10 ^ (k - 27)) as E1
        by (rewrite <- pow10_split by lia; f_equal; lia).
      assert (10 ^ (k + 1) = 10 ^ 28 * 10 ^ (k - 27)) as E2
        by (rewrite <- pow10_split by lia; f_equal; lia).
      rewrite E1, E2 in Hb. lia.
  - split; intros He; [|lia].
    replace (- (k - 27)) with (27 + - k) by lia.
    rewrite pow10_split by lia.
    change (10 ^ 28) with (10 * 10 ^ 27).
    pose proof (pow10_pos 27 ltac:(lia)).
    split; nia.
Qed.

Lemma exact_coefficient n d c a b e :
  0 < n -> 0 < d -> 0 <= a -> 0 <= b -> 0 <= c < 10 ^ prec ->
  n * 10 ^ b = c * 10 ^ a * d ->
  (e < 0 -> 10 ^ (prec - 1) * d <= n * 10 ^ (- e)) ->
  (0 <= e -> 10 ^ (prec - 1) * (d * 10 ^ e) <= n) ->
  exists m, (e < 0 -> n * 10 ^ (- e) = m * d) /\ (0 <= e -> n = m * (d * 10 ^ e)).
Proof.
  unfold prec. change (28 - 1) with 27.
  intros Hn Hd Ha Hb Hc E Hneg Hpos.
  pose proof (pow10_pos a Ha) as Pa. pose proof (pow10_pos b Hb) as Pb.
  assert (e <= a - b) as He.
  { destruct (Z_lt_le_dec (a - b) e) as [Hlt|]; [exfalso|lia].
    destruct (Z_lt_le_dec e 0) as [En|Ep].
    - specialize (Hneg En).
      pose proof (pow10_pos (- e) ltac:(lia)) as Pe.
      assert (10 ^ 28 * 10 ^ a * 10 ^ (- e) <= 10 ^ 27 * 10 ^ b) as Hle.
      { rewrite <- !pow10_split by lia. apply Z.pow_le_mono_r; lia. }
      assert (10 ^ 27 * d * 10 ^ b <= c * 10 ^ a * d * 10 ^ (- e)) as H1 by nia.
      assert (c * 10 ^ a * d * 10 ^ (- e) < 10 ^ 28 * 10 ^ a * d * 10 ^ (- e)) as H2.
      { assert (0 < 10 ^ a * d * 10 ^ (- e)) by (repeat apply Z.mul_pos_pos; lia).
        nia. }
      nia.
    - specialize (Hpos Ep).
      pose proof (pow10_pos e Ep) as Pe.
      assert (10 ^ 28 * 10 ^ a <= 10 ^ 27 * 10 ^ e * 10 ^ b) as Hle.
      { rewrite <- !pow10_split by lia. apply Z.pow_le_mono_r; lia. }
      assert (10 ^ 27 * (d * 10 ^ e) * 10 ^ b <= c * 10 ^ a * d) as H1 by nia.
      assert (c * 10 ^ a * d < 10 ^ 28 * 10 ^ a * d) as H2.
      { assert (0 < 10 ^ a * d) by (apply Z.mul_pos_pos; lia). nia. }
      nia. }
  exists (c * 10 ^ (a - b - e)).
  pose proof (pow10_pos (a - b - e) ltac:(lia)) as Pm.
  split; intros Hs.
  - pose proof (pow10_pos (- e) ltac:(lia)) as Pe.
    assert (10 ^ (a - b - e) * 10 ^ b = 10 ^ a * 10 ^ (- e)) as Hp
      by (rewrite <- !pow10_split by lia; f_equal; lia).
    apply Z.mul_reg_r with (p := 10 ^ b); [lia|].
    transitivity (c * 10 ^ a * d * 10 ^ (- e)); [rewrite <- E; ring|].
    transitivity (c * d * (10 ^ (a - b - e) * 10 ^ b)); [rewrite Hp; ring|ring].
  - pose proof (pow10_pos e Hs) as Pe.
    assert (10 ^ (a - b - e) * 10 ^ e * 10 ^ b = 10 ^ a) as Hp
      by (rewrite <- !pow10_split by lia; f_equal; lia).
    apply Z.mul_reg_r with (p := 10 ^ b); [lia|].
    rewrite E, <- Hp. ring.
Qed.

Lemma Zpos_to_pos z : 0 < z -> Zpos (Z.to_pos z) = z.
Proof. intros. apply Z2Pos.id. assumption. Qed.

(** Rounding changes nothing where there is nothing to round. *)
Theorem context_round_exact x : within_precision x -> (context_round x == x)%Q.
Proof.
  intros [c [a [b [Ha [Hb [Hc Hx]]]]]].
  pose proof (Qred_correct x) as Hr. rewrite <- Hr in Hx. rewrite <- Hr at 2.
  unfold context_round. destruct (Qred x) as [p d]. cbn [Qnum Qden].
  unfold Qeq in Hx. cbn [Qnum Qden] in Hx.
  rewrite Zpos_to_pos in Hx by (apply pow10_pos; exact Hb).
  destruct (Z.abs p =? 0) eqn:Ez.
  - apply Z.eqb_eq in Ez. assert (p = 0) as -> by lia. reflexivity.
  - apply Z.eqb_neq in Ez.
    assert (0 < Z.abs p) as Hn by lia.
    assert (Z.abs p * 10 ^ b = Z.abs c * 10 ^ a * Zpos d) as E.
    { pose proof (pow10_pos a Ha). pose proof (pow10_pos b Hb).
      rewrite <- (Z.abs_eq (10 ^ b)), <- (Z.abs_eq (10 ^ a)), <- (Z.abs_eq (Zpos d))
        by lia.
      rewrite <- !Z.abs_mul. f_equal. exact Hx. }
    destruct (leading_digits (Z.abs p) (Zpos d) Hn ltac:(lia)) as [Lneg Lpos].
    set (e := adjusted (Z.abs p) (Zpos d) - (prec - 1)) in *. clearbody e.
    destruct (exact_coefficient (Z.abs p) (Zpos d) (Z.abs c) a b e
                Hn ltac:(lia) Ha Hb ltac:(lia) E
                (fun He => proj1 (Lneg He)) (fun He => proj1 (Lpos He)))
      as [m [Mneg Mpos]].
    assert (p = Z.sgn p * Z.abs p) as Hp by (destruct p; reflexivity).
    destruct (e <? 0) eqn:Ee.
    + apply Z.ltb_lt in Ee. rewrite Qred_correct.
      rewrite (Mneg Ee), round_half_even_exact by lia.
      unfold Qeq. cbn [Qnum Qden].
      rewrite Zpos_to_pos by (apply pow10_pos; lia).
      transitivity (Z.sgn p * (Z.abs p * 10 ^ (- e))).
      * rewrite (Mneg Ee). ring.
      * rewrite Z.mul_assoc, <- Hp. reflexivity.
    + apply Z.ltb_ge in Ee.
      rewrite (Mpos Ee) at 1. rewrite round_half_even_exact
        by (pose proof (pow10_pos e Ee); nia).
      unfold Qeq, inject_Z. cbn [Qnum Qden].
      rewrite Z.mul_1_r.
      transitivity (Z.sgn p * Z.abs p); [|symmetry; exact Hp].
      rewrite (Mpos Ee). ring.
Qed.

(** What rounding returns has at most [prec] significant digits. *)
Theorem context_round_within x : within_precision (context_round x).
Proof.
  unfold context_round. destruct (Qred x) as [p d]. cbn [Qnum Qden].
  destruct (Z.abs p =? 0) eqn:Ez.
  - exists 0, 0, 0. unfold prec. repeat split; try lia. 
  - apply Z.eqb_neq in Ez. assert (0 < Z.abs p) as Hn by lia.
    assert (Z.abs (Z.sgn p) = 1) as Hs by (destruct p; try reflexivity; lia).
    destruct (leading_digits (Z.abs p) (Zpos d) Hn ltac:(lia)) as [Lneg Lpos].
    set (e := adjusted (Z.abs p) (Zpos d) - (prec - 1)) in *. clearbody e.
    assert (10 ^ prec = 10 ^ (prec - 1) * 10) as P28 by reflexivity.
    assert (0 < 10 ^ (prec - 1)) as P27 by reflexivity.
    destruct (e <? 0) eqn:Ee.
    + apply Z.ltb_lt in Ee. specialize (Lneg Ee).
      pose proof (round_half_even_bounds (10 ^ (prec - 1)) (10 ^ prec)
                    (Z.abs p * 10 ^ (- e)) (Zpos d) ltac:(lia) ltac:(lia) ltac:(lia))
        as Hc.
      set (c := round_half_even (Z.abs p * 10 ^ (- e)) (Zpos d)) in *. clearbody c.
      destruct (Z_lt_le_dec c (10 ^ prec)) as [Hlt|Hge].
      * exists (Z.sgn p * c), 0, (- e).
        split; [lia|]. split; [lia|]. split.
        -- rewrite Z.abs_mul, Hs. rewrite Z.abs_eq by lia. lia.
        -- rewrite Qred_correct. change (10 ^ 0) with 1. rewrite Z.mul_1_r. reflexivity.
      * assert (c = 10 ^ prec) as -> by lia.
        exists (Z.sgn p * 10 ^ (prec - 1)), 1, (- e).
        split; [lia|]. split; [lia|]. split.
        -- rewrite Z.abs_mul, Hs. rewrite Z.abs_eq by lia. lia.
        -- rewrite Qred_correct. rewrite P28. change (10 ^ 1) with 10.
           rewrite Z.mul_assoc. reflexivity.
    + apply Z.ltb_ge in Ee. specialize (Lpos Ee).
      pose proof (pow10_pos e Ee) as Pe.
      pose proof (round_half_even_bounds (10 ^ (prec - 1)) (10 ^ prec)
                    (Z.abs p) (Zpos d * 10 ^ e) ltac:(nia) ltac:(lia) ltac:(lia))
        as Hc.
      set (c := round_half_even (Z.abs p) (Zpos d * 10 ^ e)) in *. clearbody c.
      destruct (Z_lt_le_dec c (10 ^ prec)) as [Hlt|Hge].
      * exists (Z.sgn p * c), e, 0.
        split; [lia|]. split; [lia|]. split.
        -- rewrite Z.abs_mul, Hs. rewrite Z.abs_eq by lia. lia.
        -- reflexivity.
      * assert (c = 10 ^ prec) as -> by lia.
        exists (Z.sgn p * 10 ^ (prec - 1)), (e + 1), 0.
        split; [lia|]. split; [lia|]. split.
        -- rewrite Z.abs_mul, Hs. rewrite Z.abs_eq by lia. lia.
        -- rewrite pow10_split by lia. change (10 ^ 1) with 10.
           unfold Qeq, inject_Z. cbn [Qnum Qden]. rewrite P28.
           change (Zpos (Z.to_pos (10 ^ 0))) with 1. ring.
Qed.

Corollary context_round_idempotent x :
  (context_round (context_round x) == context_round x)%Q.
Proof. apply context_round_exact, context_round_within. Qed.

(** Integers and decimals of few digits are within the precision. *)
Lemma within_precision_integer (c : Z) :
  Z.abs c < 10 ^ prec -> within_precision (inject_Z c).
Proof.
  intros Hc. exists c, 0, 0. split; [lia|]. split; [lia|]. split; [exact Hc|].
  change (10 ^ 0) with 1. rewrite Z.mul_1_r. reflexivity.
Qed.

Lemma within_precision_decimal (c places : Z) :
  0 <= places -> Z.abs c < 10 ^ prec ->
  within_precision (c # Z.to_pos (10 ^ places)).
Proof.
  intros Hp Hc. exists c, 0, places.
  split; [lia|]. split; [exact Hp|]. split; [exact Hc|].
  change (10 ^ 0) with 1. rewrite Z.mul_1_r. reflexivity.
Qed.

Lemma within_precision_Qeq x y : (x == y)%Q -> within_precision x -> within_precision y.
Proof.
  intros E [c [a [b [Ha [Hb [Hc Hx]]]]]]. exists c, a, b.
  repeat split; try assumption. rewrite <- E. exact Hx.
Qed.
(** ** Stock quantities stay non-negative *)

Lemma stock_inv_empty : stock_inv empty_db.
Proof. constructor; constructor. Qed.

Lemma stock_inv_step db r : stock_inv db -> stock_inv (step db r).
Proof.
  intros [Hi Hp Hq Hs].
  destruct r; simpl; unfold_handlers.
  all: open_handler.
  all: try (constructor; assumption).
  all: constructor; simpl; try assumption.
  all: repeat first [ apply Forall_snoc | apply Forall_update_where ];
       try assumption; simpl; intros; try assumption.
  all: found_rows; bool_facts; try lia.
Qed.

Lemma stock_inv_run rs : stock_inv (run rs).
Proof. apply run_invariant; [exact stock_inv_empty | exact stock_inv_step]. Qed.

(** C1. After every run each stock item has a non-negative quantity; every
    request preserves this (together with the positivity of the ordered
    quantities it relies on); and an adjustment whose resulting quantity
    would be negative is answered with 400 and leaves the store as it was. *)
Theorem stock_quantity_never_negative (rs : list Request) :
  Forall (fun i => 0 <= StockItem.item_qty i) (stock_items (run rs)) /\
  (forall db r, stock_inv db -> stock_inv (step db r)) /\
  (forall db item_id adjustment item,
     StockAdjustmentCreate.valid adjustment = true ->
     find (fun i => Nat.eqb (StockItem.item_id i) item_id) (stock_items db)
       = Some item ->
     StockItem.item_qty item + delta adjustment < 0 ->
     adjust_inventory_item item_id adjustment db = Raise 400 /\
     step db (POST_inventory_items_adjust item_id adjustment) = db).
Proof.
  split; [apply stock_inv_run|]. split; [exact stock_inv_step|].
  intros db item_id adjustment item Hv Hf Hneg.
  assert (adjust_inventory_item item_id adjustment db = Raise 400) as E.
  { unfold adjust_inventory_item. unfold_session. rewrite Hv, Hf.
    apply Z.ltb_lt in Hneg. unfold delta in Hneg. rewrite Hneg. reflexivity. }
  split; [exact E|]. simpl. unfold commit. rewrite E. reflexivity.
Qed.

Lemma stock_quantity_never_negative_witness :
  adjust_inventory_item 0%nat
    (StockAdjustmentCreate.mk decrease 101 "shrinkage") (run stock_scenario)
    = Raise 400 /\
  step (run stock_scenario)
    (POST_inventory_items_adjust 0%nat
       (StockAdjustmentCreate.mk decrease 101 "shrinkage"))
    = run stock_scenario.
Proof.
  apply (proj2 (proj2 (stock_quantity_never_negative stock_scenario))
           (run stock_scenario) 0%nat
           (StockAdjustmentCreate.mk decrease 101 "shrinkage")
           (StockItem.mk 0%nat "bolt" 100 (2#1) 20)).
  - reflexivity.
  - reflexivity.
  - vm_compute. reflexivity.
Defined.

(** ** One final acknowledgement per purchase order *)

Lemma one_final_ack_step db r : one_final_ack db -> one_final_ack (step db r).
Proof.
  intros H.
  destruct r; simpl; unfold_handlers.
  all: open_handler; try assumption.
  all: intros p; specialize (H p); unfold final_acks in *; simpl.
  all: rewrite ?filter_app, ?length_app; simpl.
  all: rewrite ?andb_false_r; simpl; rewrite ?Nat.add_0_r; try assumption.
  all: unfold update_where.
  all: destruct (Nat.eqb po_id p) eqn:E; simpl;
       [ apply Nat.eqb_eq in E; subst p; rewrite filter_map_none; [simpl; lia|]
       | rewrite filter_map_same; [lia|] ].
  all: intros x; rewrite andb_true_r.
  all: destruct (Nat.eqb (Acknowledgement.po_id x) po_id) eqn:E'; simpl; auto.
  all: try (rewrite E'; reflexivity).
  all: try (apply andb_false_r).
  all: apply Nat.eqb_eq in E'; rewrite E', E; reflexivity.
Qed.

Lemma one_final_ack_run rs : one_final_ack (run rs).
Proof.
  apply run_invariant; [intros p; simpl; lia | exact one_final_ack_step].
Qed.

Lemma acknowledge_accept_effect db po_id payload a db' :
  acknowledge_po po_id payload db = Ok a db' ->
  lower (POAcknowledgeRequest.action payload) = "accepted"%string ->
  Acknowledgement.po_id a = po_id /\
  Acknowledgement.is_final a = true /\
  Acknowledgement.status a = ack_accepted /\
  final_acks po_id db' = [a] /\
  (forall b, In b (acknowledgements db') -> Acknowledgement.po_id b = po_id ->
             b <> a ->
             Acknowledgement.status b = ack_superseded /\
             Acknowledgement.is_final b = false).
Proof.
  intros H Hacc. revert H. unfold acknowledge_po. rewrite Hacc.
  open_handler; try discriminate; invert_ok; simpl.
  all: repeat split; auto.
  all: unfold final_acks; simpl.
  all: try (rewrite filter_app; simpl; rewrite Nat.eqb_refl; simpl;
            unfold update_where; rewrite filter_map_none; [reflexivity|];
            intros x; rewrite andb_true_r;
            destruct (Nat.eqb (Acknowledgement.po_id x) po_id) eqn:E; simpl;
            [apply andb_false_r | rewrite E; reflexivity]).
  all: apply in_app_or in H; destruct H as [H|[<-|[]]]; try congruence.
  all: apply In_update_where in H; destruct H as [y [_ ->]].
  all: rewrite andb_true_r in *.
  all: destruct (Nat.eqb (Acknowledgement.po_id y) po_id) eqn:E; simpl; auto.
  all: apply Nat.eqb_neq in E; congruence.
Qed.

Lemma accept_quote_effect db quote_id r db' quote :
  accept_quote quote_id db = Ok r db' ->
  find (fun q => Nat.eqb (Quote.quote_id q) quote_id) (quotes db) = Some quote ->
  (exists q', find (fun q => Nat.eqb (Quote.quote_id q) quote_id) (quotes db') = Some q'
              /\ Quote.is_final q' = true /\ Quote.status q' = q_accepted) /\
  (forall q, In q (quotes db) -> Quote.quote_id q <> quote_id ->
     if Nat.eqb (Quote.client_id q) (Quote.client_id quote)
        && Nat.eqb (Quote.item_id q) (Quote.item_id quote)
        && negb (Quote.is_final q)
     then In (Quote.set_status q_superseded q) (quotes db')
     else In q (quotes db')).
Proof.
  intros H Hq. revert H. unfold accept_quote. unfold_session. rewrite Hq.
  assert (Quote.quote_id quote = quote_id) as Hid
    by (apply find_some in Hq; destruct Hq as [_ Hq]; apply Nat.eqb_eq in Hq; exact Hq).
  subst quote_id.
  open_handler; try discriminate; invert_ok; simpl.
  all: split.
  - rewrite (find_update_where Quote.quote_id) by reflexivity.
    rewrite (find_update_where Quote.quote_id) by reflexivity.
    rewrite Hq; simpl. rewrite !Nat.eqb_refl. simpl. rewrite !andb_false_r, Nat.eqb_refl. simpl.
    eexists; split; [reflexivity|]. split; reflexivity.
  - intros q Hin Hne. apply Nat.eqb_neq in Hne.
    match goal with |- if ?c then _ else _ => destruct c eqn:Ec end.
    + apply In_update_where. exists (Quote.set_status q_superseded q).
      simpl. rewrite Hne. split; [|reflexivity].
      apply In_update_where. exists q. rewrite Ec, Hne. auto.
    + apply In_update_where. exists q.
      simpl. rewrite Hne. split; [|reflexivity].
      apply In_update_where. exists q. rewrite Ec. auto.
Qed.

(** C2, as stated, fails for quotes: a client who orders the same item twice
    ends with two final quotes for the same client and item. *)
Lemma two_final_quotes_for_one_pair :
  List.length (final_quotes 0%nat 1%nat (run repeat_order_scenario)) = 2%nat.
Proof. vm_compute. reflexivity. Qed.

(** C2 (amended). After every run each purchase order has at most one
    acknowledgement with [is_final = true]; an accepting acknowledgement is
    itself the only final one of its purchase order and leaves every other
    acknowledgement of that order superseded and not final.  Accepting a
    quote makes it final and accepted, marks every other quote of the same
    client and item that is not final as superseded, and leaves the other
    quotes, final ones included, as they are. *)
Theorem one_final_acknowledgement (rs : list Request) :
  (forall po_id, (List.length (final_acks po_id (run rs)) <= 1)%nat) /\
  (forall db po_id payload a db',
     acknowledge_po po_id payload db = Ok a db' ->
     lower (POAcknowledgeRequest.action payload) = "accepted"%string ->
     Acknowledgement.po_id a = po_id /\
     Acknowledgement.is_final a = true /\
     Acknowledgement.status a = ack_accepted /\
     final_acks po_id db' = [a] /\
     (forall b, In b (acknowledgements db') -> Acknowledgement.po_id b = po_id ->
                b <> a ->
                Acknowledgement.status b = ack_superseded /\
                Acknowledgement.is_final b = false)) /\
  (forall db quote_id r db' quote,
     accept_quote quote_id db = Ok r db' ->
     find (fun q => Nat.eqb (Quote.quote_id q) quote_id) (quotes db) = Some quote ->
     (exists q',
        find (fun q => Nat.eqb (Quote.quote_id q) quote_id) (quotes db') = Some q' /\
        Quote.is_final q' = true /\ Quote.status q' = q_accepted) /\
     (forall q, In q (quotes db) -> Quote.quote_id q <> quote_id ->
        if Nat.eqb (Quote.client_id q) (Quote.client_id quote)
           && Nat.eqb (Quote.item_id q) (Quote.item_id quote)
           && negb (Quote.is_final q)
        then In (Quote.set_status q_superseded q) (quotes db')
        else In q (quotes db'))).
Proof.
  split; [apply one_final_ack_run|].
  split; [exact acknowledge_accept_effect | exact accept_quote_effect].
Qed.

Lemma one_final_acknowledgement_witness :
  final_acks 2%nat
    (run (negotiation_scenario ++ [POST_purchase_orders_acknowledge 2%nat accepting]))
  = [Acknowledgement.mk 5%nat 2%nat (Some (9#1)) ack_accepted true 2] /\
  In (Quote.set_status q_superseded
        (Quote.mk 3%nat 0%nat 1%nat 20 (3#1) q_sent 1 false None))
     (quotes (run (quote_scenario ++ [POST_quotes_accept 2%nat]))).
Proof.
  split.
  - refine (proj1 (proj2 (proj2 (proj2
      (proj1 (proj2 (one_final_acknowledgement []))
         (run negotiation_scenario) 2%nat accepting
         (Acknowledgement.mk 5%nat 2%nat (Some (9#1)) ack_accepted true 2)
         (run (negotiation_scenario ++ [POST_purchase_orders_acknowledge 2%nat accepting]))
         _ _))))).
    + vm_compute. reflexivity.
    + vm_compute. reflexivity.
  - refine (proj2
      (proj2 (proj2 (one_final_acknowledgement []))
         (run quote_scenario) 2%nat (2%nat, 4%nat)
         (run (quote_scenario ++ [POST_quotes_accept 2%nat]))
         (Quote.mk 2%nat 0%nat 1%nat 10 (3#1) q_sent 1 false None) _ _)
      (Quote.mk 3%nat 0%nat 1%nat 20 (3#1) q_sent 1 false None) _ _).
    + vm_compute. reflexivity.
    + vm_compute. reflexivity.
    + vm_compute. auto.
    + discriminate.
Defined.

(** ** Versions of proposals *)

Lemma highest_version_none l : highest_version l = None -> l = [].
Proof.
  destruct l as [|a l]; simpl; auto.
  destruct (highest_version l) as [b|]; [|discriminate].
  destruct (Acknowledgement.version b <=? Acknowledgement.version a); discriminate.
Qed.

Lemma highest_version_max l b :
  highest_version l = Some b ->
  In b l /\ forall a, In a l -> Acknowledgement.version a <= Acknowledgement.version b.
Proof.
  revert b. induction l as [|x l IH]; simpl; [discriminate|].
  intros b. destruct (highest_version l) as [c|] eqn:E.
  - destruct (IH c eq_refl) as [Hin Hmax].
    destruct (Acknowledgement.version c <=? Acknowledgement.version x) eqn:Ecmp;
      intros H; injection H as <-.
    + apply Z.leb_le in Ecmp. split; auto.
      intros a [<-|Ha]; [lia|]. specialize (Hmax a Ha). lia.
    + apply Z.leb_gt in Ecmp. split; auto.
      intros a [<-|Ha]; [lia|]. auto.
  - intros H; injection H as <-. apply highest_version_none in E. subst l.
    split; auto. intros a [<-|[]]. lia.
Qed.

Lemma next_version_above po_id db a :
  In a (acknowledgements db) -> Acknowledgement.po_id a = po_id ->
  Acknowledgement.version a < next_version po_id db.
Proof.
  intros Hin Hpo. unfold next_version.
  assert (In a (acks_of_po po_id db)) as Hin'.
  { unfold acks_of_po. apply filter_In. split; auto. apply Nat.eqb_eq; auto. }
  destruct (highest_version (acks_of_po po_id db)) as [b|] eqn:E.
  - destruct (highest_version_max _ _ E) as [_ Hmax]. specialize (Hmax a Hin'). lia.
  - apply highest_version_none in E. rewrite E in Hin'. destruct Hin'.
Qed.

Lemma acknowledge_version db po_id payload a db' :
  acknowledge_po po_id payload db = Ok a db' ->
  Acknowledgement.po_id a = po_id /\
  Acknowledgement.version a = next_version po_id db /\
  exists old, acknowledgements db' = old ++ [a] /\
     map (fun b => (Acknowledgement.ack_id b, Acknowledgement.po_id b,
                    Acknowledgement.version b, Acknowledgement.final_price_per_item b)) old
     = map (fun b => (Acknowledgement.ack_id b, Acknowledgement.po_id b,
                    Acknowledgement.version b, Acknowledgement.final_price_per_item b))
           (acknowledgements db).
Proof.
  unfold acknowledge_po, next_version.
  open_handler; try discriminate; invert_ok; simpl.
  all: repeat split; auto.
  all: eexists; split; [reflexivity|].
  all: try reflexivity.
  all: unfold update_where; rewrite map_map; apply map_ext; intros b.
  all: destruct (Nat.eqb (Acknowledgement.po_id b) po_id && true); reflexivity.
Qed.

Lemma versions_distinct_acknowledge db po_id payload a db' :
  versions_distinct db ->
  acknowledge_po po_id payload db = Ok a db' ->
  versions_distinct db'.
Proof.
  intros H Hack p.
  destruct (acknowledge_version _ _ _ _ _ Hack) as [Hpo [Hv [old [Hacks Hold]]]].
  unfold ack_versions, acks_of_po. rewrite Hacks, filter_app, map_app.
  assert (map Acknowledgement.version
            (filter (fun b => Nat.eqb (Acknowledgement.po_id b) p) old)
          = ack_versions p db) as ->.
  { unfold ack_versions, acks_of_po.
    apply map_filter_factor with (2 := Hold).
    intros x y E. injection E as _ -> -> _. auto. }
  simpl. rewrite Hpo.
  destruct (Nat.eqb po_id p) eqn:E; simpl; [|rewrite app_nil_r; apply H].
  apply Nat.eqb_eq in E. subst p.
  apply NoDup_snoc; [apply H|].
  unfold ack_versions. rewrite in_map_iff. intros [b [Hb Hin]].
  apply filter_In in Hin. destruct Hin as [Hin Hp]. apply Nat.eqb_eq in Hp.
  pose proof (next_version_above po_id db b Hin Hp). lia.
Qed.

Lemma versions_distinct_step db r : versions_distinct db -> versions_distinct (step db r).
Proof.
  intros H.
  destruct r; simpl;
    try (unfold_handlers; open_handler; exact H).
  unfold commit. destruct (acknowledge_po po_id payload db) eqn:E; auto.
  eapply versions_distinct_acknowledge; eauto.
Qed.

Lemma versions_distinct_run rs : versions_distinct (run rs).
Proof.
  apply run_invariant; [intros p; constructor | exact versions_distinct_step].
Qed.

Lemma ack_same_refl a : ack_same a a.
Proof. repeat split. Qed.

Lemma quote_same_refl q : quote_same q q.
Proof. repeat split. Qed.

Lemma ack_same_trans a b c : ack_same a b -> ack_same b c -> ack_same a c.
Proof. unfold ack_same. intuition congruence. Qed.

Lemma quote_same_trans a b c : quote_same a b -> quote_same b c -> quote_same a c.
Proof. unfold quote_same. intuition congruence. Qed.

Lemma rows_kept_refl db : rows_kept db db.
Proof.
  split; intros x Hx; exists x; split; auto using ack_same_refl, quote_same_refl.
Qed.

Lemma rows_kept_step db r : rows_kept db (step db r).
Proof.
  destruct r; simpl; unfold_handlers.
  all: open_handler; try apply rows_kept_refl.
  all: split; simpl; intros x Hx.
  all: try (exists x; split; [assumption | first [apply ack_same_refl | apply quote_same_refl]]).
  all: repeat apply kept_snoc.
  all: try (exists x; split; [assumption | first [apply ack_same_refl | apply quote_same_refl]]).
  all: try solve [apply kept_update_where;
                  [first [exact ack_same_refl | exact quote_same_refl]
                  | intros; repeat split | assumption]].
  all: apply kept_update_where2;
       [exact quote_same_refl | exact quote_same_trans
       | intros; repeat split | intros; repeat split | assumption].
Qed.

Lemma rows_kept_steps rs : forall db, rows_kept db (fold_left step rs db).
Proof.
  induction rs as [|r rs IH]; intros db; simpl; [apply rows_kept_refl|].
  destruct (rows_kept_step db r) as [Ha Hq].
  destruct (IH (step db r)) as [Ha' Hq'].
  split; intros x Hx.
  - eapply kept_trans; [exact ack_same_trans | apply Ha, Hx | exact Ha'].
  - eapply kept_trans; [exact quote_same_trans | apply Hq, Hx | exact Hq'].
Qed.

Lemma revise_version db quote_id payload new db' :
  revise_quote quote_id payload db = Ok new db' ->
  exists old,
    find (fun q => Nat.eqb (Quote.quote_id q) quote_id) (quotes db) = Some old /\
    Quote.is_final old = false /\
    Quote.version new = Quote.version old + 1 /\
    Quote.client_id new = Quote.client_id old /\
    Quote.item_id new = Quote.item_id old /\
    Quote.order_qty new = Quote.order_qty old /\
    Quote.final_price_per_item new = QuoteReviseRequest.revised_price_per_item payload /\
    In new (quotes db').
Proof.
  unfold revise_quote.
  open_handler; try discriminate; invert_ok; simpl.
  eexists; repeat split; eauto. apply in_or_app; right; left; reflexivity.
Qed.

(** C3, as stated, fails for quotes: revising the same quote twice gives two
    revisions of it with the same version, so the second one's version is not
    above every version already in the chain. *)
Lemma revised_versions_collide :
  exists q1 db1 q2 db2,
    revise_quote 2%nat (QuoteReviseRequest.mk (4#1)) (run double_revision_scenario)
      = Ok q1 db1 /\
    revise_quote 2%nat (QuoteReviseRequest.mk (5#1)) db1 = Ok q2 db2 /\
    In q1 (quotes db1) /\
    Quote.quote_id q1 <> Quote.quote_id q2 /\
    ~ (Quote.version q1 < Quote.version q2).
Proof.
  do 4 eexists. split; [vm_compute; reflexivity|].
  split; [vm_compute; reflexivity|].
  split; [simpl; auto|]. split; [discriminate|]. vm_compute. discriminate.
Qed.

(** C3 (amended). After every run the acknowledgements of one purchase order
    have pairwise different versions, and a new acknowledgement gets a version
    strictly greater than every existing one of its purchase order.  A revised
    quote gets the version of the quote it revises plus one, with the same
    client, item and quantity and the revised price.  No request removes an
    acknowledgement or a quote: each stays in its table with its key, parent,
    version and price. *)
Theorem versions_increase_rows_stay (rs : list Request) :
  (forall po_id, NoDup (ack_versions po_id (run rs))) /\
  (forall db po_id payload a db',
     acknowledge_po po_id payload db = Ok a db' ->
     forall b, In b (acknowledgements db) -> Acknowledgement.po_id b = po_id ->
               Acknowledgement.version b < Acknowledgement.version a) /\
  (forall db quote_id payload new db',
     revise_quote quote_id payload db = Ok new db' ->
     exists old,
       find (fun q => Nat.eqb (Quote.quote_id q) quote_id) (quotes db) = Some old /\
       Quote.is_final old = false /\
       Quote.version new = Quote.version old + 1 /\
       Quote.client_id new = Quote.client_id old /\
       Quote.item_id new = Quote.item_id old /\
       Quote.order_qty new = Quote.order_qty old /\
       Quote.final_price_per_item new
         = QuoteReviseRequest.revised_price_per_item payload /\
       In new (quotes db')) /\
  (forall db rs', rows_kept db (fold_left step rs' db)).
Proof.
  split; [apply versions_distinct_run|]. split.
  - intros db po_id payload a db' H b Hin Hpo.
    destruct (acknowledge_version _ _ _ _ _ H) as [_ [-> _]].
    apply next_version_above; assumption.
  - split; [exact revise_version | intros db rs'; apply rows_kept_steps].
Qed.

Lemma versions_increase_rows_stay_witness :
  Acknowledgement.version (Acknowledgement.mk 3%nat 2%nat (Some (19#2)) ack_proposed false 1)
  < Acknowledgement.version (Acknowledgement.mk 5%nat 2%nat (Some (9#1)) ack_accepted true 2).
Proof.
  refine (proj1 (proj2 (versions_increase_rows_stay []))
            (run negotiation_scenario) 2%nat accepting
            (Acknowledgement.mk 5%nat 2%nat (Some (9#1)) ack_accepted true 2)
            (run (negotiation_scenario ++ [POST_purchase_orders_acknowledge 2%nat accepting]))
            _
            (Acknowledgement.mk 3%nat 2%nat (Some (19#2)) ack_proposed false 1) _ _).
  - vm_compute. reflexivity.
  - vm_compute. auto.
  - reflexivity.
Defined.

(** ** Keys are fresh and unique *)

Lemma keys_inv_step db r : keys_inv db -> keys_inv (step db r).
Proof.
  intros [Hb Ha Hau Hs Hsu Hd].
  destruct r; simpl; unfold_handlers.
  all: open_handler.
  all: try (constructor; assumption).
  all: constructor; simpl.
  all: keys_table.
  all: match goal with
       | H : find _ (sales_orders _) = Some ?t |- _ =>
           apply find_some in H; destruct H as [Hin Heq];
           apply Nat.eqb_eq in Heq; rewrite Forall_forall in Hs;
           specialize (Hs _ Hin); lia
       end.
Qed.

Lemma keys_inv_run rs : keys_inv (run rs).
Proof.
  apply run_invariant; [constructor; constructor | exact keys_inv_step].
Qed.


(** ** Receiving a purchase order *)

Lemma receive_rejected db po_id po :
  find (fun p => Nat.eqb (PurchaseOrder.po_id p) po_id) (purchase_orders db) = Some po ->
  PurchaseOrder.po_status po <> po_acknowledged ->
  receive_po po_id db = Raise 400.
Proof.
  intros Hpo Hst. unfold receive_po. unfold_session. rewrite Hpo.
  apply POStatus_eqb_neq in Hst. rewrite Hst. reflexivity.
Qed.

Lemma receive_duplicate db po_id po item d :
  find (fun p => Nat.eqb (PurchaseOrder.po_id p) po_id) (purchase_orders db) = Some po ->
  find (fun i => Nat.eqb (StockItem.item_id i) (PurchaseOrder.item_id po))
       (stock_items db) = Some item ->
  In d (delivery_inbound db) -> received_delivery po_id d = true ->
  receive_po po_id db = Raise 400.
Proof.
  intros Hpo Hit Hin Hd. unfold receive_po. unfold_session. rewrite Hpo.
  destruct (negb _); [reflexivity|]. rewrite Hit.
  destruct (find _ (delivery_inbound db)) eqn:E; [reflexivity|].
  apply find_none with (x := d) in E; auto.
  unfold received_delivery in Hd. congruence.
Qed.

Lemma receive_effect db po_id po item :
  find (fun p => Nat.eqb (PurchaseOrder.po_id p) po_id) (purchase_orders db) = Some po ->
  PurchaseOrder.po_status po = po_acknowledged ->
  find (fun i => Nat.eqb (StockItem.item_id i) (PurchaseOrder.item_id po))
       (stock_items db) = Some item ->
  (forall d, In d (delivery_inbound db) -> received_delivery po_id d = false) ->
  let new_qty := StockItem.item_qty item + PurchaseOrder.qty_ordered po in
  Integer_min <= new_qty <= Integer_max ->
  exists db',
    receive_po po_id db = Ok new_qty db' /\
    find (fun i => Nat.eqb (StockItem.item_id i) (PurchaseOrder.item_id po))
         (stock_items db') = Some (StockItem.set_item_qty new_qty item) /\
    find (fun p => Nat.eqb (PurchaseOrder.po_id p) po_id) (purchase_orders db')
      = Some (PurchaseOrder.set_po_status po_received po) /\
    delivery_inbound db'
      = delivery_inbound db ++ [DeliveryInbound.mk (uuid_supply db) po_id dl_received] /\
    receive_po po_id db' = Raise 400 /\
    step db' (POST_purchase_orders_receive po_id) = db'.
Proof.
  intros Hpo Hst Hit Hnone new_qty Hrange.
  assert (PurchaseOrder.po_id po = po_id) as Hid
    by (apply find_some in Hpo; destruct Hpo as [_ H]; apply Nat.eqb_eq in H; exact H).
  assert (StockItem.item_id item = PurchaseOrder.item_id po) as Hiid
    by (apply find_some in Hit; destruct Hit as [_ H]; apply Nat.eqb_eq in H; exact H).
  apply find_none_iff in Hnone. unfold received_delivery in Hnone.
  apply Integer_test_false in Hrange. subst new_qty.
  destruct (receive_po po_id db) as [q db'|c] eqn:E;
    unfold receive_po in E; unfold_session;
    rewrite Hpo, Hst in E; simpl in E; rewrite Hit, Hnone in E;
    store_simpl; rewrite Hrange in E;
    [|discriminate].
  injection E as <- <-.
  eexists. split; [reflexivity|]. simpl.
  assert (find (fun p => Nat.eqb (PurchaseOrder.po_id p) po_id)
            (update_where (fun p => Nat.eqb (PurchaseOrder.po_id p) (PurchaseOrder.po_id po))
               (PurchaseOrder.set_po_status po_received) (purchase_orders db))
          = Some (PurchaseOrder.set_po_status po_received po)) as Hpo'.
  { rewrite (find_update_where PurchaseOrder.po_id) by reflexivity.
    rewrite Hpo. simpl. rewrite Nat.eqb_refl. reflexivity. }
  split.
  { rewrite (find_update_where StockItem.item_id) by reflexivity.
    rewrite Hit. simpl. rewrite Nat.eqb_refl. reflexivity. }
  split; [exact Hpo'|]. split; [reflexivity|].
  match goal with |- receive_po _ ?d = _ /\ _ =>
    assert (receive_po po_id d = Raise 400) as E
      by (apply receive_rejected with (po := PurchaseOrder.set_po_status po_received po);
          [exact Hpo' | discriminate])
  end.
  split; [exact E|]. unfold commit. rewrite E. reflexivity.
Qed.

Lemma receive_out_of_range db po_id po item :
  find (fun p => Nat.eqb (PurchaseOrder.po_id p) po_id) (purchase_orders db) = Some po ->
  PurchaseOrder.po_status po = po_acknowledged ->
  find (fun i => Nat.eqb (StockItem.item_id i) (PurchaseOrder.item_id po))
       (stock_items db) = Some item ->
  (forall d, In d (delivery_inbound db) -> received_delivery po_id d = false) ->
  Integer_max < StockItem.item_qty item + PurchaseOrder.qty_ordered po ->
  receive_po po_id db = Raise 500 /\
  step db (POST_purchase_orders_receive po_id) = db.
Proof.
  intros Hpo Hst Hit Hnone Hrange.
  apply find_none_iff in Hnone. unfold received_delivery in Hnone.
  assert (receive_po po_id db = Raise 500) as E.
  { unfold receive_po. unfold_session. rewrite Hpo, Hst. simpl.
    rewrite Hit, Hnone. store_simpl.
    rewrite Integer_test_true by (right; exact Hrange). reflexivity. }
  split; [exact E|]. simpl. unfold commit. rewrite E. reflexivity.
Qed.

(** C4 (amended). Receiving a purchase order whose status is not
    [acknowledged] is answered with 400, and so is receiving one for which a
    [received] inbound delivery exists.  Otherwise, when the new quantity
    fits the [Integer] column, the stock quantity grows by exactly
    [qty_ordered], a new inbound delivery with status [received] is inserted
    for the purchase order (the rows already in the table are not touched),
    the order becomes [received], and a second receive is answered with 400
    and leaves the store as it is.  When the new quantity would exceed
    2147483647 the request is answered with 500 and nothing is written. *)
Theorem receive_purchase_order (db : Db) (po_id : Id) (po : PurchaseOrder.t) :
  find (fun p => Nat.eqb (PurchaseOrder.po_id p) po_id) (purchase_orders db) = Some po ->
  (PurchaseOrder.po_status po <> po_acknowledged -> receive_po po_id db = Raise 400) /\
  (forall item d,
     find (fun i => Nat.eqb (StockItem.item_id i) (PurchaseOrder.item_id po))
          (stock_items db) = Some item ->
     In d (delivery_inbound db) -> received_delivery po_id d = true ->
     receive_po po_id db = Raise 400) /\
  (forall item,
     PurchaseOrder.po_status po = po_acknowledged ->
     find (fun i => Nat.eqb (StockItem.item_id i) (PurchaseOrder.item_id po))
          (stock_items db) = Some item ->
     (forall d, In d (delivery_inbound db) -> received_delivery po_id d = false) ->
     let new_qty := StockItem.item_qty item + PurchaseOrder.qty_ordered po in
     (Integer_min <= new_qty <= Integer_max ->
      exists db',
        receive_po po_id db = Ok new_qty db' /\
        find (fun i => Nat.eqb (StockItem.item_id i) (PurchaseOrder.item_id po))
             (stock_items db') = Some (StockItem.set_item_qty new_qty item) /\
        find (fun p => Nat.eqb (PurchaseOrder.po_id p) po_id) (purchase_orders db')
          = Some (PurchaseOrder.set_po_status po_received po) /\
        delivery_inbound db'
          = delivery_inbound db
            ++ [DeliveryInbound.mk (uuid_supply db) po_id dl_received] /\
        receive_po po_id db' = Raise 400 /\
        step db' (POST_purchase_orders_receive po_id) = db') /\
     (Integer_max < new_qty ->
      receive_po po_id db = Raise 500 /\
      step db (POST_purchase_orders_receive po_id) = db)).
Proof.
  intros Hpo. split; [apply receive_rejected; exact Hpo|]. split.
  - intros item d. apply receive_duplicate. exact Hpo.
  - intros item Hst Hit Hnone new_qty. split.
    + intros Hrange. apply receive_effect; assumption.
    + intros Hrange. eapply receive_out_of_range; eassumption.
Qed.

Lemma receive_purchase_order_witness :
  exists db',
    receive_po 2%nat (run acknowledged_scenario) = Ok 150 db' /\
    find (fun i => Nat.eqb (StockItem.item_id i) 1%nat) (stock_items db')
      = Some (StockItem.set_item_qty 150 bolt) /\
    find (fun p => Nat.eqb (PurchaseOrder.po_id p) 2%nat) (purchase_orders db')
      = Some (PurchaseOrder.set_po_status po_received acknowledged_po) /\
    delivery_inbound db'
      = delivery_inbound (run acknowledged_scenario)
        ++ [DeliveryInbound.mk 5%nat 2%nat dl_received] /\
    receive_po 2%nat db' = Raise 400 /\
    step db' (POST_purchase_orders_receive 2%nat) = db'.
Proof.
  refine (proj1 (proj2 (proj2
            (receive_purchase_order (run acknowledged_scenario) 2%nat acknowledged_po _))
            bolt _ _ _) _).
  - reflexivity.
  - reflexivity.
  - reflexivity.
  - intros d Hd. vm_compute in Hd.
    destruct Hd as [<-|[]]; reflexivity.
  - vm_compute. split; discriminate.
Defined.

(** A stock of 2147483647 cannot take a delivery: the receive is answered
    with 500, and the purchase order stays [acknowledged]. *)
Example receive_beyond_the_Integer_range :
  receive_po 2%nat (run full_stock_scenario) = Raise 500 /\
  option_map PurchaseOrder.po_status
    (find (fun p => Nat.eqb (PurchaseOrder.po_id p) 2%nat)
          (purchase_orders
             (step (run full_stock_scenario) (POST_purchase_orders_receive 2%nat))))
  = Some po_acknowledged.
Proof. split; reflexivity. Qed.

(** C4, as stated, fails: after a successful receive the delivery that the
    acknowledgement opened is still [in_transit]. *)
Lemma opened_delivery_stays_in_transit :
  exists db',
    In opened_delivery (delivery_inbound (run acknowledged_scenario)) /\
    receive_po 2%nat (run acknowledged_scenario) = Ok 150 db' /\
    find (fun d => Nat.eqb (DeliveryInbound.delivery_inbound_id d) 3%nat)
         (delivery_inbound db') = Some opened_delivery /\
    DeliveryInbound.status opened_delivery <> dl_received.
Proof.
  eexists. split; [vm_compute; auto|].
  split; [vm_compute; reflexivity|].
  split; [reflexivity | discriminate].
Qed.

(** ** Revising a quote *)

Lemma revise_rejected_when_final db quote_id payload old :
  QuoteReviseRequest.valid payload = true ->
  find (fun q => Nat.eqb (Quote.quote_id q) quote_id) (quotes db) = Some old ->
  Quote.is_final old = true ->
  revise_quote quote_id payload db = Raise 400.
Proof.
  intros Hv Hq Hf. unfold revise_quote. unfold_session.
  rewrite Hv, Hq, Hf. reflexivity.
Qed.

(** Whatever the store, a successful revision leaves the forward pointer of
    the revised quote empty, while the new quote does get a key. *)
Lemma revise_forward_pointer db quote_id payload new db' :
  revise_quote quote_id payload db = Ok new db' ->
  Quote.quote_id new = uuid_supply db /\
  exists old',
    find (fun q => Nat.eqb (Quote.quote_id q) quote_id) (quotes db') = Some old' /\
    Quote.status old' = q_superseded /\
    Quote.superseded_by old' = None.
Proof.
  unfold revise_quote.
  open_handler; try discriminate; invert_ok; store_simpl.
  split; [reflexivity|].
  match goal with
  | H : find _ (quotes db) = Some ?t |- _ =>
      pose proof H as Hq; apply find_some in H; destruct H as [_ Hid];
      apply Nat.eqb_eq in Hid
  end.
  eexists. split.
  - apply find_snoc_old.
    rewrite (find_update_where Quote.quote_id) by reflexivity.
    rewrite (find_update_where Quote.quote_id) by reflexivity.
    rewrite Hq. simpl. rewrite Nat.eqb_refl. simpl. rewrite Nat.eqb_refl.
    reflexivity.
  - split; reflexivity.
Qed.

(** C5. Revising the quote of the scenario succeeds: the new quote has key 3,
    version 2, the same client, item and quantity and the revised price, and
    the old quote is marked superseded.  But the old quote's [superseded_by]
    is still NULL: the handler reads [new.quote_id] before the INSERT gives
    the new row its key. *)
Theorem revise_quote_forward_pointer_unset :
  exists db',
    revise_quote 2%nat (QuoteReviseRequest.mk (4#1)) (run double_revision_scenario)
      = Ok (Quote.mk 3%nat 0%nat 1%nat 10 (4#1) q_revised 2 false None) db' /\
    find (fun q => Nat.eqb (Quote.quote_id q) 2%nat) (quotes db')
      = Some (Quote.mk 2%nat 0%nat 1%nat 10 (3#1) q_superseded 1 false None) /\
    Quote.superseded_by (Quote.mk 2%nat 0%nat 1%nat 10 (3#1) q_superseded 1 false None)
      <> Some 3%nat.
Proof.
  eexists. split; [vm_compute; reflexivity|].
  split; [reflexivity | discriminate].
Qed.

(** ** Billing and paying *)

Lemma balances_inv_step db r : balances_inv db -> balances_inv (step db r).
Proof.
  intros [Hs Hc].
  destruct r; simpl; unfold_handlers.
  all: open_handler; store_simpl.
  all: try (constructor; assumption).
  all: constructor; store_simpl; try assumption.
  all: repeat first
         [ apply Forall_snoc; [assumption | simpl]
         | apply Forall_update_where; [assumption | intros; simpl] ].
  all: try apply context_round_within.
  all: apply within_precision_integer; reflexivity.
Qed.

Lemma balances_inv_run rs : balances_inv (run rs).
Proof.
  apply run_invariant; [constructor; constructor | exact balances_inv_step].
Qed.

Lemma context_round_sum_exact before product :
  within_precision before -> within_precision product ->
  within_precision (before + product) ->
  (context_round (before + context_round product) == before + product)%Q /\
  (context_round (context_round (before + context_round product) - context_round product)
   == before)%Q.
Proof.
  intros Hb Hp Hs.
  pose proof (context_round_exact _ Hp) as Ep.
  assert (context_round (before + context_round product) == before + product)%Q as E1.
  { rewrite (context_round_Qeq _ (before + product)%Q) by (rewrite Ep; reflexivity).
    apply context_round_exact, Hs. }
  split; [exact E1|].
  rewrite (context_round_Qeq _ before).
  - apply context_round_exact, Hb.
  - rewrite E1, Ep. ring.
Qed.

Lemma bill_then_pay db po_id bill db1 payload :
  keys_inv db ->
  create_bill po_id db = Ok bill db1 ->
  BillPaymentRequest.valid payload = true ->
  exists po final_ack price supplier paid db2,
    find (fun p => Nat.eqb (PurchaseOrder.po_id p) po_id) (purchase_orders db) = Some po /\
    find (fun a => Nat.eqb (Acknowledgement.po_id a) po_id && Acknowledgement.is_final a)
         (acknowledgements db) = Some final_ack /\
    Acknowledgement.final_price_per_item final_ack = Some price /\
    Bill.ack_id bill = Acknowledgement.ack_id final_ack /\
    find (fun s => Nat.eqb (Supplier.supplier_id s) (PurchaseOrder.supplier_id po))
         (suppliers db) = Some supplier /\
    let product := (inject_Z (PurchaseOrder.qty_ordered po) * price)%Q in
    let before := Supplier.account_balance supplier in
    supplier_balance (PurchaseOrder.supplier_id po) db1
      = Some (context_round (before + context_round product)) /\
    pay_bill (Bill.bill_id bill) payload db1 = Ok paid db2 /\
    Bill.payment_status paid = pay_paid /\
    supplier_balance (PurchaseOrder.supplier_id po) db2
      = Some (context_round
                (context_round (before + context_round product) - context_round product)).
Proof.
  intros Hk H Hv. revert H. unfold create_bill.
  open_handler; try discriminate; invert_ok.
  match goal with
  | H1 : find _ (purchase_orders db) = Some ?po,
    H2 : find _ (acknowledgements db) = Some ?a,
    H3 : Acknowledgement.final_price_per_item ?a = Some ?q,
    H4 : find _ (suppliers db) = Some ?s |- _ =>
      rename H1 into Hpo; rename H2 into Hack; rename H3 into Hprice;
      rename H4 into Hsup;
      exists po, a, q, s
  end.
  match goal with
  | Hsup : find _ (suppliers db) = Some ?s |- _ =>
      assert (Supplier.supplier_id s = PurchaseOrder.supplier_id t) as Hsid
        by (apply find_some in Hsup; destruct Hsup as [_ E];
            apply Nat.eqb_eq in E; exact E)
  end.
  assert (forall s0, find (fun s => Nat.eqb (Supplier.supplier_id s) (PurchaseOrder.supplier_id t))
            (update_where (fun s => Nat.eqb (Supplier.supplier_id s) (Supplier.supplier_id t1))
               (Supplier.set_account_balance s0) (suppliers db))
          = Some (Supplier.set_account_balance s0 t1)) as Hsup'.
  { intros s0. rewrite (find_update_where Supplier.supplier_id) by reflexivity.
    rewrite Hsup. simpl. rewrite Nat.eqb_refl. reflexivity. }
  assert (find (fun a => Nat.eqb (Acknowledgement.ack_id a) (Acknowledgement.ack_id t0))
               (acknowledgements db) = Some t0) as Hack'.
  { apply find_unique_key; [apply Hk|]. apply find_some in Hack. tauto. }
  unfold pay_bill, supplier_balance. unfold_session.
  rewrite Hv. store_simpl.
  rewrite find_snoc_new by (apply find_fresh_key, Hk).
  cbn [Bill.bill_id Bill.po_id Bill.ack_id Bill.payment_status].
  rewrite Nat.eqb_refl. cbn [Bill.bill_id Bill.po_id Bill.ack_id Bill.payment_status PaymentStatus_eqb].
  store_simpl. rewrite Hpo. store_simpl. rewrite Hack'. store_simpl.
  rewrite Hprice. store_simpl. rewrite Hsup'. store_simpl.
  do 2 eexists. repeat split; try reflexivity; try eassumption.
  store_simpl. cbn [Supplier.supplier_id Supplier.set_account_balance].
  rewrite (find_update_where Supplier.supplier_id) by reflexivity.
  rewrite Hsup'. simpl. rewrite Nat.eqb_refl. reflexivity.
Qed.

(** C6 (amended). Creating a bill adds [qty_ordered] times the price of the
    final acknowledgement to the supplier's balance; paying that bill
    recomputes the same product from the purchase order and the
    acknowledgement the bill names and subtracts it.  Product, sum and
    difference are each rounded to the 28 significant digits of [Decimal]
    arithmetic.  When the product and the balance increased by it have at
    most 28 significant digits, nothing is rounded: the balance after the
    bill is the old balance plus the product, and after the payment it is
    the old balance again. *)
Theorem bill_then_pay_restores_balance
    (rs : list Request) (po_id : Id) (bill : Bill.t) (db1 : Db)
    (payload : BillPaymentRequest.t) :
  create_bill po_id (run rs) = Ok bill db1 ->
  BillPaymentRequest.valid payload = true ->
  exists po final_ack price supplier paid db2 billed settled,
    find (fun p => Nat.eqb (PurchaseOrder.po_id p) po_id) (purchase_orders (run rs))
      = Some po /\
    find (fun a => Nat.eqb (Acknowledgement.po_id a) po_id && Acknowledgement.is_final a)
         (acknowledgements (run rs)) = Some final_ack /\
    Acknowledgement.final_price_per_item final_ack = Some price /\
    Bill.ack_id bill = Acknowledgement.ack_id final_ack /\
    find (fun s => Nat.eqb (Supplier.supplier_id s) (PurchaseOrder.supplier_id po))
         (suppliers (run rs)) = Some supplier /\
    let product := (inject_Z (PurchaseOrder.qty_ordered po) * price)%Q in
    let before := Supplier.account_balance supplier in
    supplier_balance (PurchaseOrder.supplier_id po) db1 = Some billed /\
    billed = context_round (before + context_round product) /\
    pay_bill (Bill.bill_id bill) payload db1 = Ok paid db2 /\
    Bill.payment_status paid = pay_paid /\
    supplier_balance (PurchaseOrder.supplier_id po) db2 = Some settled /\
    settled = context_round (billed - context_round product) /\
    (within_precision product -> within_precision (before + product) ->
     (billed == before + product)%Q /\ (settled == before)%Q).
Proof.
  intros H Hv.
  destruct (bill_then_pay _ _ _ _ _ (keys_inv_run rs) H Hv)
    as [po [final_ack [price [supplier [paid [db2 [Hpo [Hack [Hprice [Hid [Hsup R]]]]]]]]]]].
  cbv zeta in R. destruct R as [Hb1 [Hpay [Hpaid Hb2]]].
  exists po, final_ack, price, supplier, paid, db2.
  do 2 eexists.
  split; [exact Hpo|]. split; [exact Hack|]. split; [exact Hprice|].
  split; [exact Hid|]. split; [exact Hsup|]. cbv zeta.
  split; [exact Hb1|]. split; [reflexivity|]. split; [exact Hpay|].
  split; [exact Hpaid|]. split; [exact Hb2|]. split; [reflexivity|].
  intros Hp Hs.
  destruct (balances_inv_run rs) as [Hbal _].
  pose proof (find_Forall _ _ _ _ Hbal Hsup) as Hbefore. cbv beta in Hbefore.
  apply context_round_sum_exact; assumption.
Qed.

Lemma bill_then_pay_restores_balance_witness :
  exists paid db2,
    supplier_balance 0%nat (run received_scenario) = Some 0%Q /\
    supplier_balance 0%nat (run billed_scenario) = Some (inject_Z 450) /\
    pay_bill 6%nat (BillPaymentRequest.mk "ref-1") (run billed_scenario) = Ok paid db2 /\
    Bill.payment_status paid = pay_paid /\
    supplier_balance 0%nat db2 = Some 0%Q.
Proof.
  destruct (bill_then_pay_restores_balance received_scenario 2%nat
              (Bill.mk 6%nat 2%nat 4%nat pay_pending None) (run billed_scenario)
              (BillPaymentRequest.mk "ref-1"))
    as (po & final_ack & price & supplier & paid & db2 & billed & settled
        & Hpo & Hack & Hprice & _ & Hsup & Hb1 & E1 & Hpay & Hpaid & Hb2 & E2 & _).
  - vm_compute. reflexivity.
  - reflexivity.
  - vm_compute in Hpo. injection Hpo as <-.
    vm_compute in Hack. injection Hack as <-.
    vm_compute in Hprice. injection Hprice as <-.
    vm_compute in Hsup. injection Hsup as <-.
    exists paid, db2.
    split; [reflexivity|]. split; [reflexivity|]. split; [exact Hpay|].
    split; [exact Hpaid|].
    cbn [PurchaseOrder.supplier_id] in Hb2. rewrite Hb2, E2, E1. reflexivity.
Defined.

(** The figures of the specification's scenario: 50 items at the accepted
    price 9 raise the balance from 0 to 450, and paying brings it back. *)
Example billed_450_then_paid :
  amount 50 (9#1) = inject_Z 450 /\
  within_precision (inject_Z 50 * (9#1)) /\
  within_precision (0 + inject_Z 50 * (9#1)) /\
  supplier_balance 0%nat (run received_scenario) = Some 0%Q /\
  supplier_balance 0%nat (run billed_scenario) = Some (inject_Z 450) /\
  supplier_balance 0%nat
    (run (billed_scenario ++ [POST_bills_pay 6%nat (BillPaymentRequest.mk "ref-1")]))
  = Some 0%Q.
Proof.
  split; [reflexivity|].
  split; [apply (within_precision_Qeq (inject_Z 450)); [reflexivity|];
          apply within_precision_integer; reflexivity|].
  split; [apply (within_precision_Qeq (inject_Z 450)); [reflexivity|];
          apply within_precision_integer; reflexivity|].
  repeat split; reflexivity.
Qed.

(** C6, as stated, fails: a supplier that is owed 0.3 is billed 1e30; the sum
    has more than 28 digits and is rounded to 1e30, and paying the bill leaves
    a balance of 0. *)
Lemma rounded_balance_is_not_restored :
  exists bill db1 paid db2,
    supplier_balance 0%nat (run owing_scenario) = Some (3#10) /\
    create_bill 7%nat (run owing_scenario) = Ok bill db1 /\
    supplier_balance 0%nat db1 = Some (inject_Z (10 ^ 30)) /\
    pay_bill (Bill.bill_id bill) (BillPaymentRequest.mk "ref-2") db1 = Ok paid db2 /\
    Bill.payment_status paid = pay_paid /\
    supplier_balance 0%nat db2 = Some 0%Q /\
    ~ (0 == 3#10)%Q.
Proof.
  do 4 eexists.
  split; [vm_compute; reflexivity|].
  split; [vm_compute; reflexivity|].
  split; [vm_compute; reflexivity|].
  split; [vm_compute; reflexivity|].
  split; [reflexivity|].
  split; [vm_compute; reflexivity|].
  discriminate.
Qed.

(** ** Deliveries against a sales order *)

Lemma so_items_exist_step db r : so_items_exist db -> so_items_exist (step db r).
Proof.
  unfold so_items_exist, item_exists. intros H.
  destruct r; simpl; unfold_handlers.
  all: open_handler; try assumption; store_simpl.
  all: repeat first [ apply Forall_update_where; [|intros; assumption]
                    | apply Forall_snoc ].
  all: try (eapply Forall_impl; [|exact H]; intros s Hs; cbv beta in *).
  all: try solve [apply find_some_snoc; assumption
                 | apply (find_some_update_where StockItem.item_id);
                   [reflexivity | assumption] ].
  all: try assumption.
  all: simpl; apply (find_some_update_where StockItem.item_id);
       [reflexivity | congruence].
Qed.

Lemma so_items_exist_run rs : so_items_exist (run rs).
Proof.
  apply run_invariant; [constructor | exact so_items_exist_step].
Qed.

Lemma total_delivered_snoc id l d :
  total_delivered id (l ++ [d]) =
  total_delivered id l
  + (if Nat.eqb (DeliveryOutbound.so_id d) id then DeliveryOutbound.delivered_qty d else 0).
Proof.
  unfold total_delivered. rewrite filter_app, map_app. simpl.
  induction (map DeliveryOutbound.delivered_qty
               (filter (fun d0 => Nat.eqb (DeliveryOutbound.so_id d0) id) l))
    as [|x xs IH]; simpl.
  - destruct (Nat.eqb (DeliveryOutbound.so_id d) id); simpl; lia.
  - rewrite IH. lia.
Qed.

Lemma total_delivered_fresh n l :
  Forall (fun d => (DeliveryOutbound.so_id d < n)%nat) l -> total_delivered n l = 0.
Proof.
  intros H. unfold total_delivered.
  induction H as [|d l Hd Hl IH]; simpl; auto.
  assert (Nat.eqb (DeliveryOutbound.so_id d) n = false) as -> by (apply Nat.eqb_neq; lia).
  exact IH.
Qed.

Lemma delivery_inv_step db r :
  stock_inv db -> keys_inv db -> delivery_inv db -> delivery_inv (step db r).
Proof.
  intros Hst Hk H. unfold delivery_inv, delivered in *.
  destruct r; simpl; unfold_handlers.
  all: open_handler; try assumption; store_simpl.
  1, 2: apply Forall_update_where;
    [ apply Forall_snoc; [exact H|]
    | intros x _ Hx _; destruct x; exact Hx ].
  1, 2: destruct Hst as [_ _ Hq _]; found_rows; bool_facts;
    split; simpl; [lia | apply total_delivered_fresh, Hk].
  all: match goal with
       | Hf : find _ (sales_orders _) = Some ?t |- _ =>
           apply find_some in Hf; destruct Hf as [Hin Hid]
       end.
  all: rewrite Forall_forall in *; intros s' Hs';
       apply In_update_where in Hs'; destruct Hs' as [s [Hs ->]];
       pose proof (H s Hs) as Hm.
  all: rewrite ?total_delivered_snoc; simpl.
  all: destruct (Nat.eqb (SalesOrder.so_id s) (SalesOrder.so_id t)) eqn:E.
  all: try (apply Nat.eqb_eq in E;
            assert (s = t) as -> by (eapply unique_key_eq; eauto; apply Hk);
            clear E).
  all: bool_facts.
  all: try (replace (Nat.eqb so_id (SalesOrder.so_id s)) with false
              by (symmetry; apply Nat.eqb_neq; congruence)).
  all: try (subst so_id; rewrite Nat.eqb_refl).
  all: unfold status_matches in *; simpl.
  all: try (rewrite Z.add_0_r; exact Hm).
  all: try exact Hm.
  all: destruct (SalesOrder.order_status t); simpl in *; try discriminate; lia.
Qed.

Lemma delivery_inv_run rs : delivery_inv (run rs).
Proof.
  induction rs as [|r rs IH] using rev_ind; [constructor|].
  rewrite run_snoc.
  apply delivery_inv_step; auto using stock_inv_run, keys_inv_run.
Qed.

Lemma deliver_rejected db so_id payload so :
  DeliveryOutboundRequest.valid payload = true ->
  find (fun s => Nat.eqb (SalesOrder.so_id s) so_id) (sales_orders db) = Some so ->
  SalesOrder.qty_ordered so
    < total_delivered so_id (delivery_outbound db)
      + DeliveryOutboundRequest.delivered_qty payload ->
  deliver_sales_order so_id payload db = Raise 400 /\
  step db (POST_orders_deliver so_id payload) = db.
Proof.
  intros Hv Hso Hover.
  assert (deliver_sales_order so_id payload db = Raise 400) as E.
  { unfold deliver_sales_order. unfold_session. rewrite Hv, Hso.
    apply Z.ltb_lt in Hover.
    destruct (OrderStatus_eqb _ so_cancelled); [reflexivity|].
    destruct (OrderStatus_eqb _ so_delivered); [reflexivity|].
    rewrite Hover. reflexivity. }
  split; [exact E|]. simpl. unfold commit. rewrite E. reflexivity.
Qed.

(** C7. After every run, the quantities delivered against a sales order sum
    to at most its [qty_ordered]; its status is [delivered] exactly when the
    sum equals [qty_ordered] and [partially_delivered] exactly when the sum is
    strictly between 0 and [qty_ordered].  A delivery that would take the sum
    above [qty_ordered] is answered with 400 and leaves the store as it was. *)
Theorem delivered_quantity_and_status (rs : list Request) :
  (forall s, In s (sales_orders (run rs)) ->
     delivered s (run rs) <= SalesOrder.qty_ordered s /\
     (SalesOrder.order_status s = so_delivered
        <-> delivered s (run rs) = SalesOrder.qty_ordered s) /\
     (SalesOrder.order_status s = so_partially_delivered
        <-> 0 < delivered s (run rs) < SalesOrder.qty_ordered s)) /\
  (forall db so_id payload so,
     DeliveryOutboundRequest.valid payload = true ->
     find (fun s => Nat.eqb (SalesOrder.so_id s) so_id) (sales_orders db) = Some so ->
     SalesOrder.qty_ordered so
       < total_delivered so_id (delivery_outbound db)
         + DeliveryOutboundRequest.delivered_qty payload ->
     deliver_sales_order so_id payload db = Raise 400 /\
     step db (POST_orders_deliver so_id payload) = db).
Proof.
  split; [|exact deliver_rejected].
  intros s Hs. pose proof (delivery_inv_run rs) as H.
  unfold delivery_inv in H. rewrite Forall_forall in H.
  destruct (H s Hs) as [Hq Hm].
  destruct (SalesOrder.order_status s); repeat split; intros; try discriminate; lia.
Qed.

Lemma delivered_quantity_and_status_witness :
  (delivered partially_delivered_order (run partial_delivery_scenario) <= 10 /\
   (so_partially_delivered = so_delivered
      <-> delivered partially_delivered_order (run partial_delivery_scenario) = 10) /\
   (so_partially_delivered = so_partially_delivered
      <-> 0 < delivered partially_delivered_order (run partial_delivery_scenario) < 10)) /\
  (deliver_sales_order 3%nat (DeliveryOutboundRequest.mk 7) (run partial_delivery_scenario)
     = Raise 400 /\
   step (run partial_delivery_scenario)
        (POST_orders_deliver 3%nat (DeliveryOutboundRequest.mk 7))
     = run partial_delivery_scenario).
Proof.
  split.
  - apply (proj1 (delivered_quantity_and_status partial_delivery_scenario)
             partially_delivered_order).
    vm_compute. auto.
  - apply (proj2 (delivered_quantity_and_status [])
             (run partial_delivery_scenario) 3%nat (DeliveryOutboundRequest.mk 7)
             partially_delivered_order).
    + reflexivity.
    + vm_compute. reflexivity.
    + vm_compute. reflexivity.
Defined.

(** ** Insufficient inventory *)

(** C8. Accepting a quote, or creating a direct sales order, for more than
    the stock item holds is answered with 400 and leaves the whole store as
    it was: no sales order, no invoice, the same stock quantity and the same
    client balance. *)
Theorem insufficient_inventory_is_rejected (db : Db) :
  (forall quote_id quote item,
     find (fun q => Nat.eqb (Quote.quote_id q) quote_id) (quotes db) = Some quote ->
     find (fun i => Nat.eqb (StockItem.item_id i) (Quote.item_id quote)) (stock_items db)
       = Some item ->
     StockItem.item_qty item < Quote.order_qty quote ->
     accept_quote quote_id db = Raise 400 /\
     step db (POST_quotes_accept quote_id) = db) /\
  (forall payload item,
     SalesOrderCreate.valid payload = true ->
     find (fun i => Nat.eqb (StockItem.item_id i) (SalesOrderCreate.item_id payload))
          (stock_items db) = Some item ->
     StockItem.item_qty item < SalesOrderCreate.qty_ordered payload ->
     create_sales_order payload db = Raise 400 /\
     step db (POST_orders payload) = db).
Proof.
  split.
  - intros quote_id quote item Hq Hi Hlt.
    assert (accept_quote quote_id db = Raise 400) as E.
    { unfold accept_quote. unfold_session. rewrite Hq.
      destruct (QuoteStatus_eqb _ _); [reflexivity|].
      destruct (Quote.is_final quote); [reflexivity|].
      rewrite Hi. apply Z.ltb_lt in Hlt. rewrite Hlt. reflexivity. }
    split; [exact E|]. simpl. unfold commit. rewrite E. reflexivity.
  - intros payload item Hv Hi Hlt.
    assert (create_sales_order payload db = Raise 400) as E.
    { unfold create_sales_order. unfold_session. rewrite Hv, Hi.
      apply Z.ltb_lt in Hlt. rewrite Hlt. reflexivity. }
    split; [exact E|]. simpl. unfold commit. rewrite E. reflexivity.
Qed.

Lemma insufficient_inventory_is_rejected_witness :
  (accept_quote 2%nat (run short_stock_scenario) = Raise 400 /\
   step (run short_stock_scenario) (POST_quotes_accept 2%nat) = run short_stock_scenario) /\
  (create_sales_order (SalesOrderCreate.mk 0%nat 1%nat 6 3) (run short_stock_scenario)
     = Raise 400 /\
   step (run short_stock_scenario) (POST_orders (SalesOrderCreate.mk 0%nat 1%nat 6 3))
     = run short_stock_scenario).
Proof.
  split.
  - apply (proj1 (insufficient_inventory_is_rejected (run short_stock_scenario))
             2%nat (Quote.mk 2%nat 0%nat 1%nat 10 (3#1) q_sent 1 false None)
             (StockItem.mk 1%nat "bolt" 5 (2#1) 20)).
    + reflexivity.
    + reflexivity.
    + vm_compute. reflexivity.
  - apply (proj2 (insufficient_inventory_is_rejected (run short_stock_scenario))
             (SalesOrderCreate.mk 0%nat 1%nat 6 3)
             (StockItem.mk 1%nat "bolt" 5 (2#1) 20)).
    + reflexivity.
    + reflexivity.
    + vm_compute. reflexivity.
Defined.

(** ** A price at acknowledgement *)

(** C9. An acceptance without a price passes validation; it leaves the
    purchase order (acknowledged, then received) and its final acknowledgement
    with a NULL price, and creating the bill then fails on the product of the
    quantity and that NULL. *)
Theorem accepted_without_price_breaks_billing :
  POAcknowledgeRequest.valid (POAcknowledgeRequest.mk None "accepted") = true /\
  find (fun p => Nat.eqb (PurchaseOrder.po_id p) 2%nat)
       (purchase_orders (run priceless_scenario))
    = Some (PurchaseOrder.mk 2%nat 0%nat 1%nat 50 None po_received) /\
  final_acks 2%nat (run priceless_scenario)
    = [Acknowledgement.mk 4%nat 2%nat None ack_accepted true 1] /\
  create_bill 2%nat (run priceless_scenario) = Raise 500.
Proof. repeat split; reflexivity. Qed.

(** ** Cancelling a sales order *)

Lemma cancel_rejected_iff db so_id so :
  find (fun s => Nat.eqb (SalesOrder.so_id s) so_id) (sales_orders db) = Some so ->
  (cancel_sales_order so_id db = Raise 400 <->
   SalesOrder.order_status so = so_delivered \/
   SalesOrder.order_status so = so_partially_delivered).
Proof.
  intros Hso. unfold cancel_sales_order. unfold_session. rewrite Hso.
  destruct (SalesOrder.order_status so); simpl;
    (split; [|intros [?|?]; try discriminate; reflexivity]).
  all: try (intros _; auto; fail).
  all: repeat (split_test; store_simpl); intros; discriminate.
Qed.

Lemma cancel_effect db so_id so item :
  find (fun s => Nat.eqb (SalesOrder.so_id s) so_id) (sales_orders db) = Some so ->
  SalesOrder.order_status so <> so_delivered ->
  SalesOrder.order_status so <> so_partially_delivered ->
  find (fun i => Nat.eqb (StockItem.item_id i) (SalesOrder.item_id so)) (stock_items db)
    = Some item ->
  Integer_min <= StockItem.item_qty item + SalesOrder.qty_ordered so <= Integer_max ->
  exists db',
    cancel_sales_order so_id db = Ok tt db' /\
    find (fun i => Nat.eqb (StockItem.item_id i) (SalesOrder.item_id so)) (stock_items db')
      = Some (StockItem.set_item_qty
                (StockItem.item_qty item + SalesOrder.qty_ordered so) item) /\
    find (fun s => Nat.eqb (SalesOrder.so_id s) so_id) (sales_orders db')
      = Some (SalesOrder.set_order_status so_cancelled so).
Proof.
  intros Hso Hd Hp Hit Hrange.
  unfold cancel_sales_order. unfold_session. rewrite Hso.
  assert (OrderStatus_eqb (SalesOrder.order_status so) so_delivered
          || OrderStatus_eqb (SalesOrder.order_status so) so_partially_delivered = false)
    as -> by (destruct (SalesOrder.order_status so); simpl; congruence).
  rewrite Hit. store_simpl. rewrite (Integer_test_false _ Hrange).
  eexists. split; [reflexivity|]. store_simpl. split.
  - rewrite (find_update_where StockItem.item_id) by reflexivity.
    rewrite Hit. simpl. rewrite Nat.eqb_refl. reflexivity.
  - rewrite (find_update_where SalesOrder.so_id) by reflexivity.
    rewrite Hso. simpl. rewrite Nat.eqb_refl. reflexivity.
Qed.

Lemma cancel_out_of_range db so_id so item :
  find (fun s => Nat.eqb (SalesOrder.so_id s) so_id) (sales_orders db) = Some so ->
  SalesOrder.order_status so <> so_delivered ->
  SalesOrder.order_status so <> so_partially_delivered ->
  find (fun i => Nat.eqb (StockItem.item_id i) (SalesOrder.item_id so)) (stock_items db)
    = Some item ->
  Integer_max < StockItem.item_qty item + SalesOrder.qty_ordered so ->
  cancel_sales_order so_id db = Raise 500 /\
  step db (POST_orders_cancel so_id) = db.
Proof.
  intros Hso Hd Hp Hit Hrange.
  assert (cancel_sales_order so_id db = Raise 500) as E.
  { unfold cancel_sales_order. unfold_session. rewrite Hso.
    assert (OrderStatus_eqb (SalesOrder.order_status so) so_delivered
            || OrderStatus_eqb (SalesOrder.order_status so) so_partially_delivered = false)
      as -> by (destruct (SalesOrder.order_status so); simpl; congruence).
    rewrite Hit. store_simpl.
    rewrite Integer_test_true by (right; exact Hrange). reflexivity. }
  split; [exact E|]. simpl. unfold commit. rewrite E. reflexivity.
Qed.

(** C10 (amended). Cancelling a sales order is answered with 400 exactly when
    its status is [delivered] or [partially_delivered].  In every other
    status, [cancelled] included, the cancel adds [qty_ordered] to the stock
    quantity and sets the status to [cancelled], and cancelling again adds
    [qty_ordered] once more, as long as the new quantity fits the [Integer]
    column; a cancel that would raise the quantity above 2147483647 is
    answered with 500 and writes nothing. *)
Theorem cancel_guard_and_release (rs : list Request) (so_id : Id) (so : SalesOrder.t) :
  find (fun s => Nat.eqb (SalesOrder.so_id s) so_id) (sales_orders (run rs)) = Some so ->
  (cancel_sales_order so_id (run rs) = Raise 400 <->
   SalesOrder.order_status so = so_delivered \/
   SalesOrder.order_status so = so_partially_delivered) /\
  (SalesOrder.order_status so <> so_delivered ->
   SalesOrder.order_status so <> so_partially_delivered ->
   exists item,
     find (fun i => Nat.eqb (StockItem.item_id i) (SalesOrder.item_id so))
          (stock_items (run rs)) = Some item /\
     let qty := StockItem.item_qty item in
     let released := SalesOrder.qty_ordered so in
     (qty + released <= Integer_max ->
      exists db',
        cancel_sales_order so_id (run rs) = Ok tt db' /\
        find (fun i => Nat.eqb (StockItem.item_id i) (SalesOrder.item_id so))
             (stock_items db')
          = Some (StockItem.set_item_qty (qty + released) item) /\
        find (fun s => Nat.eqb (SalesOrder.so_id s) so_id) (sales_orders db')
          = Some (SalesOrder.set_order_status so_cancelled so) /\
        (qty + released + released <= Integer_max ->
         exists db'',
           cancel_sales_order so_id db' = Ok tt db'' /\
           find (fun i => Nat.eqb (StockItem.item_id i) (SalesOrder.item_id so))
                (stock_items db'')
             = Some (StockItem.set_item_qty (qty + released + released) item)) /\
        (Integer_max < qty + released + released ->
         cancel_sales_order so_id db' = Raise 500 /\
         step db' (POST_orders_cancel so_id) = db')) /\
     (Integer_max < qty + released ->
      cancel_sales_order so_id (run rs) = Raise 500 /\
      step (run rs) (POST_orders_cancel so_id) = run rs)).
Proof.
  intros Hso. split; [apply cancel_rejected_iff; exact Hso|].
  intros Hd Hp.
  pose proof (so_items_exist_run rs) as Hex. unfold so_items_exist in Hex.
  pose proof (find_Forall _ _ _ _ Hex Hso) as Hit. unfold item_exists in Hit.
  destruct (find _ (stock_items (run rs))) as [item|] eqn:Eit; [|contradiction].
  destruct (stock_inv_run rs) as [Hnn _ _ Hqty].
  pose proof (find_Forall _ _ _ _ Hnn Eit) as Hq0.
  pose proof (find_Forall _ _ _ _ Hqty Hso) as Hq1.
  cbv beta in Hq0, Hq1.
  assert (Integer_min <= 0) as Hmin by discriminate.
  exists item. split; [reflexivity|]. cbv zeta. split.
  - intros Hrange.
    destruct (cancel_effect _ _ _ _ Hso Hd Hp Eit ltac:(lia)) as [db' [E1 [Hit1 Hso1]]].
    exists db'. split; [exact E1|]. split; [exact Hit1|]. split; [exact Hso1|].
    split.
    + intros Hrange2.
      destruct (cancel_effect db' so_id (SalesOrder.set_order_status so_cancelled so)
                  (StockItem.set_item_qty
                     (StockItem.item_qty item + SalesOrder.qty_ordered so) item)
                  Hso1) as [db'' [E2 [Hit2 _]]];
        try discriminate; [exact Hit1 | simpl; lia |].
      exists db''. split; assumption.
    + intros Hrange2.
      apply (cancel_out_of_range db' so_id (SalesOrder.set_order_status so_cancelled so)
               (StockItem.set_item_qty
                  (StockItem.item_qty item + SalesOrder.qty_ordered so) item) Hso1);
        try discriminate; [exact Hit1 | simpl; lia].
  - intros Hrange. eapply cancel_out_of_range; eassumption.
Qed.

Lemma cancel_guard_and_release_witness :
  exists db' db'',
    cancel_sales_order 2%nat (run cancel_scenario) = Ok tt db' /\
    find (fun i => Nat.eqb (StockItem.item_id i) 1%nat) (stock_items db')
      = Some (StockItem.mk 1%nat "bolt" 100 (2#1) 20) /\
    find (fun s => Nat.eqb (SalesOrder.so_id s) 2%nat) (sales_orders db')
      = Some (SalesOrder.set_order_status so_cancelled confirmed_order) /\
    cancel_sales_order 2%nat db' = Ok tt db'' /\
    find (fun i => Nat.eqb (StockItem.item_id i) 1%nat) (stock_items db'')
      = Some (StockItem.mk 1%nat "bolt" 110 (2#1) 20).
Proof.
  destruct (proj2 (cancel_guard_and_release cancel_scenario 2%nat confirmed_order
                     eq_refl))
    as [item [Hit [Hok _]]]; [discriminate | discriminate |].
  vm_compute in Hit. injection Hit as <-.
  destruct Hok as [db' [E1 [H1 [H2 [Hagain _]]]]]; [vm_compute; discriminate|].
  destruct Hagain as [db'' [E2 H3]]; [vm_compute; discriminate|].
  exists db', db''. repeat split; assumption.
Defined.

(** C10, as stated, fails: an order that is [cancelled], on an item whose
    stock is 2147483647, cannot be cancelled again; the cancel is answered
    with 500 and the stock stays as it is. *)
Lemma cancel_fails_at_full_stock :
  find (fun s => Nat.eqb (SalesOrder.so_id s) 2%nat)
       (sales_orders (run full_cancel_scenario))
    = Some (SalesOrder.set_order_status so_cancelled confirmed_order) /\
  SalesOrder.order_status (SalesOrder.set_order_status so_cancelled confirmed_order)
    <> so_delivered /\
  SalesOrder.order_status (SalesOrder.set_order_status so_cancelled confirmed_order)
    <> so_partially_delivered /\
  map StockItem.item_qty (stock_items (run full_cancel_scenario)) = [2147483647] /\
  cancel_sales_order 2%nat (run full_cancel_scenario) = Raise 500 /\
  map StockItem.item_qty
      (stock_items (step (run full_cancel_scenario) (POST_orders_cancel 2%nat)))
    = [2147483647].
Proof.
  split; [reflexivity|]. split; [discriminate|]. split; [discriminate|].
  split; [reflexivity|]. split; reflexivity.
Qed.

Example repeated_cancel_inflates_stock :
  map StockItem.item_qty
    (stock_items (run (cancel_scenario ++ [POST_orders_cancel 2%nat; POST_orders_cancel 2%nat])))
  = [110].
Proof. reflexivity. Qed.

(** * Further properties of the handlers *)


Lemma table_keys_step db r : keys_inv db -> table_keys db -> table_keys (step db r).
Proof.
  intros [Hb _ _ _ _ _] [H1 H2 H3 H4 H5 H6 H7 H8 H9 H10 H11 H12 H13].
  destruct r; simpl; unfold_handlers.
  all: open_handler.
  all: try (constructor; assumption).
  all: constructor; store_simpl.
  all: keys_table.
Qed.

Lemma table_keys_run rs : table_keys (run rs).
Proof.
  induction rs as [|r rs IH] using rev_ind; [constructor; constructor|].
  rewrite run_snoc. apply table_keys_step; auto using keys_inv_run.
Qed.


(** ** Quantities fit their columns *)




(** ** Creating and reading back *)





(** X2. In every reachable store, a client that was just created is what
    [GET /sales/clients/{id}] returns, with balance 0; and a stock item that
    was just created is what the item detail shows, with the quantity given and
    the safety stock given (0 when it was left out). *)
Theorem client_and_item_create_then_get (rs : list Request) :
  (forall payload c db',
     create_client payload (run rs) = Ok c db' ->
     Client.client_name c = ClientCreate.client_name payload /\
     Client.account_balance c = 0%Q /\
     get_client (Client.client_id c) db' = Ok c db') /\
  (forall payload i db',
     create_inventory_item payload (run rs) = Ok i db' ->
     exists d,
       get_inventory_item_detail (StockItem.item_id i) db' = Ok d db' /\
       ItemDetailResponse.item_id d = StockItem.item_id i /\
       ItemDetailResponse.item_name d = ItemCreate.item_name payload /\
       ItemDetailResponse.item_qty d = ItemCreate.item_qty payload /\
       ItemDetailResponse.safety_stock d
         = match ItemCreate.safety_stock payload with Some s => s | None => 0 end).
Proof.
  pose proof (table_keys_run rs) as Hk. split.
  - intros payload c db'. unfold create_client.
    open_handler; try discriminate; invert_ok; store_simpl.
    repeat split. unfold get_client. unfold_session. store_simpl.
    rewrite find_snoc_new by (apply find_fresh_key, Hk).
    simpl. rewrite Nat.eqb_refl. reflexivity.
  - intros payload i db'. unfold create_inventory_item.
    open_handler; try discriminate; invert_ok; store_simpl.
    all: unfold get_inventory_item_detail; unfold_session; store_simpl.
    all: rewrite find_snoc_new by (apply find_fresh_key, Hk).
    all: simpl; rewrite Nat.eqb_refl.
    all: eexists; split; [reflexivity|]; repeat split.
Qed.

Lemma client_and_item_create_then_get_witness :
  Client.client_name (Client.mk 0%nat "Bob" 0%Q) = "Bob"%string /\
  Client.account_balance (Client.mk 0%nat "Bob" 0%Q) = 0%Q /\
  get_client 0%nat (run [POST_clients bob])
    = Ok (Client.mk 0%nat "Bob" 0%Q) (run [POST_clients bob]).
Proof.
  apply (proj1 (client_and_item_create_then_get []) bob
           (Client.mk 0%nat "Bob" 0%Q) (run [POST_clients bob])).
  reflexivity.
Defined.


(** ** Stock adjustments *)

Lemma update_where_twice_id {A} (p : A -> bool) f1 f2 (l : list A) :
  (forall x, In x l -> p x = true -> p (f1 x) = true /\ f2 (f1 x) = x) ->
  update_where p f2 (update_where p f1 l) = l.
Proof.
  intros H. unfold update_where. rewrite map_map.
  rewrite <- (map_id l) at 2. apply map_ext_in. intros x Hx.
  destruct (p x) eqn:E.
  - destruct (H x Hx E) as [-> ->]. reflexivity.
  - rewrite E. reflexivity.
Qed.

Lemma set_stock_items_same db l : l = stock_items db -> set_stock_items l db = db.
Proof. intros ->. destruct db; reflexivity. Qed.

Lemma found_key {A} (key : A -> nat) (l : list A) id r :
  find (fun x => Nat.eqb (key x) id) l = Some r -> In r l /\ key r = id.
Proof.
  intros H. apply find_some in H. destruct H as [H1 H2].
  apply Nat.eqb_eq in H2. auto.
Qed.




(** The largest quantity cannot be increased. *)
Example increase_beyond_the_Integer_range :
  adjust_inventory_item 1%nat (adjust_by increase 1 "found") (run full_stock_scenario)
  = Raise 500.
Proof. reflexivity. Qed.




(** ** Negotiating a purchase order *)

Lemma highest_version_snoc l a :
  (forall b, In b l -> Acknowledgement.version b < Acknowledgement.version a) ->
  highest_version (l ++ [a]) = Some a.
Proof.
  induction l as [|x l IH]; intros H; simpl; [reflexivity|].
  rewrite IH by (intros; apply H; right; assumption).
  assert ((Acknowledgement.version a <=? Acknowledgement.version x) = false) as ->
    by (apply Z.leb_gt, H; left; reflexivity).
  reflexivity.
Qed.

Lemma acknowledge_appends db po_id payload a db' :
  acknowledge_po po_id payload db = Ok a db' ->
  lower (POAcknowledgeRequest.action payload) <> "accepted"%string ->
  acknowledgements db' = acknowledgements db ++ [a] /\
  purchase_orders db' = purchase_orders db /\
  delivery_inbound db' = delivery_inbound db /\
  stock_items db' = stock_items db /\
  Acknowledgement.is_final a = false /\
  Acknowledgement.status a
    = (if String.eqb (lower (POAcknowledgeRequest.action payload)) "rejected"
       then ack_rejected else ack_proposed).
Proof.
  intros H Hna. apply String.eqb_neq in Hna. revert H.
  unfold acknowledge_po. rewrite Hna.
  open_handler; try discriminate; invert_ok; store_simpl.
  all: repeat split; reflexivity.
Qed.

(** X5. A rejecting or revising acknowledgement (any action other than
    accepted, in any letter case) records a proposal that is not final and
    leaves the purchase order, the inbound deliveries and the stock as they
    were; the order stays negotiable, and the next acknowledgement with a
    valid action is taken with the next version number. *)
Theorem negotiation_stays_open (db : Db) (po_id : Id) (payload : POAcknowledgeRequest.t)
    (a : Acknowledgement.t) (db' : Db) :
  acknowledge_po po_id payload db = Ok a db' ->
  lower (POAcknowledgeRequest.action payload) <> "accepted"%string ->
  (acknowledgements db' = acknowledgements db ++ [a] /\
   purchase_orders db' = purchase_orders db /\
   delivery_inbound db' = delivery_inbound db /\
   stock_items db' = stock_items db /\
   Acknowledgement.is_final a = false /\
   Acknowledgement.status a
     = (if String.eqb (lower (POAcknowledgeRequest.action payload)) "rejected"
        then ack_rejected else ack_proposed)) /\
  (forall payload',
     POAcknowledgeRequest.valid payload' = true ->
     valid_action (POAcknowledgeRequest.action payload') = true ->
     exists a' db'',
       acknowledge_po po_id payload' db' = Ok a' db'' /\
       Acknowledgement.version a' = Acknowledgement.version a + 1).
Proof.
  intros H Hna.
  pose proof (acknowledge_appends _ _ _ _ _ H Hna) as Happ.
  split; [exact Happ|].
  destruct Happ as [Hacks [Hpos _]].
  destruct (acknowledge_version _ _ _ _ _ H) as [Hpo [Hv _]].
  intros payload' Hv' Hact.
  assert (highest_version (acks_of_po po_id db') = Some a) as Hmax.
  { unfold acks_of_po. rewrite Hacks, filter_app. simpl.
    rewrite Hpo, Nat.eqb_refl. apply highest_version_snoc.
    intros b Hb. apply filter_In in Hb. destruct Hb as [Hb Hp].
    apply Nat.eqb_eq in Hp. rewrite Hv. apply next_version_above; assumption. }
  assert (exists po,
            find (fun p => Nat.eqb (PurchaseOrder.po_id p) po_id) (purchase_orders db)
              = Some po /\
            PurchaseOrder.po_status po = po_pending_price_negotiation) as [po [Hfind Hst]].
  { revert H. unfold acknowledge_po. unfold_session.
    destruct (POAcknowledgeRequest.valid payload); [|discriminate].
    destruct (find _ (purchase_orders db)) as [po|]; [|discriminate].
    destruct (negb _) eqn:Hst; [discriminate|]. intros _.
    apply negb_false_iff, POStatus_eqb_eq in Hst. eauto. }
  unfold acknowledge_po. unfold_session. rewrite Hv'. cbv beta iota.
  rewrite Hpos, Hfind, Hst. simpl. rewrite Hmax.
  unfold valid_action in Hact. rewrite Hact. simpl.
  destruct (String.eqb (lower (POAcknowledgeRequest.action payload')) "accepted");
    [|destruct (String.eqb (lower (POAcknowledgeRequest.action payload')) "rejected")].
  all: do 2 eexists; split; reflexivity.
Qed.

Lemma negotiation_stays_open_witness :
  exists a' db'',
    acknowledge_po 2%nat accepting
      (run (pending_po_scenario ++ [POST_purchase_orders_acknowledge 2%nat rejecting]))
      = Ok a' db'' /\
    Acknowledgement.version a'
      = Acknowledgement.version
          (Acknowledgement.mk 3%nat 2%nat (Some (12#1)) ack_rejected false 1) + 1.
Proof.
  refine (proj2 (negotiation_stays_open (run pending_po_scenario) 2%nat rejecting
                   (Acknowledgement.mk 3%nat 2%nat (Some (12#1)) ack_rejected false 1)
                   (run (pending_po_scenario
                         ++ [POST_purchase_orders_acknowledge 2%nat rejecting]))
                   _ _) accepting _ _).
  - vm_compute. reflexivity.
  - vm_compute. discriminate.
  - reflexivity.
  - reflexivity.
Defined.


(** ** Life cycle of a purchase order *)

Lemma po_advances_refl po : po_advances po po.
Proof. unfold po_advances. repeat split; auto. Qed.

Lemma po_advances_trans a b c : po_advances a b -> po_advances b c -> po_advances a c.
Proof.
  unfold po_advances.
  intros [A1 [A2 [A3 [A4 [A5 A6]]]]] [B1 [B2 [B3 [B4 [B5 B6]]]]].
  repeat split; try congruence; try lia.
  intros Hne. rewrite B6, A6; auto.
  intros E. rewrite E in A5. simpl in A5.
  destruct (PurchaseOrder.po_status a); simpl in *; try congruence; lia.
Qed.

Lemma po_advances_step db r po_id po :
  po_lookup po_id db = Some po ->
  exists po', po_lookup po_id (step db r) = Some po' /\ po_advances po po'.
Proof.
  unfold po_lookup. intros Hpo.
  destruct r; simpl; unfold_handlers.
  all: open_handler; store_simpl.
  all: try (exists po; split; [assumption | apply po_advances_refl]).
  all: try (exists po; split; [apply find_snoc_old; assumption | apply po_advances_refl]).
  all: rewrite (find_update_where PurchaseOrder.po_id) by reflexivity;
       rewrite Hpo; simpl.
  all: match goal with
       | |- context [Nat.eqb (PurchaseOrder.po_id ?p) (PurchaseOrder.po_id ?t)] =>
           destruct (Nat.eqb (PurchaseOrder.po_id p) (PurchaseOrder.po_id t)) eqn:E
       end.
  all: try (eexists; split; [reflexivity | apply po_advances_refl]).
  all: apply Nat.eqb_eq in E; destruct (found_key _ _ _ _ Hpo) as [_ Hp].
  all: match goal with
       | H : find _ _ = Some ?t, E : PurchaseOrder.po_id ?p = PurchaseOrder.po_id ?t |- _ =>
           destruct (found_key _ _ _ _ H) as [_ Ht];
           assert (t = p) as -> by (rewrite <- Ht, <- E, Hp in H; congruence)
       end.
  all: bool_facts.
  all: repeat match goal with
       | H : POStatus_eqb _ _ = true |- _ => apply POStatus_eqb_eq in H
       end.
  all: eexists; split; [reflexivity|].
  all: unfold po_advances; simpl; repeat split; auto.
  all: try (match goal with H : PurchaseOrder.po_status _ = _ |- _ => rewrite H end;
            simpl; lia).
  all: congruence.
Qed.

Lemma po_advances_steps rs : forall db po_id po,
  po_lookup po_id db = Some po ->
  exists po', po_lookup po_id (fold_left step rs db) = Some po' /\ po_advances po po'.
Proof.
  induction rs as [|r rs IH]; intros db po_id po H; simpl.
  - exists po. split; [assumption | apply po_advances_refl].
  - destruct (po_advances_step db r po_id po H) as [po1 [H1 A1]].
    destruct (IH _ _ _ H1) as [po2 [H2 A2]].
    exists po2. split; [assumption | eapply po_advances_trans; eassumption].
Qed.

Lemma po_never_approved rs :
  Forall (fun p => PurchaseOrder.po_status p <> po_approved) (purchase_orders (run rs)).
Proof.
  apply run_invariant with
    (P := fun db => Forall (fun p => PurchaseOrder.po_status p <> po_approved)
                           (purchase_orders db)); [constructor|].
  intros db r H.
  destruct r; simpl; unfold_handlers.
  all: open_handler; store_simpl; try assumption.
  all: repeat first [ apply Forall_snoc | apply Forall_update_where ];
       try assumption; simpl; intros; try discriminate.
Qed.

(** X7. A purchase order only moves forward.  Whatever requests follow, the
    row stays in the table with the same supplier, item and ordered quantity,
    its status never goes back (pending, then acknowledged, then received),
    and once it has left [pending_price_negotiation] its price never changes.
    No reachable purchase order has the status [approved]. *)
Theorem purchase_order_only_advances (rs : list Request) :
  Forall (fun p => PurchaseOrder.po_status p <> po_approved) (purchase_orders (run rs)) /\
  (forall db rs' po_id po,
     po_lookup po_id db = Some po ->
     exists po', po_lookup po_id (fold_left step rs' db) = Some po' /\ po_advances po po').
Proof.
  split; [apply po_never_approved|].
  intros db rs'. apply po_advances_steps.
Qed.

Lemma purchase_order_only_advances_witness :
  exists po',
    po_lookup 2%nat
      (fold_left step [POST_purchase_orders_receive 2%nat; POST_bills 2%nat]
                 (run acknowledged_scenario)) = Some po' /\
    po_advances acknowledged_po po'.
Proof.
  apply (proj2 (purchase_order_only_advances [])
           (run acknowledged_scenario)
           [POST_purchase_orders_receive 2%nat; POST_bills 2%nat] 2%nat acknowledged_po).
  reflexivity.
Defined.


(** ** Accepting a price *)

Lemma acknowledge_closed db po_id po payload :
  po_lookup po_id db = Some po ->
  PurchaseOrder.po_status po <> po_pending_price_negotiation ->
  POAcknowledgeRequest.valid payload = true ->
  acknowledge_po po_id payload db = Raise 400.
Proof.
  unfold po_lookup. intros Hpo Hst Hv.
  unfold acknowledge_po. unfold_session. rewrite Hv. store_simpl. rewrite Hpo.
  destruct (PurchaseOrder.po_status po); try reflexivity. contradiction.
Qed.

(** X6. An accepting acknowledgement moves the purchase order from
    [pending_price_negotiation] to [acknowledged] with the price of the
    request, opens one inbound delivery [in_transit] for it, and closes the
    negotiation for good: whatever requests follow, every later
    acknowledgement of that order is answered with 400. *)
Theorem acceptance_closes_negotiation (db : Db) (po_id : Id)
    (payload : POAcknowledgeRequest.t) (a : Acknowledgement.t) (db' : Db) :
  acknowledge_po po_id payload db = Ok a db' ->
  lower (POAcknowledgeRequest.action payload) = "accepted"%string ->
  exists po,
    find (fun p => Nat.eqb (PurchaseOrder.po_id p) po_id) (purchase_orders db) = Some po /\
    PurchaseOrder.po_status po = po_pending_price_negotiation /\
    find (fun p => Nat.eqb (PurchaseOrder.po_id p) po_id) (purchase_orders db')
      = Some (PurchaseOrder.set_po_status po_acknowledged
                (PurchaseOrder.set_final_price_per_item
                   (POAcknowledgeRequest.final_price_per_item payload) po)) /\
    Acknowledgement.final_price_per_item a
      = POAcknowledgeRequest.final_price_per_item payload /\
    delivery_inbound db'
      = delivery_inbound db ++ [DeliveryInbound.mk (uuid_supply db) po_id dl_in_transit] /\
    (forall (later : list Request) payload',
       POAcknowledgeRequest.valid payload' = true ->
       acknowledge_po po_id payload' (fold_left step later db') = Raise 400).
Proof.
  intros H Hacc. revert H. unfold acknowledge_po at 1. rewrite Hacc.
  unfold_session.
  destruct (POAcknowledgeRequest.valid payload); [|discriminate].
  destruct (find _ (purchase_orders db)) as [po|] eqn:Hpo; [|discriminate].
  destruct (negb _) eqn:Hst; [discriminate|].
  apply negb_false_iff, POStatus_eqb_eq in Hst.
  simpl. intros H. injection H as <- <-. store_simpl.
  destruct (found_key _ _ _ _ Hpo) as [_ Hid].
  exists po. split; [reflexivity|]. split; [exact Hst|].
  assert (find (fun p => Nat.eqb (PurchaseOrder.po_id p) po_id)
            (update_where (fun p => Nat.eqb (PurchaseOrder.po_id p) (PurchaseOrder.po_id po))
               (fun p => PurchaseOrder.set_po_status po_acknowledged
                           (PurchaseOrder.set_final_price_per_item
                              (POAcknowledgeRequest.final_price_per_item payload) p))
               (purchase_orders db))
          = Some (PurchaseOrder.set_po_status po_acknowledged
                    (PurchaseOrder.set_final_price_per_item
                       (POAcknowledgeRequest.final_price_per_item payload) po))) as Hpo'.
  { rewrite (find_update_where PurchaseOrder.po_id) by reflexivity.
    rewrite Hpo. simpl. rewrite Nat.eqb_refl. reflexivity. }
  split; [exact Hpo'|]. split; [reflexivity|]. split; [reflexivity|].
  intros later payload' Hv'.
  match goal with |- acknowledge_po _ _ (fold_left step later ?d) = _ =>
    destruct (po_advances_steps later d po_id _ Hpo') as [po' [Hlater Hadv]]
  end.
  apply (acknowledge_closed _ _ po' _ Hlater); [|exact Hv'].
  destruct Hadv as [_ [_ [_ [_ [Hrank _]]]]]. simpl in Hrank.
  intros E. rewrite E in Hrank. simpl in Hrank. lia.
Qed.

Lemma acceptance_closes_negotiation_witness :
  exists po,
    find (fun p => Nat.eqb (PurchaseOrder.po_id p) 2%nat)
         (purchase_orders (run pending_po_scenario)) = Some po /\
    PurchaseOrder.po_status po = po_pending_price_negotiation /\
    find (fun p => Nat.eqb (PurchaseOrder.po_id p) 2%nat)
         (purchase_orders (run acknowledged_scenario))
      = Some (PurchaseOrder.set_po_status po_acknowledged
                (PurchaseOrder.set_final_price_per_item (Some (9#1)) po)) /\
    Acknowledgement.final_price_per_item
      (Acknowledgement.mk 4%nat 2%nat (Some (9#1)) ack_accepted true 1) = Some (9#1) /\
    delivery_inbound (run acknowledged_scenario)
      = delivery_inbound (run pending_po_scenario)
        ++ [DeliveryInbound.mk (uuid_supply (run pending_po_scenario)) 2%nat dl_in_transit] /\
    (forall (later : list Request) payload',
       POAcknowledgeRequest.valid payload' = true ->
       acknowledge_po 2%nat payload' (fold_left step later (run acknowledged_scenario))
       = Raise 400).
Proof.
  apply (acceptance_closes_negotiation (run pending_po_scenario) 2%nat accepting
           (Acknowledgement.mk 4%nat 2%nat (Some (9#1)) ack_accepted true 1)
           (run acknowledged_scenario)).
  - vm_compute. reflexivity.
  - reflexivity.
Defined.

(** After the acceptance, a further proposal is refused also once the goods
    have been received and billed. *)
Example negotiation_stays_closed :
  acknowledge_po 2%nat rejecting
    (fold_left step [POST_purchase_orders_receive 2%nat; POST_bills 2%nat]
               (run acknowledged_scenario))
  = Raise 400.
Proof. reflexivity. Qed.


(** ** Bills *)

Lemma bill_linked_same db db' b :
  purchase_orders db' = purchase_orders db ->
  acknowledgements db' = acknowledgements db ->
  bill_linked db b -> bill_linked db' b.
Proof.
  unfold bill_linked, po_lookup. intros -> ->. auto.
Qed.

Lemma bill_linked_new_po db db' b x :
  purchase_orders db' = purchase_orders db ++ [x] ->
  acknowledgements db' = acknowledgements db ->
  bill_linked db b -> bill_linked db' b.
Proof.
  unfold bill_linked, po_lookup. intros -> -> [[po [H1 H2]] Ha]. split; auto.
  exists po. split; auto. apply find_snoc_old. exact H1.
Qed.

(** Rewriting the rows of another purchase order does not touch the bill. *)
Lemma bill_linked_other_po db db' b target fpo t :
  po_lookup target db = Some t ->
  PurchaseOrder.po_status t <> po_received ->
  (forall p, PurchaseOrder.po_id (fpo p) = PurchaseOrder.po_id p) ->
  purchase_orders db'
    = update_where (fun p => Nat.eqb (PurchaseOrder.po_id p) (PurchaseOrder.po_id t)) fpo
                   (purchase_orders db) ->
  (forall a, In a (acknowledgements db) -> Acknowledgement.po_id a <> target ->
             In a (acknowledgements db')) ->
  bill_linked db b -> bill_linked db' b.
Proof.
  intros Ht Hst Hk Hp Ha [[po [H1 H2]] [a [A1 [A2 [A3 A4]]]]].
  assert (target <> Bill.po_id b) as Hne by (intros ->; congruence).
  unfold bill_linked, po_lookup in *.
  destruct (found_key _ _ _ _ Ht) as [_ Htid].
  split.
  - exists po. split; auto. rewrite Hp.
    rewrite (find_update_where PurchaseOrder.po_id) by exact Hk.
    rewrite H1. simpl.
    destruct (found_key _ _ _ _ H1) as [_ Hid].
    assert (Nat.eqb (PurchaseOrder.po_id po) (PurchaseOrder.po_id t) = false) as ->
      by (apply Nat.eqb_neq; congruence).
    reflexivity.
  - exists a. repeat split; auto. apply Ha; congruence.
Qed.

Lemma bill_linked_more_acks db db' b extra :
  purchase_orders db' = purchase_orders db ->
  acknowledgements db' = acknowledgements db ++ extra ->
  bill_linked db b -> bill_linked db' b.
Proof.
  unfold bill_linked, po_lookup. intros -> -> [Hpo [a [A1 A2]]]. split; auto.
  exists a. split; auto. apply in_or_app; auto.
Qed.

Lemma bills_inv_step db r : bills_inv db -> bills_inv (step db r).
Proof.
  intros [Hl Hn].
  destruct r; simpl; unfold_handlers.
  all: open_handler; try (constructor; assumption).
  all: constructor; store_simpl; try assumption.
  all: try rewrite map_update_where by reflexivity; try assumption.
  all: try (apply Forall_update_where; [|intros ? ? Hx ?; exact Hx]).
  all: try (eapply Forall_impl; [|exact Hl]; intros b Hb;
            first [ apply (bill_linked_same db); [reflexivity | reflexivity | exact Hb]
                  | eapply (bill_linked_new_po db);
                      [reflexivity | reflexivity | exact Hb] ]).
  (* an accepting acknowledgement of another order *)
  1, 2: eapply Forall_impl; [|exact Hl]; intros b Hb;
    eapply (bill_linked_other_po db) with (target := po_id);
      [ unfold po_lookup; eassumption
      | bool_facts;
        match goal with H : POStatus_eqb _ _ = true |- _ =>
          apply POStatus_eqb_eq in H; rewrite H; discriminate end
      | | store_simpl; reflexivity
      | intros a Ha Hne; store_simpl; apply in_or_app; left;
        apply In_update_where; exists a; split; [exact Ha|];
        apply Nat.eqb_neq in Hne; rewrite Hne; reflexivity
      | exact Hb ]; reflexivity.
  (* a proposal that is not accepted *)
  1, 2, 3, 4: eapply Forall_impl; [|exact Hl]; intros b Hb;
    eapply (bill_linked_more_acks db); [reflexivity | reflexivity | exact Hb].
  (* receiving *)
  - eapply Forall_impl; [|exact Hl]; intros b Hb.
    eapply (bill_linked_other_po db) with (target := po_id);
      [ unfold po_lookup; eassumption
      | bool_facts;
        match goal with H : POStatus_eqb _ _ = true |- _ =>
          apply POStatus_eqb_eq in H; rewrite H; discriminate end
      | | store_simpl; reflexivity
      | intros a Ha _; exact Ha
      | exact Hb ]; reflexivity.
  (* billing *)
  - apply Forall_snoc.
    + eapply Forall_impl; [|exact Hl]. intros b Hb.
      apply (bill_linked_same db); [reflexivity | reflexivity | exact Hb].
    + bool_facts.
      match goal with H : POStatus_eqb _ _ = true |- _ => apply POStatus_eqb_eq in H end.
      match goal with H : find _ (acknowledgements _) = Some ?a |- _ =>
        apply find_some in H; destruct H as [Hin Hfa]; bool_facts end.
      split; simpl.
      * eexists. split; [unfold po_lookup; store_simpl; eassumption | assumption].
      * eexists. repeat split; store_simpl; eauto.
  - rewrite map_app. simpl. apply NoDup_snoc; [exact Hn|].
    rewrite in_map_iff. intros [b [Hb Hin]].
    match goal with H : find _ (bills _) = None |- _ =>
      apply find_none with (x := b) in H; [|exact Hin] end.
    bool_facts. congruence.
Qed.

Lemma bills_inv_run rs : bills_inv (run rs).
Proof.
  apply run_invariant; [constructor; constructor | exact bills_inv_step].
Qed.

Lemma singleton_of_short {A} (l : list A) a :
  In a l -> (List.length l <= 1)%nat -> l = [a].
Proof.
  destruct l as [|x [|y l]]; simpl; intros H Hl;
    [ destruct H | destruct H as [H|[]]; rewrite H; reflexivity | lia ].
Qed.

(** X8. In every reachable store each bill belongs to a purchase order that
    is [received], names the one final acknowledgement of that order, and is
    the only bill of that order. *)
Theorem bills_are_linked (rs : list Request) :
  (forall b, In b (bills (run rs)) ->
     (exists po, po_lookup (Bill.po_id b) (run rs) = Some po /\
                 PurchaseOrder.po_status po = po_received) /\
     (exists a, final_acks (Bill.po_id b) (run rs) = [a] /\
                Acknowledgement.ack_id a = Bill.ack_id b)) /\
  (forall b b', In b (bills (run rs)) -> In b' (bills (run rs)) ->
     Bill.po_id b = Bill.po_id b' -> b = b').
Proof.
  destruct (bills_inv_run rs) as [Hl Hn]. split.
  - intros b Hb. rewrite Forall_forall in Hl.
    destruct (Hl b Hb) as [Hpo [a [A1 [A2 [A3 A4]]]]]. split; [exact Hpo|].
    exists a. split; [|exact A2].
    apply singleton_of_short; [|apply one_final_ack_run].
    unfold final_acks. apply filter_In. split; [exact A1|].
    rewrite A3, Nat.eqb_refl, A4. reflexivity.
  - intros b b' Hb Hb' E. eapply (unique_key_eq Bill.po_id); eauto.
Qed.

Lemma bills_are_linked_witness :
  (exists po, po_lookup 2%nat (run billed_scenario) = Some po /\
              PurchaseOrder.po_status po = po_received) /\
  (exists a, final_acks 2%nat (run billed_scenario) = [a] /\
             Acknowledgement.ack_id a = 4%nat).
Proof.
  apply (proj1 (bills_are_linked billed_scenario)
           (Bill.mk 6%nat 2%nat 4%nat pay_pending None)).
  vm_compute. auto.
Defined.

Lemma bill_kept_step (key : Bill.t -> Id) :
  (forall st ref b, key (Bill.set_payment st ref b) = key b) ->
  forall db r id b,
    find (fun x => Nat.eqb (key x) id) (bills db) = Some b ->
    exists b',
      find (fun x => Nat.eqb (key x) id) (bills (step db r)) = Some b' /\
      (Bill.payment_status b = pay_paid -> Bill.payment_status b' = pay_paid).
Proof.
  intros Hkey db r id b Hb.
  destruct r; simpl; unfold_handlers.
  all: open_handler; store_simpl.
  all: try (exists b; split; [assumption | auto]).
  all: try (exists b; split; [apply find_snoc_old; assumption | auto]).
  all: rewrite (find_update_where key) by (intros; apply Hkey);
       rewrite Hb; simpl.
  all: match goal with |- context [if ?c then _ else _] => destruct c end.
  all: eexists; split; [reflexivity | auto].
Qed.

Lemma bill_kept_steps (key : Bill.t -> Id) :
  (forall st ref b, key (Bill.set_payment st ref b) = key b) ->
  forall rs db id b,
    find (fun x => Nat.eqb (key x) id) (bills db) = Some b ->
    exists b',
      find (fun x => Nat.eqb (key x) id) (bills (fold_left step rs db)) = Some b' /\
      (Bill.payment_status b = pay_paid -> Bill.payment_status b' = pay_paid).
Proof.
  intros Hkey. induction rs as [|r rs IH]; intros db id b Hb; simpl.
  - exists b. auto.
  - destruct (bill_kept_step key Hkey db r id b Hb) as [b1 [H1 P1]].
    destruct (IH _ _ _ H1) as [b2 [H2 P2]].
    exists b2. auto.
Qed.

(** X9. A purchase order cannot be billed twice and a bill cannot be paid
    twice: once [create_bill] has succeeded for an order, every later
    [create_bill] for it is answered with 400, and once [pay_bill] has
    succeeded for a bill, every later payment of it is answered with 400,
    whatever requests come in between. *)
Theorem no_double_billing_or_payment (db : Db) (later : list Request) :
  (forall po_id bill db1,
     create_bill po_id db = Ok bill db1 ->
     Bill.payment_status bill = pay_pending /\
     create_bill po_id (fold_left step later db1) = Raise 400) /\
  (forall bill_id payload paid db1,
     pay_bill bill_id payload db = Ok paid db1 ->
     forall payload',
       BillPaymentRequest.valid payload' = true ->
       pay_bill bill_id payload' (fold_left step later db1) = Raise 400).
Proof.
  split.
  - intros po_id bill db1. unfold create_bill at 1.
    open_handler; try discriminate; invert_ok. split; [reflexivity|].
    match goal with
    | Hpo : find _ (purchase_orders db) = Some ?po,
      Hst : negb (POStatus_eqb (PurchaseOrder.po_status ?po) po_received) = false,
      Hnone : find _ (bills db) = None
      |- create_bill _ (fold_left step later ?d) = _ =>
        apply negb_false_iff, POStatus_eqb_eq in Hst;
        destruct (po_advances_steps later d po_id po Hpo) as [po' [Hpo' Hadv]];
        destruct (bill_kept_steps Bill.po_id ltac:(reflexivity) later d po_id
                    (Bill.mk (uuid_supply db) po_id
                       (Acknowledgement.ack_id t0) pay_pending None))
          as [b' [Hb' _]];
        [ store_simpl; rewrite (find_snoc_new _ _ _ Hnone); simpl;
          rewrite Nat.eqb_refl; reflexivity | ]
    end.
    assert (PurchaseOrder.po_status po' = po_received) as Hrec.
    { destruct Hadv as [_ [_ [_ [_ [Hrank _]]]]].
      match goal with H : PurchaseOrder.po_status _ = po_received |- _ =>
        rewrite H in Hrank end.
      destruct (PurchaseOrder.po_status po'); simpl in Hrank; try lia. reflexivity. }
    unfold po_lookup in Hpo'.
    unfold create_bill. unfold_session. rewrite Hpo', Hrec. simpl.
    rewrite Hb'. reflexivity.
  - intros bill_id payload paid db1. unfold pay_bill at 1.
    open_handler; try discriminate; invert_ok.
    intros payload' Hv'.
    match goal with
    | Hb : find _ (bills db) = Some ?b
      |- pay_bill _ _ (fold_left step later ?d) = _ =>
        destruct (found_key _ _ _ _ Hb) as [_ Hid];
        destruct (bill_kept_steps Bill.bill_id ltac:(reflexivity) later d bill_id
                    (Bill.set_payment pay_paid
                       (Some (BillPaymentRequest.payment_reference payload)) b))
          as [b' [Hb' Hpaid]];
        [ store_simpl; rewrite (find_update_where Bill.bill_id) by reflexivity;
          rewrite Hb; simpl; rewrite Hid, Nat.eqb_refl; reflexivity | ]
    end.
    unfold pay_bill. unfold_session. rewrite Hv'. store_simpl.
    rewrite Hb', (Hpaid eq_refl). reflexivity.
Qed.

Lemma no_double_billing_or_payment_witness :
  Bill.payment_status (Bill.mk 6%nat 2%nat 4%nat pay_pending None) = pay_pending /\
  create_bill 2%nat
    (fold_left step [POST_bills_pay 6%nat (BillPaymentRequest.mk "ref-1")]
               (run billed_scenario)) = Raise 400.
Proof.
  apply (proj1 (no_double_billing_or_payment (run received_scenario)
                  [POST_bills_pay 6%nat (BillPaymentRequest.mk "ref-1")]) 2%nat
           (Bill.mk 6%nat 2%nat 4%nat pay_pending None) (run billed_scenario)).
  vm_compute. reflexivity.
Defined.


(** ** Sales orders, their invoices and their quotes *)

(** What [so_linked] reads of a store. *)
Lemma so_linked_ext db db' s s' :
  SalesOrder.order_status s' <> so_pending_price_negotiation ->
  SalesOrder.so_id s' = SalesOrder.so_id s ->
  SalesOrder.invoice_id s' = SalesOrder.invoice_id s ->
  SalesOrder.quote_id s' = SalesOrder.quote_id s ->
  SalesOrder.client_id s' = SalesOrder.client_id s ->
  SalesOrder.item_id s' = SalesOrder.item_id s ->
  SalesOrder.qty_ordered s' = SalesOrder.qty_ordered s ->
  SalesOrder.final_price_per_item s' = SalesOrder.final_price_per_item s ->
  (forall inv, invoice_lookup (Invoice.invoice_id inv) db = Some inv ->
     exists inv', invoice_lookup (Invoice.invoice_id inv) db' = Some inv' /\
                  Invoice.invoice_id inv' = Invoice.invoice_id inv /\
                  Invoice.so_id inv' = Invoice.so_id inv /\
                  Invoice.quote_id inv' = Invoice.quote_id inv) ->
  (forall q quote, quote_lookup q db = Some quote -> Quote.is_final quote = true ->
     quote_lookup q db' = Some quote) ->
  so_linked db s -> so_linked db' s'.
Proof.
  intros Hst E1 E2 E3 E4 E5 E6 E7 Hinv Hq [_ [[inv [I1 [I2 [I3 I4]]]] Hquote]].
  split; [exact Hst|]. split.
  - destruct (Hinv inv I2) as [inv' [J1 [J2 [J3 J4]]]].
    exists inv'. rewrite J2, J3, J4, E1, E2, E3. auto.
  - rewrite E3. destruct (SalesOrder.quote_id s) as [q|]; [|exact I].
    destruct Hquote as [quote [Q1 [Q2 [Q3 [Q4 [Q5 [Q6 Q7]]]]]]].
    exists quote. rewrite E4, E5, E6, E7. repeat split; auto.
Qed.

Lemma invoices_same db db' :
  invoices db' = invoices db ->
  forall inv, invoice_lookup (Invoice.invoice_id inv) db = Some inv ->
    exists inv', invoice_lookup (Invoice.invoice_id inv) db' = Some inv' /\
                 Invoice.invoice_id inv' = Invoice.invoice_id inv /\
                 Invoice.so_id inv' = Invoice.so_id inv /\
                 Invoice.quote_id inv' = Invoice.quote_id inv.
Proof. unfold invoice_lookup. intros -> inv H. exists inv. auto. Qed.

Lemma invoices_snoc db db' x :
  invoices db' = invoices db ++ [x] ->
  forall inv, invoice_lookup (Invoice.invoice_id inv) db = Some inv ->
    exists inv', invoice_lookup (Invoice.invoice_id inv) db' = Some inv' /\
                 Invoice.invoice_id inv' = Invoice.invoice_id inv /\
                 Invoice.so_id inv' = Invoice.so_id inv /\
                 Invoice.quote_id inv' = Invoice.quote_id inv.
Proof.
  unfold invoice_lookup. intros -> inv H. exists inv.
  split; [apply find_snoc_old; exact H | auto].
Qed.

Lemma invoices_voided db db' p :
  invoices db' = update_where p (Invoice.set_voided pay_voided true) (invoices db) ->
  forall inv, invoice_lookup (Invoice.invoice_id inv) db = Some inv ->
    exists inv', invoice_lookup (Invoice.invoice_id inv) db' = Some inv' /\
                 Invoice.invoice_id inv' = Invoice.invoice_id inv /\
                 Invoice.so_id inv' = Invoice.so_id inv /\
                 Invoice.quote_id inv' = Invoice.quote_id inv.
Proof.
  unfold invoice_lookup. intros -> inv H.
  rewrite (find_update_where Invoice.invoice_id) by reflexivity. rewrite H. simpl.
  eexists. split; [reflexivity|]. destruct (p inv); auto.
Qed.

Lemma quotes_same db db' :
  quotes db' = quotes db ->
  forall q quote, quote_lookup q db = Some quote -> Quote.is_final quote = true ->
    quote_lookup q db' = Some quote.
Proof. unfold quote_lookup. intros -> q quote H _. exact H. Qed.

Lemma quotes_snoc db db' x :
  quotes db' = quotes db ++ [x] ->
  forall q quote, quote_lookup q db = Some quote -> Quote.is_final quote = true ->
    quote_lookup q db' = Some quote.
Proof. unfold quote_lookup. intros -> q quote H _. apply find_snoc_old. exact H. Qed.

(** Rewriting rows that are not final leaves the final ones alone. *)
Lemma final_quote_kept l p f q quote :
  (forall x, Quote.quote_id (f x) = Quote.quote_id x) ->
  (forall x, p x = true -> Quote.is_final x = false) ->
  find (fun x => Nat.eqb (Quote.quote_id x) q) l = Some quote ->
  Quote.is_final quote = true ->
  find (fun x => Nat.eqb (Quote.quote_id x) q) (update_where p f l) = Some quote.
Proof.
  intros Hk Hp H Hf. rewrite (find_update_where Quote.quote_id) by exact Hk.
  rewrite H. simpl. destruct (p quote) eqn:E; [|reflexivity].
  apply Hp in E. congruence.
Qed.

(** Rewriting the row found under a key that is not final. *)
Lemma final_quote_kept_by_key l k old f q quote :
  (forall x, Quote.quote_id (f x) = Quote.quote_id x) ->
  find (fun x => Nat.eqb (Quote.quote_id x) k) l = Some old ->
  Quote.is_final old = false ->
  find (fun x => Nat.eqb (Quote.quote_id x) q) l = Some quote ->
  Quote.is_final quote = true ->
  find (fun x => Nat.eqb (Quote.quote_id x) q)
       (update_where (fun x => Nat.eqb (Quote.quote_id x) (Quote.quote_id old)) f l)
  = Some quote.
Proof.
  intros Hk Hold Hnf H Hf. rewrite (find_update_where Quote.quote_id) by exact Hk.
  rewrite H. simpl.
  destruct (Nat.eqb (Quote.quote_id quote) (Quote.quote_id old)) eqn:E; [|reflexivity].
  apply Nat.eqb_eq in E.
  destruct (found_key _ _ _ _ Hold) as [_ Ho]. destruct (found_key _ _ _ _ H) as [_ Hq].
  subst q. rewrite E, Ho, Hold in H. injection H as <-. congruence.
Qed.

Lemma find_update_where_skip {A} (key : A -> Id) p f (l : list A) id r :
  (forall x, key (f x) = key x) ->
  find (fun x => Nat.eqb (key x) id) l = Some r -> p r = false ->
  find (fun x => Nat.eqb (key x) id) (update_where p f l) = Some r.
Proof.
  intros Hk H Hp. rewrite (find_update_where key) by exact Hk.
  rewrite H. simpl. rewrite Hp. reflexivity.
Qed.

Lemma final_quote_differs l k t q quote :
  find (fun x => Nat.eqb (Quote.quote_id x) k) l = Some t ->
  Quote.is_final t = false ->
  find (fun x => Nat.eqb (Quote.quote_id x) q) l = Some quote ->
  Quote.is_final quote = true ->
  Nat.eqb (Quote.quote_id quote) (Quote.quote_id t) = false.
Proof.
  intros Ht Hnf Hq Hf. apply Nat.eqb_neq. intros E.
  destruct (found_key _ _ _ _ Ht) as [_ Hk]. destruct (found_key _ _ _ _ Hq) as [_ Hq'].
  rewrite <- Hk, <- E, Hq', Hq in Ht. congruence.
Qed.

Ltac old_orders H :=
  eapply Forall_impl; [|exact H]; intros s Hs; eapply so_linked_ext;
  [ apply Hs | reflexivity .. | | | exact Hs ].

Lemma sales_linked_step db r :
  keys_inv db -> table_keys db -> sales_linked db -> sales_linked (step db r).
Proof.
  intros Hk Ht H. unfold sales_linked in *.
  destruct r; simpl; unfold_handlers.
  all: open_handler; try assumption; store_simpl.
  (* requests that touch neither sales orders, invoices nor quotes *)
  all: try (eapply Forall_impl; [|exact H]; intros s Hs;
            solve [ eapply so_linked_ext;
                    [ apply Hs | reflexivity .. 
                    | apply invoices_same; reflexivity
                    | apply quotes_same; reflexivity
                    | exact Hs ] ]).
  - (* a new quote *)
    old_orders H; [apply invoices_same; reflexivity | eapply quotes_snoc; reflexivity].
  - (* a revision *)
    old_orders H; [apply invoices_same; reflexivity|].
    intros q quote Hq Hf. unfold quote_lookup in *. store_simpl.
    apply find_snoc_old.
    match goal with Hold : find _ (quotes db) = Some ?t |- _ =>
      pose proof (final_quote_differs _ _ _ _ _ Hold ltac:(assumption) Hq Hf) as Hne end.
    apply (find_update_where_skip Quote.quote_id); [reflexivity | | exact Hne].
    apply (find_update_where_skip Quote.quote_id); [reflexivity | exact Hq | exact Hne].
  - (* accepting a quote *)
    match goal with |- Forall (so_linked ?d) _ => set (db' := d) end.
    match goal with Hq : find _ (quotes db) = Some ?t |- _ =>
      rename Hq into Hquote; destruct (found_key _ _ _ _ Hquote) as [_ Hqid] end.
    assert (forall q quote, quote_lookup q db = Some quote -> Quote.is_final quote = true ->
              quote_lookup q db' = Some quote) as Hfinal.
    { intros q quote Hq Hf. unfold quote_lookup in *. subst db'. store_simpl.
      apply (find_update_where_skip Quote.quote_id);
        [reflexivity | | eapply final_quote_differs; eassumption].
      apply (find_update_where_skip Quote.quote_id); [reflexivity | exact Hq |].
      rewrite Hf. simpl. rewrite andb_false_r. reflexivity. }
    rewrite Forall_forall in *. intros s Hin.
    apply In_update_where in Hin. destruct Hin as [y [Hy ->]].
    apply in_app_or in Hy. destruct Hy as [Hy | [<- | []]].
    + destruct Hk as [_ _ _ Hso _ _]. rewrite Forall_forall in Hso.
      pose proof (Hso y Hy) as Hlt. simpl.
      assert (Nat.eqb (SalesOrder.so_id y) (uuid_supply db) = false) as ->
        by (apply Nat.eqb_neq; lia).
      eapply so_linked_ext;
        [ apply (H y Hy) | reflexivity ..
        | eapply invoices_snoc; reflexivity | exact Hfinal | exact (H y Hy) ].
    + simpl. rewrite Nat.eqb_refl. unfold so_linked. simpl.
      split; [discriminate|]. split.
      * eexists (Invoice.mk _ _ _ _ _). simpl. split; [reflexivity|].
        split; [|split; reflexivity].
        unfold invoice_lookup. subst db'. store_simpl.
        rewrite find_snoc_new.
        -- simpl. rewrite Nat.eqb_refl. reflexivity.
        -- apply find_fresh_key. eapply Forall_below_mono; [|apply Ht]. lia.
      * eexists. split.
        -- unfold quote_lookup. subst db'. store_simpl.
           rewrite (find_update_where Quote.quote_id) by reflexivity.
           pose proof Hquote as Hquote'. rewrite <- Hqid in Hquote'.
           erewrite (find_update_where_skip Quote.quote_id);
             [ | reflexivity | exact Hquote'
               | simpl; rewrite !Nat.eqb_refl; simpl; apply andb_false_r ].
           simpl. rewrite Nat.eqb_refl. reflexivity.
        -- simpl. repeat split.
  - (* a direct order *)
    match goal with |- Forall (so_linked ?d) _ => set (db' := d) end.
    rewrite Forall_forall in *. intros s Hin.
    apply In_update_where in Hin. destruct Hin as [y [Hy ->]].
    apply in_app_or in Hy. destruct Hy as [Hy | [<- | []]].
    + destruct Hk as [_ _ _ Hso _ _]. rewrite Forall_forall in Hso.
      pose proof (Hso y Hy) as Hlt. simpl.
      assert (Nat.eqb (SalesOrder.so_id y) (uuid_supply db) = false) as ->
        by (apply Nat.eqb_neq; lia).
      eapply so_linked_ext;
        [ apply (H y Hy) | reflexivity ..
        | eapply invoices_snoc; reflexivity
        | apply quotes_same; reflexivity | exact (H y Hy) ].
    + simpl. rewrite Nat.eqb_refl. unfold so_linked. simpl.
      split; [discriminate|]. split; [|exact I].
      eexists (Invoice.mk _ _ _ _ _). simpl. split; [reflexivity|].
      split; [|split; reflexivity].
      unfold invoice_lookup. subst db'. store_simpl.
      rewrite find_snoc_new.
      * simpl. rewrite Nat.eqb_refl. reflexivity.
      * apply find_fresh_key. eapply Forall_below_mono; [|apply Ht]. lia.
  - (* a partial delivery *)
    apply Forall_update_where.
    + old_orders H; [apply invoices_same; reflexivity | apply quotes_same; reflexivity].
    + intros x _ Hx _. eapply (so_linked_ext _ _ x);
        [ discriminate | reflexivity ..
        | intros inv Hi; exists inv; split; [exact Hi | auto]
        | intros q quote Hq _; exact Hq | exact Hx ].
  - (* the last delivery *)
    apply Forall_update_where.
    + old_orders H; [apply invoices_same; reflexivity | apply quotes_same; reflexivity].
    + intros x _ Hx _. eapply (so_linked_ext _ _ x);
        [ discriminate | reflexivity ..
        | intros inv Hi; exists inv; split; [exact Hi | auto]
        | intros q quote Hq _; exact Hq | exact Hx ].
  - (* a cancellation *)
    apply Forall_update_where.
    + old_orders H; [apply invoices_same; reflexivity | apply quotes_same; reflexivity].
    + intros x _ Hx _. eapply (so_linked_ext _ _ x);
        [ discriminate | reflexivity ..
        | intros inv Hi; exists inv; split; [exact Hi | auto]
        | intros q quote Hq _; exact Hq | exact Hx ].
  - (* voiding an invoice *)
    old_orders H; [eapply invoices_voided; reflexivity | apply quotes_same; reflexivity].
Qed.

Lemma sales_linked_run rs : sales_linked (run rs).
Proof.
  induction rs as [|r rs IH] using rev_ind; [constructor|].
  rewrite run_snoc.
  apply sales_linked_step; auto using keys_inv_run, table_keys_run.
Qed.

(** X10. In every reachable store each sales order has an invoice that names
    it back (and names the same quote), is never in
    [pending_price_negotiation], and, when it came from a quote, that quote
    is accepted and final and has the order's client, item, quantity and
    price. *)
Theorem sales_orders_are_linked (rs : list Request) (s : SalesOrder.t) :
  In s (sales_orders (run rs)) -> so_linked (run rs) s.
Proof.
  intros Hs. pose proof (sales_linked_run rs) as H.
  unfold sales_linked in H. rewrite Forall_forall in H. apply H, Hs.
Qed.

Lemma sales_orders_are_linked_witness :
  so_linked (run accepted_quote_scenario) order_from_quote.
Proof.
  apply (sales_orders_are_linked accepted_quote_scenario order_from_quote).
  vm_compute. auto.
Defined.


(** ** Ordering and cancelling *)



(** A direct order of 3 items at the price 10^28 + 1 is worth
    30000000000000000000000000003; the balance keeps 28 digits of it. *)
Example direct_order_is_rounded :
  option_map (client_balance 0%nat)
    (match create_sales_order
             (SalesOrderCreate.mk 0%nat 1%nat 3 (10 ^ 28 + 1)) (run client_and_item) with
     | Ok _ db => Some db
     | Raise _ => None
     end)
  = Some (Some (inject_Z (3 * 10 ^ 28))).
Proof. vm_compute. reflexivity. Qed.

(** ** Voiding an invoice *)

Lemma invoices_sound_run rs : invoices_sound (run rs).
Proof.
  apply run_invariant; [constructor|].
  unfold invoices_sound. intros db r H.
  destruct r; simpl; unfold_handlers.
  all: open_handler; store_simpl; try assumption.
  all: repeat first [ apply Forall_snoc | apply Forall_update_where ];
       try assumption; simpl; intros.
  all: split; [discriminate | split; intros; first [reflexivity | discriminate]].
Qed.

Lemma update_where_idem {A} (p : A -> bool) f (l : list A) :
  (forall x, p x = true -> p (f x) = true /\ f (f x) = f x) ->
  update_where p f (update_where p f l) = update_where p f l.
Proof.
  intros H. unfold update_where. rewrite map_map. apply map_ext.
  intros x. destruct (p x) eqn:E.
  - destruct (H x E) as [-> ->]. reflexivity.
  - rewrite E. reflexivity.
Qed.

(** X12. No reachable invoice is [paid], and an invoice is flagged [voided]
    exactly when its payment status is [voided].  So voiding an existing
    invoice always succeeds, marks it voided, and voiding it again changes
    nothing. *)
Theorem void_invoice_always_allowed (rs : list Request) (invoice_id : Id) (inv : Invoice.t) :
  invoice_lookup invoice_id (run rs) = Some inv ->
  Invoice.payment_status inv <> pay_paid /\
  (Invoice.voided inv = true <-> Invoice.payment_status inv = pay_voided) /\
  exists db',
    void_invoice invoice_id (run rs) = Ok tt db' /\
    invoice_lookup invoice_id db' = Some (Invoice.set_voided pay_voided true inv) /\
    step db' (POST_invoices_void invoice_id) = db'.
Proof.
  unfold invoice_lookup. intros Hf.
  pose proof (invoices_sound_run rs) as Hs.
  destruct (find_Forall _ _ _ _ Hs Hf) as [Hnp Hv].
  destruct (found_key _ _ _ _ Hf) as [_ Hid].
  split; [exact Hnp|]. split; [exact Hv|].
  assert (PaymentStatus_eqb (Invoice.payment_status inv) pay_paid = false) as Hb
    by (destruct (Invoice.payment_status inv); simpl; congruence).
  unfold void_invoice. unfold_session. rewrite Hf, Hb.
  eexists. split; [reflexivity|]. store_simpl.
  assert (find (fun i => Nat.eqb (Invoice.invoice_id i) invoice_id)
            (update_where (fun i => Nat.eqb (Invoice.invoice_id i) (Invoice.invoice_id inv))
               (Invoice.set_voided pay_voided true) (invoices (run rs)))
          = Some (Invoice.set_voided pay_voided true inv)) as Hf'.
  { rewrite (find_update_where Invoice.invoice_id) by reflexivity.
    rewrite Hf. simpl. rewrite Nat.eqb_refl. reflexivity. }
  split; [exact Hf'|].
  simpl. unfold commit, void_invoice. unfold_session. store_simpl.
  rewrite Hf'. simpl.
  destruct (run rs); unfold set_invoices; simpl. f_equal.
  apply update_where_idem. intros x Hx. split; [exact Hx | reflexivity].
Qed.

Lemma void_invoice_always_allowed_witness :
  Invoice.payment_status (Invoice.mk 3%nat 2%nat None pay_pending false) <> pay_paid /\
  (Invoice.voided (Invoice.mk 3%nat 2%nat None pay_pending false) = true
     <-> Invoice.payment_status (Invoice.mk 3%nat 2%nat None pay_pending false) = pay_voided) /\
  exists db',
    void_invoice 3%nat (run cancel_scenario) = Ok tt db' /\
    invoice_lookup 3%nat db'
      = Some (Invoice.set_voided pay_voided true
                (Invoice.mk 3%nat 2%nat None pay_pending false)) /\
    step db' (POST_invoices_void 3%nat) = db'.
Proof.
  apply (void_invoice_always_allowed cancel_scenario 3%nat
           (Invoice.mk 3%nat 2%nat None pay_pending false)).
  reflexivity.
Defined.

(** ** An accepted quote is closed *)

Lemma final_quote_step db r q quote :
  quote_lookup q db = Some quote -> Quote.is_final quote = true ->
  quote_lookup q (step db r) = Some quote.
Proof.
  unfold quote_lookup. intros Hq Hf.
  destruct r; simpl; unfold_handlers.
  all: open_handler; store_simpl; try assumption.
  - (* a new quote *)
    apply find_snoc_old. exact Hq.
  - (* a revision *)
    apply find_snoc_old.
    match goal with Hold : find _ (quotes db) = Some ?t |- _ =>
      pose proof (final_quote_differs _ _ _ _ _ Hold ltac:(assumption) Hq Hf) as Hne end.
    apply (find_update_where_skip Quote.quote_id); [reflexivity | | exact Hne].
    apply (find_update_where_skip Quote.quote_id); [reflexivity | exact Hq | exact Hne].
  - (* accepting another quote *)
    apply (find_update_where_skip Quote.quote_id);
      [reflexivity | | eapply final_quote_differs; eassumption].
    apply (find_update_where_skip Quote.quote_id); [reflexivity | exact Hq |].
    rewrite Hf. simpl. rewrite andb_false_r. reflexivity.
Qed.

Lemma final_quote_steps rs : forall db q quote,
  quote_lookup q db = Some quote -> Quote.is_final quote = true ->
  quote_lookup q (fold_left step rs db) = Some quote.
Proof.
  induction rs as [|r rs IH]; intros db q quote Hq Hf; simpl; [exact Hq|].
  apply IH; [apply final_quote_step; assumption | exact Hf].
Qed.

(** X13. Once a quote has been accepted it stays as it is, final and
    [accepted], whatever requests follow, and it can be neither accepted
    again nor revised: both requests are answered with 400 in every later
    store. *)
Theorem accepted_quote_is_closed (db : Db) (quote_id : Id) (r : Id * Id) (db' : Db)
    (later : list Request) :
  accept_quote quote_id db = Ok r db' ->
  exists accepted,
    quote_lookup quote_id db' = Some accepted /\
    Quote.is_final accepted = true /\
    Quote.status accepted = q_accepted /\
    quote_lookup quote_id (fold_left step later db') = Some accepted /\
    accept_quote quote_id (fold_left step later db') = Raise 400 /\
    (forall payload,
       QuoteReviseRequest.valid payload = true ->
       revise_quote quote_id payload (fold_left step later db') = Raise 400).
Proof.
  intros H.
  assert (exists quote,
            find (fun q => Nat.eqb (Quote.quote_id q) quote_id) (quotes db) = Some quote)
    as [quote Hq].
  { revert H. unfold accept_quote. unfold_session.
    destruct (find _ (quotes db)) as [quote|]; [eauto | discriminate]. }
  destruct (accept_quote_effect _ _ _ _ _ H Hq) as [[q' [Hq' [Hfin Hst]]] _].
  pose proof (final_quote_steps later db' quote_id q' Hq' Hfin) as Hlater.
  exists q'. split; [exact Hq'|]. split; [exact Hfin|]. split; [exact Hst|].
  split; [exact Hlater|]. unfold quote_lookup in Hlater. split.
  - unfold accept_quote. unfold_session. rewrite Hlater, Hst. reflexivity.
  - intros payload Hv. unfold revise_quote. unfold_session.
    rewrite Hv. store_simpl. rewrite Hlater, Hfin. reflexivity.
Qed.

Lemma accepted_quote_is_closed_witness :
  exists accepted,
    quote_lookup 2%nat (run accepted_quote_scenario) = Some accepted /\
    Quote.is_final accepted = true /\
    Quote.status accepted = q_accepted /\
    quote_lookup 2%nat
      (fold_left step [POST_quotes (QuoteCreate.mk 0%nat 1%nat 10 (3#1));
                       POST_quotes_accept 5%nat]
                 (run accepted_quote_scenario)) = Some accepted /\
    accept_quote 2%nat
      (fold_left step [POST_quotes (QuoteCreate.mk 0%nat 1%nat 10 (3#1));
                       POST_quotes_accept 5%nat]
                 (run accepted_quote_scenario)) = Raise 400 /\
    (forall payload,
       QuoteReviseRequest.valid payload = true ->
       revise_quote 2%nat payload
         (fold_left step [POST_quotes (QuoteCreate.mk 0%nat 1%nat 10 (3#1));
                          POST_quotes_accept 5%nat]
                    (run accepted_quote_scenario)) = Raise 400).
Proof.
  apply (accepted_quote_is_closed
           (run (client_and_item ++ [POST_quotes (QuoteCreate.mk 0%nat 1%nat 10 (3#1))]))
           2%nat (2%nat, 3%nat) (run accepted_quote_scenario)).
  vm_compute. reflexivity.
Defined.

(** ** Life cycle of a sales order *)

Lemma so_moves_refl s : so_moves s s.
Proof. destruct s; simpl; auto. Qed.

Lemma so_moves_trans a b c : so_moves a b -> so_moves b c -> so_moves a c.
Proof.
  destruct a; simpl; auto; intros H1 H2.
  - destruct H1 as [->| ->]; simpl in H2; auto.
  - subst b. exact H2.
  - subst b. exact H2.
Qed.

Lemma so_advances_refl s : so_advances s s.
Proof. unfold so_advances. repeat split. apply so_moves_refl. Qed.

Lemma so_advances_trans a b c : so_advances a b -> so_advances b c -> so_advances a c.
Proof.
  unfold so_advances.
  intros [A1 [A2 [A3 [A4 [A5 A6]]]]] [B1 [B2 [B3 [B4 [B5 B6]]]]].
  repeat split; try congruence. eapply so_moves_trans; eassumption.
Qed.

Lemma so_advances_step db r so_id s :
  so_lookup so_id db = Some s ->
  exists s', so_lookup so_id (step db r) = Some s' /\ so_advances s s'.
Proof.
  unfold so_lookup. intros Hs.
  destruct r; simpl; unfold_handlers.
  all: open_handler; store_simpl.
  all: try (exists s; split; [assumption | apply so_advances_refl]).
  all: rewrite (find_update_where SalesOrder.so_id) by reflexivity.
  all: try rewrite (find_snoc_old _ _ _ _ Hs).
  all: try rewrite Hs.
  all: simpl.
  all: match goal with
       | |- context [Nat.eqb (SalesOrder.so_id ?p) ?k] =>
           destruct (Nat.eqb (SalesOrder.so_id p) k) eqn:E
       end.
  all: try (eexists; split; [reflexivity | apply so_advances_refl]).
  all: try (eexists; split; [reflexivity|]; unfold so_advances; simpl;
            repeat split; apply so_moves_refl).
  all: apply Nat.eqb_eq in E; destruct (found_key _ _ _ _ Hs) as [_ Hp].
  all: match goal with
       | H : find _ _ = Some ?t, E : SalesOrder.so_id ?p = SalesOrder.so_id ?t |- _ =>
           destruct (found_key _ _ _ _ H) as [_ Ht];
           assert (t = p) as -> by (rewrite <- Ht, <- E, Hp in H; congruence)
       end.
  all: eexists; split; [reflexivity|].
  all: unfold so_advances; simpl; repeat split.
  all: destruct (SalesOrder.order_status s); simpl in *; auto; discriminate.
Qed.

Lemma so_advances_steps rs : forall db so_id s,
  so_lookup so_id db = Some s ->
  exists s', so_lookup so_id (fold_left step rs db) = Some s' /\ so_advances s s'.
Proof.
  induction rs as [|r rs IH]; intros db so_id s H; simpl.
  - exists s. split; [assumption | apply so_advances_refl].
  - destruct (so_advances_step db r so_id s H) as [s1 [H1 A1]].
    destruct (IH _ _ _ H1) as [s2 [H2 A2]].
    exists s2. split; [assumption | eapply so_advances_trans; eassumption].
Qed.

(** X14. A sales order keeps its client, item, quantity and price whatever
    requests follow, and its status only moves along the life cycle:
    [delivered] and [cancelled] are final, and a partially delivered order
    can only stay so or become [delivered]. *)
Theorem sales_order_only_advances (db : Db) (rs : list Request) (so_id : Id)
    (s : SalesOrder.t) :
  so_lookup so_id db = Some s ->
  exists s', so_lookup so_id (fold_left step rs db) = Some s' /\ so_advances s s'.
Proof. apply so_advances_steps. Qed.

Lemma sales_order_only_advances_witness :
  exists s',
    so_lookup 2%nat
      (fold_left step
         [POST_orders_cancel 2%nat;
          POST_orders_deliver 2%nat (DeliveryOutboundRequest.mk 4)]
         (run cancel_scenario)) = Some s' /\
    so_advances confirmed_order s'.
Proof.
  apply (sales_order_only_advances (run cancel_scenario)
           [POST_orders_cancel 2%nat;
            POST_orders_deliver 2%nat (DeliveryOutboundRequest.mk 4)]
           2%nat confirmed_order).
  reflexivity.
Defined.


(** ** Inventory views *)

(** X16. Whatever order the database returns the rows in, the item list has
    one entry for every stock item.  The list and the item detail agree on
    which items are below their safety stock but not on what to reorder: for
    an item below its safety stock, in a reachable store, the list suggests
    twice the safety stock and the detail suggests that minus the quantity on
    hand (still positive), with a negative [buffer_remaining]; for any other
    item both suggest 0. *)
Theorem reorder_suggestions (rs : list Request) (items : list StockItem.t)
    (item : StockItem.t) :
  Permutation items (stock_items (run rs)) ->
  In item (stock_items (run rs)) ->
  exists d,
    get_inventory_item_detail (StockItem.item_id item) (run rs) = Ok d (run rs) /\
    In (list_entry item) (get_inventory_items items) /\
    Permutation (get_inventory_items items) (map list_entry (stock_items (run rs))) /\
    ItemDetailResponse.below_safety_stock d = below_safety item /\
    ItemListResponse.below_safety_stock (list_entry item) = below_safety item /\
    (if below_safety item
     then ItemListResponse.suggested_reorder_qty (list_entry item)
            = 2 * StockItem.safety_stock item /\
          ItemDetailResponse.suggested_reorder_qty d
            = ItemListResponse.suggested_reorder_qty (list_entry item)
              - StockItem.item_qty item /\
          0 < ItemDetailResponse.suggested_reorder_qty d /\
          ItemDetailResponse.buffer_remaining d < 0
     else ItemListResponse.suggested_reorder_qty (list_entry item) = 0 /\
          ItemDetailResponse.suggested_reorder_qty d = 0 /\
          0 <= ItemDetailResponse.buffer_remaining d).
Proof.
  intros Hperm Hin.
  destruct (stock_inv_run rs) as [Hq _ _ _]. pose proof (table_keys_run rs) as Ht.
  rewrite Forall_forall in Hq. specialize (Hq item Hin).
  unfold get_inventory_item_detail, get_inventory_items. unfold_session.
  rewrite (find_unique_key StockItem.item_id) by (try apply Ht; exact Hin).
  eexists. split; [reflexivity|].
  split; [apply in_map, (Permutation_in _ (Permutation_sym Hperm)), Hin|].
  split; [apply Permutation_map, Hperm|].
  unfold list_entry, below_safety.
  cbn [ItemDetailResponse.below_safety_stock ItemDetailResponse.suggested_reorder_qty
       ItemDetailResponse.buffer_remaining ItemListResponse.below_safety_stock
       ItemListResponse.suggested_reorder_qty].
  split; [reflexivity|]. split; [reflexivity|].
  destruct (StockItem.item_qty item <? StockItem.safety_stock item) eqn:E.
  - apply Z.ltb_lt in E. lia.
  - apply Z.ltb_ge in E. lia.
Qed.

Lemma reorder_suggestions_witness :
  exists d,
    get_inventory_item_detail 0%nat (run low_stock_scenario)
      = Ok d (run low_stock_scenario) /\
    In (list_entry (StockItem.mk 0%nat "bolt" 10 (2#1) 20))
       (get_inventory_items [StockItem.mk 0%nat "bolt" 10 (2#1) 20]) /\
    Permutation (get_inventory_items [StockItem.mk 0%nat "bolt" 10 (2#1) 20])
                (map list_entry (stock_items (run low_stock_scenario))) /\
    ItemDetailResponse.below_safety_stock d = true /\
    ItemListResponse.below_safety_stock
      (list_entry (StockItem.mk 0%nat "bolt" 10 (2#1) 20)) = true /\
    (ItemListResponse.suggested_reorder_qty
       (list_entry (StockItem.mk 0%nat "bolt" 10 (2#1) 20)) = 2 * 20 /\
     ItemDetailResponse.suggested_reorder_qty d
       = ItemListResponse.suggested_reorder_qty
           (list_entry (StockItem.mk 0%nat "bolt" 10 (2#1) 20)) - 10 /\
     0 < ItemDetailResponse.suggested_reorder_qty d /\
     ItemDetailResponse.buffer_remaining d < 0).
Proof.
  apply (reorder_suggestions low_stock_scenario
           [StockItem.mk 0%nat "bolt" 10 (2#1) 20]
           (StockItem.mk 0%nat "bolt" 10 (2#1) 20)).
  - apply Permutation_refl.
  - vm_compute. auto.
Defined.


(** ** Unknown keys *)

(** X18. Procurement requests that name a purchase order or a bill that does
    not exist are answered with 404, whatever else the request says; creating
    a purchase order for an unknown supplier or an unknown stock item is
    answered with 400. *)
Theorem procurement_unknown_keys (db : Db) :
  (forall po_id,
     po_lookup po_id db = None ->
     get_po po_id db = Raise 404 /\
     receive_po po_id db = Raise 404 /\
     create_bill po_id db = Raise 404 /\
     (forall payload,
        POAcknowledgeRequest.valid payload = true ->
        acknowledge_po po_id payload db = Raise 404)) /\
  (forall bill_id payload,
     BillPaymentRequest.valid payload = true ->
     find (fun b => Nat.eqb (Bill.bill_id b) bill_id) (bills db) = None ->
     pay_bill bill_id payload db = Raise 404) /\
  (forall payload,
     PurchaseOrderCreate.valid payload = true ->
     find (fun s => Nat.eqb (Supplier.supplier_id s) (PurchaseOrderCreate.supplier_id payload))
          (suppliers db) = None \/
     find (fun i => Nat.eqb (StockItem.item_id i) (PurchaseOrderCreate.item_id payload))
          (stock_items db) = None ->
     create_po payload db = Raise 400).
Proof.
  unfold po_lookup. split; [|split].
  - intros po_id H. repeat split.
    + unfold get_po. unfold_session. rewrite H. reflexivity.
    + unfold receive_po. unfold_session. rewrite H. reflexivity.
    + unfold create_bill. unfold_session. rewrite H. reflexivity.
    + intros payload Hv. unfold acknowledge_po. unfold_session.
      rewrite Hv, H. reflexivity.
  - intros bill_id payload Hv H. unfold pay_bill. unfold_session.
    rewrite Hv, H. reflexivity.
  - intros payload Hv [H|H]; unfold create_po; unfold_session; rewrite Hv.
    + rewrite H. reflexivity.
    + destruct (find _ (suppliers db)); [rewrite H|]; reflexivity.
Qed.

Lemma procurement_unknown_keys_witness :
  create_po (PurchaseOrderCreate.mk 7%nat 1%nat 50 (10#1)) (run supplier_and_item)
  = Raise 400.
Proof.
  apply (proj2 (proj2 (procurement_unknown_keys (run supplier_and_item)))
           (PurchaseOrderCreate.mk 7%nat 1%nat 50 (10#1))).
  - reflexivity.
  - left. reflexivity.
Defined.



Example quote_for_unknown_item :
  create_quote (QuoteCreate.mk 0%nat 9%nat 10 (3#1)) (run client_and_item) = Raise 500 /\
  create_quote (QuoteCreate.mk 7%nat 1%nat 10 (3#1)) (run client_and_item) = Raise 500 /\
  create_sales_order (SalesOrderCreate.mk 7%nat 1%nat 1 3) (run client_and_item)
  = Raise 500.
Proof. repeat split; reflexivity. Qed.

